(** * Habit-Engine: the behavioural modelling pipeline

  A shallow embedding of the core of the Habit-Engine repository:

  - [Recommender]  src/processing/recommender.py  (the decision cascade)
  - [Features]     src/processing/features.py     (FeatureEngineer.enhance)
  - [Burnout]      src/models/burnout.py          (episode segmentation, train, predict)
  - [Adherence]    src/models/adherence.py        (train, predict)
  - [Anomaly]      src/models/anomaly.py          (train, check)
  - [Aggregator]   src/processing/aggregator.py   (DailyAggregator.aggregate)
  - [Api]          src/api/main.py                (the train-custom endpoint)

  Numbers.  Python floats that are only compared with decimal constants
  (the recommender's inputs, the models' default outputs) are rationals
  [Q], each standing for the finite value of the float; the comparisons are
  then exact and executable.  The feature table needs a square root, so its
  columns are real numbers [R]; a NaN cell of a pandas column is [None].
  The values of the raw events the aggregator sums are rationals as well.
  Calendar dates are day numbers in [Z].

  Layout.  The embedding of the source comes first, module by module; then
  the definitions the specification is read with; then the properties: one
  theorem per claim of the specification (C1 to C10), followed by further
  properties of the code (X1 to X26). *)

From Stdlib Require Import ZArith QArith Reals Psatz List String Bool.
From stdpp Require Import base option list sorting gmap strings.

Local Open Scope string_scope.
Local Open Scope list_scope.

(** ** Python values and dictionaries *)

Module Py.

(** The values stored in the result dictionaries of the models. *)
Inductive value :=
| VBool (b : bool)
| VInt (z : Z)
| VFloat (q : Q)
| VStr (s : string)
| VOpaque (n : nat).   (* a number or table computed by scikit-learn / lifelines *)

(** A [dict] with string keys. *)
Abbreviation dict := (gmap string value).

(** The exceptions the modelled code raises. *)
Inductive exn :=
| IndexError
| KeyError (key : string)
| ValueError (msg : string)
| LibraryError (msg : string).   (* raised inside scikit-learn / lifelines *)

(** The outcome of a call: a returned value or a raised exception. *)
Inductive result (A : Type) :=
| Return (a : A)
| Raise (e : exn).

Arguments Return {A} a.
Arguments Raise {A} e.

(** [d.get(k, dflt)] *)
Definition get {A} (d : gmap string A) (k : string) (dflt : A) : A :=
  default dflt (d !! k).

(** An f-string with one formatted number: [f"{before}{value:spec}{after}"];
    a plain literal is [Lit]. *)
Inductive text :=
| Lit (s : string)
| Fmt (before : string) (value : Q) (spec : string) (after : string).

(** Float comparisons [<], [<=], [>] on finite values. *)
Definition ltb (x y : Q) : bool := negb (Qle_bool y x).
Definition leb (x y : Q) : bool := Qle_bool x y.
Definition gtb (x y : Q) : bool := ltb y x.

End Py.

(** ** src/processing/recommender.py *)

Module Recommender.
Import Py.

(** [RecommendationType] of src/domain/api_schemas.py *)
Inductive RecommendationType :=
| MAINTAIN | SCALE_DOWN | RECOVERY | ANCHORING | CELEBRATION.

(** [EngineResponse] of src/domain/api_schemas.py *)
Record EngineResponse := {
  user_id : string;
  date : string;
  adherence_probability : Q;
  burnout_risk_score : Q;
  is_anomaly : bool;
  recommendation_type : RecommendationType;
  message_title : string;
  message_body : string;
  suggested_action : string;
  why_this_recommendation : list text
}.

(** The local variables of [generate_recommendation] that the cascade
    assigns. *)
Record locals := {
  rec_type : RecommendationType;
  title : string;
  body : string;
  action : string;
  reasons : list text
}.

Definition initial : locals :=
  {| rec_type := MAINTAIN;
     title := "Keep it up!";
     body := "You're on track.";
     action := "Complete your standard session.";
     reasons := [] |}.

(** [reasons.append(t)] *)
Definition append (l : locals) (t : text) : locals :=
  {| rec_type := rec_type l; title := title l; body := body l;
     action := action l; reasons := reasons l ++ [t] |}.

Definition assign (ty : RecommendationType) (t b a : string) (l : locals) : locals :=
  {| rec_type := ty; title := t; body := b; action := a; reasons := reasons l |}.

(** The if/elif chain, lines 27-94. *)
Definition cascade (adherence_prob burnout_risk : Q) (anomaly : bool)
    (recent_features : gmap string Q) : locals :=
  let current_sleep := get recent_features "sleep_duration_minutes" 480%Q in
  if ltb current_sleep 180 then
    append (append
      (assign RECOVERY "Sleep First, Train Later"
         "You got less than 3 hours of sleep. Training now is counter-productive and dangerous."
         "Skip the workout. Go get a nap or go to bed early tonight." initial)
      (Fmt "Severe sleep deprivation detected (" (current_sleep / 60) ".1f" " hours)."))
      (Lit "Cognitive and physical recovery is severely compromised.")
  else if anomaly then
    append
      (assign RECOVERY "Check-in time"
         "We noticed some unusual patterns today. Everything okay?"
         "Log a quick mood check-in instead of a workout." initial)
      (Lit "Behavioral anomaly detected (isolation forest).")
  else if gtb burnout_risk 1.2 then
    append (append
      (assign SCALE_DOWN "Protect your energy"
         "Your stats suggest you're pushing hard. Let's avoid burnout."
         "Do 50% of your planned duration today." initial)
      (Fmt "High burnout risk score (" burnout_risk ".2f" ")."))
      (Lit "Recent effort ratio is unsustainable.")
  else if ltb adherence_prob 0.4 then
    let missed_days := get recent_features "consecutive_misses" 0%Q in
    let '(t, b) :=
      if leb missed_days 7 then
        ("Don't break the chain",
         "You missed a few days, but it happens. The key is to get back to it immediately to keep your habit strong.")
      else
        ("Everything okay?",
         "We noticed you've been away for a bit. Don't worry—failures are just data points on the road to success. We can get back on the wagon today.")
    in
    append (append
      (assign ANCHORING t b
         "Start small: Just do 5 minutes of movement to break the seal." initial)
      (Fmt "Low adherence probability (" adherence_prob ".1%" ")."))
      (Lit "Focus is on re-establishing the habit loop, not intensity.")
  else if ltb adherence_prob 0.5 then
    append (append
      (assign MAINTAIN "Time to Shift Gears"
         "You've missed a few days, but momentum is waiting for you. Try pushing a little harder today to get back on track."
         "Commit to your standard session today—you can do this." initial)
      (Fmt "Adherence probability is borderline (" adherence_prob ".1%" ")."))
      (Lit "A strong session today will reverse the negative trend.")
  else if leb adherence_prob 0.7 then
    append
      (assign MAINTAIN "Good Work"
         "You are doing well! Hang in there and keep the momentum building."
         "Stick to the plan. Consistency is compounding." initial)
      (Fmt "Stable adherence probability (" adherence_prob ".1%" ").")
  else
    append
      (assign MAINTAIN "Keep It Up!"
         "Excellent dedication. You're consistently showing up and the results show."
         "Use this momentum to your advantage—great day for a PR or just enjoying the flow." initial)
      (Fmt "High adherence probability (" adherence_prob ".1%" ").").

Definition generate_recommendation (uid date_str : string)
    (adherence_prob burnout_risk : Q) (anomaly : bool)
    (recent_features : gmap string Q) : EngineResponse :=
  let l := cascade adherence_prob burnout_risk anomaly recent_features in
  {| user_id := uid;
     date := date_str;
     adherence_probability := adherence_prob;
     burnout_risk_score := burnout_risk;
     is_anomaly := anomaly;
     recommendation_type := rec_type l;
     message_title := title l;
     message_body := body l;
     suggested_action := action l;
     why_this_recommendation := reasons l |}.

End Recommender.

(** ** src/domain/schemas.py *)

Module Schemas.

(** [DailyBehavior]: the canonical daily state.  [date] is the day number of
    the calendar date (Python's [date.toordinal()]).  The optional time
    stamps and the cognitive fields are carried through the pipeline
    untouched and are left out. *)
Record DailyBehavior := {
  date : Z;
  total_steps : Z;
  exercise_minutes : R;
  exercise_done : bool;
  sleep_duration_minutes : R;
  data_missing_flag : bool
}.

End Schemas.

(** ** The pandas operations the pipeline uses

    A column (Series) is a list in row order; a NaN cell is [None]. *)

Module Pd.

Local Open Scope R_scope.

(** [s.shift(1)]: every value moves one row down, the first row is NaN. *)
Definition shift {A} (s : list A) : list (option A) :=
  take (length s) (None :: (Some <$> s)).

(** The window of at most [w] rows that ends at row [i]. *)
Definition window {A} (w i : nat) (s : list A) : list A :=
  drop (S i - w) (take (S i) s).

(** [s.rolling(window=w, min_periods=mp).agg()] on a column without NaN:
    the aggregate of the window ending at each row, NaN while the window
    holds fewer than [mp] rows. *)
Definition rolling {A B} (w mp : nat) (agg : list A → B) (s : list A)
    : list (option B) :=
  imap (λ i _, let win := window w i s in
               if (mp <=? length win)%nat then Some (agg win) else None) s.

Definition sum (l : list R) : R := foldr Rplus 0 l.

Definition mean (l : list R) : R := sum l / INR (length l).

(** The sample standard deviation (pandas' default [ddof=1]). *)
Definition std (l : list R) : R :=
  sqrt (sum ((λ x, (x - mean l) ^ 2) <$> l) / (INR (length l) - 1)).

(** The number of [True] cells: the sum of a boolean column. *)
Definition count_true (l : list bool) : R :=
  INR (length (filter (λ b, b = true) l)).

(** [s != s.shift()]: a NaN differs from every value, so the first row is
    [True]. *)
Definition ne_shift {A} `{EqDecision A} (s : list A) : list bool :=
  zip_with (λ x p, bool_decide (Some x ≠ p)) s (shift s).

(** [s.cumsum()] on an integer column. *)
Fixpoint cumsum_from (acc : nat) (s : list nat) : list nat :=
  match s with
  | [] => []
  | x :: s' => (acc + x)%nat :: cumsum_from (acc + x) s'
  end.

Definition cumsum (s : list nat) : list nat := cumsum_from 0 s.

(** [rows.groupby(key)]: the groups in ascending order of their key, each
    with its rows in frame order. *)
Definition groupby {A} (rows : list (nat * A)) : list (nat * list A) :=
  (λ k, (k, snd <$> filter (λ kr, kr.1 = k) rows))
    <$> merge_sort le (remove_dups (fst <$> rows)).

(** [s.shift(-1)]: every value moves one row up, the last row is NaN. *)
Definition shift_back {A} (s : list A) : list (option A) :=
  drop 1 ((Some <$> s) ++ [None]).

(** [vals.groupby(keys).cumsum()]: at each row the sum of the values of the
    rows up to it that carry the same key. *)
Definition groupby_cumsum (keys vals : list nat) : list nat :=
  imap (λ i k, sum_list (snd <$> filter (λ kv, kv.1 = k) (take (S i) (zip keys vals))))
       keys.

(** Arithmetic on cells: a NaN operand gives NaN. *)
Definition lift2 (f : R → R → R) (x y : option R) : option R :=
  match x, y with
  | Some a, Some b => Some (f a b)
  | _, _ => None
  end.

(** [df.fillna(d)] on one cell. *)
Definition fillna (d : R) (c : option R) : R := default d c.

End Pd.

(** ** src/processing/features.py *)

Module Features.
Import Schemas.

Local Open Scope R_scope.

Definition epsilon : R := 1e-6.

(** The order of the rows: by date. *)
Definition date_le (a b : DailyBehavior) : Prop := (date a ≤ date b)%Z.

#[global] Instance date_le_dec : RelDecision date_le :=
  λ a b, decide (date a ≤ date b)%Z.

(** [df.sort_values('date')].  The records of a history have distinct
    dates, and then every sorting algorithm gives this result; on equal
    dates this sort keeps the input order. *)
Definition sort_values (daily_data : list DailyBehavior) : list DailyBehavior :=
  merge_sort date_le daily_data.

(** The columns [enhance] computes, each over the whole sorted frame and
    before the final [fillna(0)]. *)
Module Col.

Definition total_steps (df : list DailyBehavior) : list R :=
  (λ d, IZR (Schemas.total_steps d)) <$> df.

Definition sleep_duration_minutes (df : list DailyBehavior) : list R :=
  Schemas.sleep_duration_minutes <$> df.

Definition prev_steps (df : list DailyBehavior) : list (option R) :=
  Pd.shift (total_steps df).

Definition prev_sleep_dur (df : list DailyBehavior) : list (option R) :=
  Pd.shift (sleep_duration_minutes df).

(** [.shift(1).astype(float)] *)
Definition prev_exercise_done (df : list DailyBehavior) : list (option R) :=
  fmap (M := option) (λ b : bool, if b then 1 else 0) <$> Pd.shift (exercise_done <$> df).

Definition steps_7d_avg (df : list DailyBehavior) : list (option R) :=
  Pd.rolling 7 1 Pd.mean (total_steps df).

Definition sleep_7d_avg (df : list DailyBehavior) : list (option R) :=
  Pd.rolling 7 1 Pd.mean (sleep_duration_minutes df).

Definition sleep_variance_7d (df : list DailyBehavior) : list (option R) :=
  Pd.rolling 7 3 Pd.std (sleep_duration_minutes df).

Definition steps_variance_7d (df : list DailyBehavior) : list (option R) :=
  Pd.rolling 7 3 Pd.std (total_steps df).

(** [1 / (1 + (sleep_variance_7d / (sleep_7d_avg + epsilon)))] *)
Definition sleep_consistency_score (df : list DailyBehavior) : list (option R) :=
  zip_with
    (λ v a, Pd.lift2 Rdiv (Some 1)
              (Pd.lift2 Rplus (Some 1)
                 (Pd.lift2 Rdiv v (Pd.lift2 Rplus a (Some epsilon)))))
    (sleep_variance_7d df) (sleep_7d_avg df).

(** [(data_missing_flag | (exercise_done == False)).rolling(window=3).sum()] *)
Definition rolling_misses_3d (df : list DailyBehavior) : list (option R) :=
  Pd.rolling 3 3 Pd.count_true
    ((λ d, data_missing_flag d || negb (exercise_done d)) <$> df).

(** [is_miss = (~df['exercise_done']).astype(int)] *)
Definition is_miss (df : list DailyBehavior) : list nat :=
  (λ d, Nat.b2n (negb (exercise_done d))) <$> df.

(** [group_id = (is_miss != is_miss.shift()).cumsum()] *)
Definition group_id (df : list DailyBehavior) : list nat :=
  Pd.cumsum (Nat.b2n <$> Pd.ne_shift (is_miss df)).

(** [is_miss.groupby(group_id).cumsum()] *)
Definition consecutive_misses (df : list DailyBehavior) : list nat :=
  Pd.groupby_cumsum (group_id df) (is_miss df).

Definition is_recovery_period (df : list DailyBehavior) : list nat :=
  (λ c, Nat.b2n ((0 <? c)%nat && (c <? 3)%nat)) <$> consecutive_misses df.

Definition is_streak_break (df : list DailyBehavior) : list nat :=
  (λ c, Nat.b2n (4 <? c)%nat) <$> consecutive_misses df.

Definition days_since_workout (df : list DailyBehavior) : list nat :=
  zip_with Nat.mul (consecutive_misses df) (is_streak_break df).

(** [df.index.dayofweek]: 0 = Monday ... 6 = Sunday; day number 1 is a
    Monday. *)
Definition day_of_week (df : list DailyBehavior) : list Z :=
  (λ d, (date d + 6) `mod` 7)%Z <$> df.

Definition is_weekend (df : list DailyBehavior) : list nat :=
  (λ w, Nat.b2n ((w =? 5)%Z || (w =? 6)%Z)) <$> day_of_week df.

Definition steps_30d_avg (df : list DailyBehavior) : list (option R) :=
  Pd.rolling 30 7 Pd.mean (total_steps df).

(** [steps_7d_avg / (steps_30d_avg + epsilon)] *)
Definition effort_ratio (df : list DailyBehavior) : list (option R) :=
  zip_with (λ a b, Pd.lift2 Rdiv a (Pd.lift2 Rplus b (Some epsilon)))
    (steps_7d_avg df) (steps_30d_avg df).

End Col.

(** A row of the frame [enhance] returns: the record of the day and the
    derived columns. *)
Record FeatureRow := {
  day : DailyBehavior;
  prev_steps : R;
  prev_sleep_dur : R;
  prev_exercise_done : R;
  steps_7d_avg : R;
  sleep_7d_avg : R;
  sleep_variance_7d : R;
  steps_variance_7d : R;
  sleep_consistency_score : R;
  rolling_misses_3d : R;
  consecutive_misses : nat;
  is_recovery_period : nat;
  is_streak_break : nat;
  days_since_workout : nat;
  day_of_week : Z;
  is_weekend : nat;
  steps_30d_avg : R;
  effort_ratio : R
}.

(** Cell [i] of a float column after [df.fillna(0)]. *)
Definition cell (col : list (option R)) (i : nat) : R :=
  Pd.fillna 0 (mjoin (col !! i)).

(** Cell [i] of an integer column. *)
Definition icell {A} (dflt : A) (col : list A) (i : nat) : A :=
  default dflt (col !! i).

(** Row [i] of the frame built from the sorted records [df]. *)
Definition row (df : list DailyBehavior) (i : nat) (d : DailyBehavior) : FeatureRow :=
  {| day := d;
     prev_steps := cell (Col.prev_steps df) i;
     prev_sleep_dur := cell (Col.prev_sleep_dur df) i;
     prev_exercise_done := cell (Col.prev_exercise_done df) i;
     steps_7d_avg := cell (Col.steps_7d_avg df) i;
     sleep_7d_avg := cell (Col.sleep_7d_avg df) i;
     sleep_variance_7d := cell (Col.sleep_variance_7d df) i;
     steps_variance_7d := cell (Col.steps_variance_7d df) i;
     sleep_consistency_score := cell (Col.sleep_consistency_score df) i;
     rolling_misses_3d := cell (Col.rolling_misses_3d df) i;
     consecutive_misses := icell 0%nat (Col.consecutive_misses df) i;
     is_recovery_period := icell 0%nat (Col.is_recovery_period df) i;
     is_streak_break := icell 0%nat (Col.is_streak_break df) i;
     days_since_workout := icell 0%nat (Col.days_since_workout df) i;
     day_of_week := icell 0%Z (Col.day_of_week df) i;
     is_weekend := icell 0%nat (Col.is_weekend df) i;
     steps_30d_avg := cell (Col.steps_30d_avg df) i;
     effort_ratio := cell (Col.effort_ratio df) i |}.

(** [FeatureEngineer.enhance]: an empty input gives the empty frame. *)
Definition enhance (daily_data : list DailyBehavior) : list FeatureRow :=
  let df := sort_values daily_data in
  imap (row df) df.

End Features.

(** ** src/models/burnout.py *)

Module Burnout.
Import Py Schemas Features.

Local Open Scope Z_scope.

(** A row of the survival frame [prepare_data] returns (a "life"). *)
Record Episode := {
  duration : Z;
  event : Z;
  avg_sleep_consistency : R;
  avg_effort_ratio : R;
  avg_sleep_var : R;
  initial_motivation : R
}.

(** The index of the feature frame is the date of the row. *)
Definition index (r : FeatureRow) : Z := date (day r).

Definition index_le (a b : FeatureRow) : Prop := index a ≤ index b.

#[global] Instance index_le_dec : RelDecision index_le :=
  λ a b, decide (index a ≤ index b).

(** [df.sort_index()]: by date, as [sort_values] of the feature engineer. *)
Definition sort_index (df : list FeatureRow) : list FeatureRow :=
  merge_sort index_le df.

Definition done (r : FeatureRow) : bool := exercise_done (day r).

(** [_aggregate_period(df, start, end, event)] with [subset = df.loc[start:end]],
    the rows whose date lies between the two labels, both included. *)
Definition _aggregate_period (df : list FeatureRow) (start end_ : Z) (ev : Z)
    : option Episode :=
  let subset := filter (λ r, start ≤ index r ∧ index r ≤ end_) df in
  if (length subset <? 3)%nat then None
  else Some
    {| duration := end_ - start;
       event := ev;
       avg_sleep_consistency := Pd.mean (sleep_consistency_score <$> subset);
       avg_effort_ratio := Pd.mean (effort_ratio <$> subset);
       avg_sleep_var := Pd.mean (sleep_variance_7d <$> subset);
       initial_motivation :=
         Pd.mean ((λ r, exercise_minutes (day r)) <$> take 3 subset) |}.

(** [df['miss_groups'] = (df['exercise_done'] != df['exercise_done'].shift()).cumsum()] *)
Definition miss_groups (df : list FeatureRow) : list nat :=
  Pd.cumsum (Nat.b2n <$> Pd.ne_shift (done <$> df)).

(** [df[df['exercise_done'] == False]], each row with its [miss_groups] cell. *)
Definition miss_rows (df : list FeatureRow) : list (nat * FeatureRow) :=
  filter (λ gr, done gr.2 = false) (zip (miss_groups df) df).

(** The first loop: the first date of every miss block of at least
    [dropout_threshold] rows. *)
Definition dropout_dates (dropout_threshold : Z) (df : list FeatureRow) : list Z :=
  omap (λ g : nat * list FeatureRow,
          if bool_decide (dropout_threshold ≤ Z.of_nat (length g.2))
          then index <$> head g.2 else None)
       (Pd.groupby (miss_rows df)).

(** [lives.append(life_attrs)] under [if life_attrs:]. *)
Definition append_life (lives : list Episode) (life_attrs : option Episode)
    : list Episode :=
  lives ++ option_list life_attrs.

(** [future[future['exercise_done'] == True].first_valid_index()] with
    [future = df[df.index > death_date]]. *)
Definition next_success (df : list FeatureRow) (death_date : Z) : option Z :=
  index <$> head (filter (λ r, done r = true)
                         (filter (λ r, index r > death_date) df)).

(** The loop [for death_date in dates_of_interest] with its [break]: the
    state is [current_start] and [lives]; the loop leaves [current_start]
    at [None] when it breaks. *)
Fixpoint walk (df : list FeatureRow) (dates : list Z) (current_start : Z)
    (lives : list Episode) : option Z * list Episode :=
  match dates with
  | [] => (Some current_start, lives)
  | death_date :: dates' =>
      if bool_decide (death_date > current_start) then
        let lives' :=
          append_life lives (_aggregate_period df current_start death_date 1) in
        match next_success df death_date with
        | Some s => walk df dates' s lives'
        | None => (None, lives')
        end
      else walk df dates' current_start lives
  end.

(** [prepare_data]: [df.index[0]] raises IndexError on a frame without
    rows.  A Timestamp is always truthy, so [if next_success] and
    [if current_start] test for [None] only. *)
Definition prepare_data (dropout_threshold : Z) (df0 : list FeatureRow)
    : result (list Episode) :=
  let df := sort_index df0 in
  let dates_of_interest := merge_sort Z.le (dropout_dates dropout_threshold df) in
  match head df, last df with
  | Some first, Some last_row =>
      let current_start := index first in
      match dates_of_interest with
      | [] =>
          Return (append_life []
                    (_aggregate_period df current_start (index last_row) 0))
      | _ =>
          match walk df dates_of_interest current_start [] with
          | (Some s, lives) =>
              if bool_decide (s ≤ index last_row) then
                Return (append_life lives
                          (_aggregate_period df s (index last_row) 0))
              else Return lives
          | (None, lives) => Return lives
          end
      end
  | _, _ => Raise IndexError
  end.

(** The model object.  lifelines is outside the repository: its fitter is
    an abstract state, [fit] may raise (it then answers [Some] message), and
    a fitted object answers [concordance_index_], [params_] and
    [predict_partial_hazard]. *)
Section Model.

Variable CoxPHFitter : Type.
Variable fit : CoxPHFitter → list Episode → CoxPHFitter * option string.
Variable concordance_index_ : CoxPHFitter → value.
Variable params_ : CoxPHFitter → value.
Variable predict_partial_hazard : CoxPHFitter → gmap string Q → Q.

Record BurnoutRiskModel := {
  dropout_threshold : Z;
  cph : CoxPHFitter;
  is_trained : bool
}.

(** [__init__(dropout_threshold_days=5)] *)
Definition init (fresh : CoxPHFitter) (dropout_threshold_days : Z) : BurnoutRiskModel :=
  {| dropout_threshold := dropout_threshold_days; cph := fresh; is_trained := false |}.

Definition train (self : BurnoutRiskModel) (df : list FeatureRow)
    : result dict * BurnoutRiskModel :=
  match prepare_data (dropout_threshold self) df with
  | Raise e => (Raise e, self)
  | Return survival_df =>
      if (length survival_df <? 2)%nat then
        (Return (list_to_map
           [("status", VStr "warning");
            ("message", VStr "Not enough streaks to train survival model")]),
         self)
      else
        match fit (cph self) survival_df with
        | (cph', None) =>
            (Return (list_to_map
               [("status", VStr "success");
                ("concordance", concordance_index_ cph');
                ("coefficients", params_ cph')]),
             {| dropout_threshold := dropout_threshold self;
                cph := cph'; is_trained := true |})
        | (cph', Some e) =>
            (Return (list_to_map
               [("status", VStr "error"); ("message", VStr e)]),
             {| dropout_threshold := dropout_threshold self;
                cph := cph'; is_trained := is_trained self |})
        end
  end.

Definition predict_current_risk (self : BurnoutRiskModel)
    (recent_streak_features : gmap string Q) : Q :=
  if negb (is_trained self) then 0.5%Q
  else predict_partial_hazard (cph self) recent_streak_features.

End Model.

Arguments dropout_threshold {CoxPHFitter} _.
Arguments cph {CoxPHFitter} _.
Arguments is_trained {CoxPHFitter} _.
Arguments init {CoxPHFitter} fresh dropout_threshold_days.
Arguments train {CoxPHFitter} fit concordance_index_ params_ self df.
Arguments predict_current_risk {CoxPHFitter} predict_partial_hazard self
  recent_streak_features.

End Burnout.

(** ** src/models/adherence.py *)

Module Adherence.
Import Py Schemas Features.

(** [self.feature_columns]: the sixteen inputs of the classifier. *)
Definition feature_columns : list string :=
  [ "exercise_done"; "exercise_minutes"; "total_steps";
    "prev_steps"; "prev_sleep_dur"; "prev_exercise_done";
    "steps_7d_avg"; "sleep_7d_avg";
    "sleep_variance_7d"; "sleep_consistency_score";
    "rolling_misses_3d"; "is_weekend"; "effort_ratio";
    "is_recovery_period"; "is_streak_break"; "days_since_workout" ].

(** [row[self.feature_columns]]: the cells of a row in that order. *)
Definition select (r : FeatureRow) : list R :=
  [ (if exercise_done (day r) then 1 else 0)%R;
    exercise_minutes (day r); IZR (total_steps (day r));
    prev_steps r; prev_sleep_dur r; prev_exercise_done r;
    steps_7d_avg r; sleep_7d_avg r;
    sleep_variance_7d r; sleep_consistency_score r;
    rolling_misses_3d r; INR (is_weekend r); effort_ratio r;
    INR (is_recovery_period r); INR (is_streak_break r);
    INR (days_since_workout r) ].

(** [prepare_data]: the target is tomorrow's [exercise_done]; [dropna]
    removes the rows without a target. *)
Definition prepare_data (df : list FeatureRow) : list (list R) * list nat :=
  let target_next_day := Pd.shift_back ((λ r, exercise_done (day r)) <$> df) in
  let data := filter (λ rt, is_Some rt.2) (zip df target_next_day) in
  ((λ rt, select rt.1) <$> data,
   (λ rt, Nat.b2n (default false rt.2)) <$> data).

(** scikit-learn is outside the repository: the scaler and the classifier
    are one abstract state; [fit] stands for [scaler.fit_transform] followed
    by [model.fit] and may raise; [evaluate] computes the three metrics on
    the held-out rows. *)
Section Model.

Variable Estimator : Type.
Variable fit : Estimator → list (list R) → list nat → Estimator * option exn.
Variable evaluate : Estimator → list (list R) → list nat → value * value * value.
Variable predict_proba : Estimator → list R → Q.

Record AdherenceModel := {
  estimator : Estimator;
  is_trained : bool
}.

Definition init (fresh : Estimator) : AdherenceModel :=
  {| estimator := fresh; is_trained := false |}.

Definition train (self : AdherenceModel) (df : list FeatureRow)
    : result dict * AdherenceModel :=
  let '(X, y) := prepare_data df in
  if (length X <? 10)%nat then
    (Return (list_to_map
       [("status", VStr "error"); ("message", VStr "Not enough data to train")]),
     self)
  else
    (* int(len(X) * 0.8) *)
    let split_idx := (length X * 4 / 5)%nat in
    match fit (estimator self) (take split_idx X) (take split_idx y) with
    | (est, Some e) =>
        (Raise e, {| estimator := est; is_trained := is_trained self |})
    | (est, None) =>
        let '(accuracy, auc, importance) :=
          evaluate est (drop split_idx X) (drop split_idx y) in
        (Return (list_to_map
           [("accuracy", accuracy); ("auc", auc);
            ("feature_importance", importance)]),
         {| estimator := est; is_trained := true |})
    end.

Definition predict_next_day_proba (self : AdherenceModel)
    (recent_feature_row : FeatureRow) : result Q :=
  if negb (is_trained self) then Raise (ValueError "Model not trained yet")
  else Return (predict_proba (estimator self) (select recent_feature_row)).

End Model.

Arguments estimator {Estimator} _.
Arguments is_trained {Estimator} _.
Arguments init {Estimator} fresh.
Arguments train {Estimator} fit evaluate self df.
Arguments predict_next_day_proba {Estimator} predict_proba self recent_feature_row.

End Adherence.

(** ** src/models/anomaly.py *)

Module Anomaly.
Import Py Schemas Features.

Definition feature_cols : list string :=
  [ "total_steps"; "sleep_duration_minutes"; "sleep_variance_7d" ].

(** [df[self.feature_cols]] on the rows of the feature frame. *)
Definition select (r : FeatureRow) : list R :=
  [ IZR (total_steps (day r)); sleep_duration_minutes (day r);
    sleep_variance_7d r ].

(** The isolation forest and its scaler are one abstract state;
    [predict] answers 1 for a normal row and -1 for an outlier. *)
Section Model.

Variable Forest : Type.
Variable fit : Forest → list (list R) → Forest.
Variable predict : Forest → list R → Z.
Variable decision_function : Forest → list R → Q.

Record AnomalyDetector := {
  forest : Forest;
  is_trained : bool
}.

Definition init (fresh : Forest) : AnomalyDetector :=
  {| forest := fresh; is_trained := false |}.

Definition train (self : AnomalyDetector) (df : list FeatureRow)
    : dict * AnomalyDetector :=
  if (length df <? 14)%nat then
    (list_to_map
       [("status", VStr "error"); ("message", VStr "Need 2 weeks data")],
     self)
  else
    let X := select <$> df in
    let model := fit (forest self) X in
    let preds := predict model <$> X in
    let n_anomalies := length (filter (λ p, p = (-1)%Z) preds) in
    (list_to_map
       [("status", VStr "success");
        ("anomalies_detected_history", VInt (Z.of_nat n_anomalies))],
     {| forest := model; is_trained := true |}).

(** [check_anomaly]: [day_row] is a Series, a map from column names to
    cells; a missing column raises KeyError inside the [try]. *)
Definition check_anomaly (self : AnomalyDetector) (day_row : gmap string R)
    : dict :=
  if negb (is_trained self) then
    list_to_map [("is_anomaly", VBool false); ("score", VFloat 0.0)]
  else
    match mapM (λ c, day_row !! c) feature_cols with
    | Some X =>
        let pred := predict (forest self) X in
        let score := decision_function (forest self) X in
        list_to_map
          [("is_anomaly", VBool (bool_decide (pred = (-1)%Z)));
           ("severity_score", VFloat score)]
    | None =>
        list_to_map [("error", VStr "Missing columns")]
    end.

End Model.

Arguments forest {Forest} _.
Arguments is_trained {Forest} _.
Arguments init {Forest} fresh.
Arguments train {Forest} fit predict self df.
Arguments check_anomaly {Forest} predict decision_function self day_row.

End Anomaly.

(** ** src/processing/aggregator.py *)

Module Aggregator.
Import Py.

(** [EventType] of src/domain/schemas.py *)
Inductive EventType := STEPS | SLEEP | EXERCISE | HEART_RATE.

#[global] Instance EventType_eq_dec : EqDecision EventType.
Proof. solve_decision. Defined.

(** A [datetime]: microseconds since the midnight that starts day number 0. *)
Definition datetime : Type := Z.

(** [t.date()], as a day number. *)
Definition date_of (t : datetime) : Z := (t `div` 86400000000)%Z.

(** [RawHealthEvent] of src/domain/schemas.py; the identifier, the source
    and the metadata are not read by the aggregator. *)
Record RawHealthEvent := {
  event_type : EventType;
  start_time : datetime;
  end_time : datetime;
  value : Q
}.

(** The [DailyBehavior] objects [aggregate] builds: the fields it passes to
    the constructor (the other fields keep their defaults). *)
Record Daily := {
  date : Z;
  total_steps : Z;
  exercise_minutes : Q;
  exercise_done : bool;
  exercise_start_time : option datetime;
  sleep_start_time : option datetime;
  sleep_end_time : option datetime;
  sleep_duration_minutes : Q;
  sedentary_minutes : Q;
  data_missing_flag : bool
}.

(** The record as the feature engineer reads it. *)
Definition behavior (d : Daily) : Schemas.DailyBehavior :=
  {| Schemas.date := date d;
     Schemas.total_steps := total_steps d;
     Schemas.exercise_minutes := Q2R (exercise_minutes d);
     Schemas.exercise_done := exercise_done d;
     Schemas.sleep_duration_minutes := Q2R (sleep_duration_minutes d);
     Schemas.data_missing_flag := data_missing_flag d |}.

(** One value of [day_buckets]. *)
Record bucket := {
  steps : list RawHealthEvent;
  exercise : list RawHealthEvent;
  sleep : list RawHealthEvent
}.

(** The default of the [defaultdict]. *)
Definition empty_bucket : bucket := {| steps := []; exercise := []; sleep := [] |}.

(** [day_buckets[d]] *)
Definition bucket_at (day_buckets : gmap Z bucket) (d : Z) : bucket :=
  default empty_bucket (day_buckets !! d).

(** The body of the first loop: sleep goes to the day of [end_time], steps
    and exercise to the day of [start_time]; any other event touches no
    bucket. *)
Definition add (day_buckets : gmap Z bucket) (e : RawHealthEvent) : gmap Z bucket :=
  match event_type e with
  | SLEEP =>
      let bucket_date := date_of (end_time e) in
      let b := bucket_at day_buckets bucket_date in
      <[bucket_date := {| steps := steps b; exercise := exercise b;
                          sleep := sleep b ++ [e] |}]> day_buckets
  | STEPS =>
      let bucket_date := date_of (start_time e) in
      let b := bucket_at day_buckets bucket_date in
      <[bucket_date := {| steps := steps b ++ [e]; exercise := exercise b;
                          sleep := sleep b |}]> day_buckets
  | EXERCISE =>
      let bucket_date := date_of (start_time e) in
      let b := bucket_at day_buckets bucket_date in
      <[bucket_date := {| steps := steps b; exercise := exercise b ++ [e];
                          sleep := sleep b |}]> day_buckets
  | HEART_RATE => day_buckets
  end.

(** [int(x)] on a float: truncation towards zero. *)
Definition int (x : Q) : Z := (Qnum x ÷ Zpos (Qden x))%Z.

(** [sum(int(s.value) for s in l)] *)
Definition sum_int (l : list RawHealthEvent) : Z :=
  foldl (λ acc s, acc + int (value s))%Z 0%Z l.

(** [sum(float(x.value) for x in l)] *)
Definition sum_float (l : list RawHealthEvent) : Q :=
  foldl (λ acc x, acc + value x)%Q 0%Q l.

(** [min((x.start_time for x in l), default=None)] *)
Definition first_start (l : list RawHealthEvent) : option datetime :=
  match l with
  | [] => None
  | x :: l' => Some (foldl (λ best y, if (start_time y <? best)%Z then start_time y else best)
                           (start_time x) l')
  end.

(** [max(l, key=lambda x: x.value) if l else None]: the first event of the
    largest value. *)
Definition main_sleep (l : list RawHealthEvent) : option RawHealthEvent :=
  match l with
  | [] => None
  | x :: l' => Some (foldl (λ best y, if gtb (value y) (value best) then y else best) x l')
  end.

(** The body of the second loop. *)
Definition daily (d : Z) (data : bucket) : Daily :=
  let total_steps := sum_int (steps data) in
  let ex_events := exercise data in
  let ex_minutes := sum_float ex_events in
  let first_ex_time := first_start ex_events in
  let main := main_sleep (sleep data) in
  let sleep_dur := default 0%Q (value <$> main) in
  let awake_time := (1440 - sleep_dur)%Q in
  let sedentary_calc := (awake_time - ex_minutes)%Q in
  {| date := d;
     total_steps := total_steps;
     exercise_minutes := ex_minutes;
     exercise_done := gtb ex_minutes 0;
     exercise_start_time := first_ex_time;
     sleep_start_time := start_time <$> main;
     sleep_end_time := end_time <$> main;
     sleep_duration_minutes := sleep_dur;
     sedentary_minutes := if gtb sedentary_calc 0 then sedentary_calc else 0%Q;
     data_missing_flag := (total_steps =? 0)%Z && Qeq_bool sleep_dur 0 |}.

(** [DailyAggregator.aggregate] *)
Definition aggregate (events : list RawHealthEvent) : list Daily :=
  let day_buckets := foldl add ∅ events in
  let sorted_dates := merge_sort Z.le (map_to_list day_buckets).*1 in
  (λ d, daily d (bucket_at day_buckets d)) <$> sorted_dates.

End Aggregator.

(** ** src/api/main.py: the training endpoint *)

Module Api.
Import Py Schemas Features.

(** [TrainingResponse] of src/domain/api_schemas.py *)
Record TrainingResponse := {
  message : string;
  history_points : nat;
  adherence_accuracy : value;
  burnout_c_index : value;
  history : list DailyBehavior
}.

(** [metrics = model.train(df); x = metrics.get(key, 0.0)] inside
    [try: ... except: x = 0.0]. *)
Definition metric (outcome : result dict) (key : string) : value :=
  match outcome with
  | Return metrics => get metrics key (VFloat 0.0)
  | Raise _ => VFloat 0.0
  end.

Section Endpoints.

Variable Estimator : Type.
Variable sk_fit : Estimator → list (list R) → list nat → Estimator * option exn.
Variable sk_evaluate : Estimator → list (list R) → list nat → value * value * value.

Variable CoxPHFitter : Type.
Variable cox_fit : CoxPHFitter → list Burnout.Episode → CoxPHFitter * option string.
Variable concordance_index_ : CoxPHFitter → value.
Variable params_ : CoxPHFitter → value.

(** [EngineState]: the module-level [state]; [df_history], a copy of the
    history that no endpoint reads, is left out, and so are the two
    stateless components. *)
Record EngineState := {
  history_data : list DailyBehavior;
  df_features : list FeatureRow;
  adherence_model : Adherence.AdherenceModel Estimator;
  burnout_model : Burnout.BurnoutRiskModel CoxPHFitter;
  is_trained : bool
}.

(** [EngineState()]; the burnout model takes its default threshold of 5
    days. *)
Definition init (fresh_e : Estimator) (fresh_c : CoxPHFitter) : EngineState :=
  {| history_data := [];
     df_features := [];
     adherence_model := Adherence.init fresh_e;
     burnout_model := Burnout.init fresh_c 5;
     is_trained := false |}.

(** [train_custom(request)], lines 134-171: the response and the state
    after the call. *)
Definition train_custom (state : EngineState) (request_history : list DailyBehavior)
    : TrainingResponse * EngineState :=
  let history_data := request_history in
  let df_features := enhance history_data in
  let '(metrics_adh, adherence_model) :=
    Adherence.train sk_fit sk_evaluate (adherence_model state) df_features in
  let acc := metric metrics_adh "accuracy" in
  let '(metrics_burn, burnout_model) :=
    Burnout.train cox_fit concordance_index_ params_ (burnout_model state) df_features in
  let c_index := metric metrics_burn "concordance" in
  ({| message := "Training Complete (Custom Data)";
      history_points := length history_data;
      adherence_accuracy := acc;
      burnout_c_index := c_index;
      history := history_data |},
   {| history_data := history_data;
      df_features := df_features;
      adherence_model := adherence_model;
      burnout_model := burnout_model;
      is_trained := true |}).

End Endpoints.

Arguments history_data {Estimator CoxPHFitter} _.
Arguments df_features {Estimator CoxPHFitter} _.
Arguments adherence_model {Estimator CoxPHFitter} _.
Arguments burnout_model {Estimator CoxPHFitter} _.
Arguments is_trained {Estimator CoxPHFitter} _.
Arguments init {Estimator CoxPHFitter} fresh_e fresh_c.
Arguments train_custom {Estimator} sk_fit sk_evaluate {CoxPHFitter} cox_fit
  concordance_index_ params_ state request_history.

End Api.

(** * Specification-side definitions

    The notions the properties below are stated with: causal column
    operations, miss runs as a fold, training histories, the spans of the
    episodes, miss blocks and the segmentation in the words of the
    specification. *)

(** A column operation is causal when the first [n] cells of its result
    are its result on the first [n] cells of its argument. *)
Definition causal {A B} (F : list A → list B) : Prop :=
  ∀ s n, take n (F s) = F (take n s).

(** The specification's reading of [consecutive_misses]: a fold over the
    miss indicator that carries the length of the current run of misses. *)
Fixpoint run_lengths_from (run : nat) (miss : list bool) : list nat :=
  match miss with
  | [] => []
  | m :: miss' =>
      let run' := if m then S run else 0 in
      run' :: run_lengths_from run' miss'
  end.

Definition run_lengths (miss : list bool) : list nat := run_lengths_from 0 miss.

(** [ne_shift] and [groupby_cumsum] started in the middle of a column:
    [prev] is the cell above the first row, [pre] the rows above it. *)
Definition ne_from {A} `{EqDecision A} (prev : option A) (s : list A) : list bool :=
  zip_with (λ x p, bool_decide (Some x ≠ p)) s (take (length s) (prev :: (Some <$> s))).

Definition groupby_cumsum_from (pre : list (nat * nat)) (keys vals : list nat)
    : list nat :=
  imap (λ i k, sum_list (snd <$> filter (λ kv, kv.1 = k)
                                   (pre ++ take (S i) (zip keys vals))))
       keys.

Section MissIndicators.
Import Schemas Features.

(** The miss indicator as the specification words it for every miss
    feature: missing data or no exercise. *)
Definition miss_or_missing (d : DailyBehavior) : bool :=
  data_missing_flag d || negb (exercise_done d).

(** The indicator [enhance] builds [consecutive_misses] from. *)
Definition no_exercise (d : DailyBehavior) : bool := negb (exercise_done d).

End MissIndicators.

(** A model driven through a list of training calls: the outcomes in call
    order and the final state. *)
Fixpoint train_history {S I O} (train : S → I → O * S) (self : S) (dfs : list I)
    : list O * S :=
  match dfs with
  | [] => ([], self)
  | df :: dfs' =>
      let '(o, self') := train self df in
      let '(os, final) := train_history train self' dfs' in
      (o :: os, final)
  end.

(** A training call of the burnout model or of the anomaly detector
    succeeded when it returned a dictionary with status success. *)
Definition status_success (o : Py.result Py.dict) : Prop :=
  ∃ res, o = Py.Return res ∧ res !! "status" = Some (Py.VStr "success").

(** A training call of the adherence model succeeded when it returned its
    metrics, a dictionary without a status. *)
Definition metrics_returned (o : Py.result Py.dict) : Prop :=
  ∃ res, o = Py.Return res ∧ res !! "status" = None.

Section Spans.
Import Py Schemas Features Burnout.

Local Open Scope Z_scope.

(** A span handed to [_aggregate_period]: start, end and event. *)
Definition span : Type := Z * Z * Z.

Definition span_start (sp : span) : Z := sp.1.1.

Definition span_end (sp : span) : Z := sp.1.2.

Definition span_event (sp : span) : Z := sp.2.

Definition aggregate_span (df : list FeatureRow) (sp : span) : option Episode :=
  _aggregate_period df (span_start sp) (span_end sp) (span_event sp).

(** The spans the loop of [prepare_data] aggregates, kept or discarded, in
    the order of the calls; the first component is [current_start] after
    the loop. *)
Fixpoint walk_spans (df : list FeatureRow) (dates : list Z) (current_start : Z)
    : option Z * list span :=
  match dates with
  | [] => (Some current_start, [])
  | death_date :: dates' =>
      if bool_decide (death_date > current_start) then
        match next_success df death_date with
        | Some s =>
            ((walk_spans df dates' s).1,
             (current_start, death_date, 1) :: (walk_spans df dates' s).2)
        | None => (None, [(current_start, death_date, 1)])
        end
      else walk_spans df dates' current_start
  end.

(** All the spans of one call of [prepare_data]. *)
Definition segments (dropout_threshold : Z) (df0 : list FeatureRow) : list span :=
  let df := sort_index df0 in
  match head df, last df with
  | Some first, Some last_row =>
      match merge_sort Z.le (dropout_dates dropout_threshold df) with
      | [] => [(index first, index last_row, 0)]
      | dates =>
          match walk_spans df dates (index first) with
          | (Some s, sps) =>
              if bool_decide (s ≤ index last_row)
              then sps ++ [(s, index last_row, 0)] else sps
          | (None, sps) => sps
          end
      end
  | _, _ => []
  end.

(** Spans in chronological order without overlap, between [lo] and [hi]. *)
Fixpoint chained (lo : Z) (sps : list span) (hi : Z) : Prop :=
  match sps with
  | [] => True
  | sp :: sps' =>
      lo ≤ span_start sp ∧ span_start sp ≤ span_end sp ∧ span_end sp ≤ hi
      ∧ chained (span_end sp + 1) sps' hi
  end.

Definition total_length (sps : list span) : Z :=
  foldr (λ sp acc, (span_end sp - span_start sp) + acc) 0 sps.

Definition total_duration (eps : list Episode) : Z :=
  foldr (λ e acc, duration e + acc) 0 eps.

End Spans.

Section Blocks.
Import Py Schemas Features Burnout.

(** The maximal blocks of consecutive rows with the same [exercise_done],
    in table order. *)
Fixpoint blocks (df : list FeatureRow) : list (list FeatureRow) :=
  match df with
  | [] => []
  | r :: df' =>
      match blocks df' with
      | b :: bs =>
          if bool_decide (done <$> head b = Some (done r))
          then (r :: b) :: bs else [r] :: b :: bs
      | [] => [[r]]
      end
  end.

(** A block of rows without exercise of at least [dropout_threshold] rows
    is a dropout event; its death date is the date of its first row. *)
Definition death_date (dropout_threshold : Z) (b : list FeatureRow) : option Z :=
  match b with
  | r :: _ =>
      if bool_decide (done r = false ∧ (dropout_threshold ≤ Z.of_nat (length b))%Z)
      then Some (index r) else None
  | [] => None
  end.

Definition death_dates (dropout_threshold : Z) (df : list FeatureRow) : list Z :=
  omap (death_date dropout_threshold) (blocks df).

(** Blocks numbered from [k] on, and the rows of numbered blocks, each with
    the number of its block. *)
Fixpoint number {A} (k : nat) (bs : list A) : list (nat * A) :=
  match bs with
  | [] => []
  | b :: bs' => (k, b) :: number (S k) bs'
  end.

Definition flatten {A} (kbs : list (nat * list A)) : list (nat * A) :=
  kbs ≫= λ kb, pair kb.1 <$> kb.2.

(** [miss_groups] started below a row [prev] with group number [acc]. *)
Definition keyed (acc : nat) (prev : option bool) (df : list FeatureRow)
    : list (nat * FeatureRow) :=
  zip (Pd.cumsum_from acc (Nat.b2n <$> ne_from prev (done <$> df))) df.

(** The number [miss_groups] gives to the first block. *)
Definition first_key (acc : nat) (prev : option bool) (bs : list (list FeatureRow))
    : nat :=
  match bs with
  | b :: _ => (acc + Nat.b2n (bool_decide (done <$> head b ≠ prev)))%nat
  | [] => acc
  end.

Definition miss_block (b : list FeatureRow) : bool :=
  bool_decide (done <$> head b = Some false).

(** A numbered block with its rows kept if it is a miss block. *)
Definition misses (kb : nat * list FeatureRow) : nat * list FeatureRow :=
  (kb.1, if miss_block kb.2 then kb.2 else []).

End Blocks.

Section Segmentation.
Import Py Schemas Features Burnout.

Local Open Scope Z_scope.

(** When the walk over the death dates closes a span and starts the next
    episode: after every death date, after every death date whose span was
    recorded as an episode, or after every death date later than the
    current episode start. *)
Inductive restart_rule :=
| AfterEveryDeathDate
| AfterRecordedEpisode
| AfterLaterDeathDate.

(** The rows of a span, and the episode a span of at least 3 rows becomes. *)
Definition rows_of_span (df : list FeatureRow) (sp : span) : list FeatureRow :=
  filter (λ r, span_start sp ≤ index r ∧ index r ≤ span_end sp) df.

Definition long_enough (df : list FeatureRow) (sp : span) : bool :=
  (3 <=? length (rows_of_span df sp))%nat.

Definition span_episode (df : list FeatureRow) (sp : span) : Episode :=
  {| duration := span_end sp - span_start sp;
     event := span_event sp;
     avg_sleep_consistency := Pd.mean (sleep_consistency_score <$> rows_of_span df sp);
     avg_effort_ratio := Pd.mean (effort_ratio <$> rows_of_span df sp);
     avg_sleep_var := Pd.mean (sleep_variance_7d <$> rows_of_span df sp);
     initial_motivation :=
       Pd.mean ((λ r, exercise_minutes (day r)) <$> take 3 (rows_of_span df sp)) |}.

Definition episodes_of (df : list FeatureRow) (sps : list span) : list Episode :=
  span_episode df <$> filter (λ sp, long_enough df sp = true) sps.

(** The first subsequent day with [exercise_done = true]. *)
Definition first_exercise_after (df : list FeatureRow) (d : Z) : option Z :=
  (λ ir : nat * FeatureRow, index ir.2)
    <$> list_find (λ r, index r > d ∧ done r = true) df.

(** The walk over the death dates: the episode start after the walk (none
    when no restart day exists) and the spans it closed. *)
Fixpoint segmentation_walk (rule : restart_rule) (df : list FeatureRow)
    (dates : list Z) (start : Z) : option Z * list span :=
  match dates with
  | [] => (Some start, [])
  | d :: dates' =>
      let died : span := (start, d, 1) in
      let closes :=
        match rule with
        | AfterLaterDeathDate => bool_decide (start < d)
        | _ => true
        end in
      let restarts :=
        match rule with
        | AfterRecordedEpisode => long_enough df died
        | _ => true
        end in
      if closes then
        if restarts then
          match first_exercise_after df d with
          | Some s =>
              ((segmentation_walk rule df dates' s).1,
               died :: (segmentation_walk rule df dates' s).2)
          | None => (None, [died])
          end
        else
          ((segmentation_walk rule df dates' start).1,
           died :: (segmentation_walk rule df dates' start).2)
      else segmentation_walk rule df dates' start
  end.

(** The segmentation of a table: the death dates of the qualifying miss
    blocks in chronological order; without any, the whole table as one
    censored span; otherwise the spans of the walk and the open span at the
    end of the table; every span of at least 3 rows is an episode. *)
Definition segmentation (rule : restart_rule) (dropout_threshold : Z)
    (df0 : list FeatureRow) : list Episode :=
  let df := sort_index df0 in
  match head df, last df with
  | Some first, Some last_row =>
      match merge_sort Z.le (death_dates dropout_threshold df) with
      | [] => episodes_of df [(index first, index last_row, 0)]
      | dates =>
          let w := segmentation_walk rule df dates (index first) in
          episodes_of df
            (w.2 ++ match w.1 with
                    | Some s => [(s, index last_row, 0)]
                    | None => []
                    end)
      end
  | _, _ => []
  end.

End Segmentation.

Section Histories.
Import Py Schemas Features Burnout.

(** The feature table of a history given by its [exercise_done] flags, one
    day per flag from day 0 on. *)
Definition history (flags : list bool) : list FeatureRow :=
  enhance
    (imap (λ (i : nat) (e : bool),
                  {| date := Z.of_nat i; total_steps := 5000;
                     exercise_minutes := if e then 30%R else 0%R;
                     exercise_done := e; sleep_duration_minutes := 450%R;
                     data_missing_flag := false |}) flags).

(** Duration and event of every episode. *)
Definition outline (eps : list Episode) : list (Z * Z) :=
  (λ e, (duration e, event e)) <$> eps.

Definition returned_outline (r : result (list Episode)) : option (list (Z * Z)) :=
  match r with
  | Return eps => Some (outline eps)
  | Raise _ => None
  end.

(** Three miss blocks of five days, the first at the start of the table,
    the third after a single day of exercise. *)
Definition three_dropouts : list FeatureRow :=
  history [ false; false; false; false; false; true;
            false; false; false; false; false; true;
            false; false; false; false; false; true; true; true ].

End Histories.

Section Diaries.
Import Schemas.

(** A history of consecutive days from day 1 on, given by its
    [exercise_done] flags. *)
Definition diary (flags : list bool) : list DailyBehavior :=
  imap (λ (i : nat) (e : bool),
          {| date := Z.of_nat (S i); total_steps := 6000;
             exercise_minutes := if e then 30%R else 0%R;
             exercise_done := e; sleep_duration_minutes := 420%R;
             data_missing_flag := false |}) flags.

End Diaries.

Section AggregatorDays.
Import Aggregator.

(** The day an event is counted for: the wake-up day of a sleep, the
    starting day of steps and exercise; a heart-rate event has none. *)
Definition reporting_date (e : RawHealthEvent) : option Z :=
  match event_type e with
  | SLEEP => Some (date_of (end_time e))
  | STEPS | EXERCISE => Some (date_of (start_time e))
  | HEART_RATE => None
  end.

(** The events of one kind counted for day [d], in stream order. *)
Definition events_on (ty : EventType) (d : Z) (events : list RawHealthEvent)
    : list RawHealthEvent :=
  filter (λ e, event_type e = ty ∧ reporting_date e = Some d) events.

(** The bucket of day [d] read off the stream. *)
Definition bucket_on (d : Z) (events : list RawHealthEvent) : bucket :=
  {| steps := events_on STEPS d events;
     exercise := events_on EXERCISE d events;
     sleep := events_on SLEEP d events |}.

End AggregatorDays.

(** * Properties *)

(** ** Float comparisons *)

Lemma ltb_lt x y : Py.ltb x y = true ↔ (x < y)%Q.
Proof.
  unfold Py.ltb. rewrite negb_true_iff, <- not_true_iff_false, Qle_bool_iff.
  split; [apply Qnot_le_lt | apply Qlt_not_le].
Qed.

Lemma ltb_ge x y : Py.ltb x y = false ↔ (y <= x)%Q.
Proof. unfold Py.ltb. rewrite negb_false_iff. apply Qle_bool_iff. Qed.

Lemma leb_le x y : Py.leb x y = true ↔ (x <= y)%Q.
Proof. apply Qle_bool_iff. Qed.

Lemma leb_gt x y : Py.leb x y = false ↔ (y < x)%Q.
Proof.
  unfold Py.leb. rewrite <- not_true_iff_false, Qle_bool_iff.
  split; [apply Qnot_le_lt | apply Qlt_not_le].
Qed.

Lemma gtb_gt x y : Py.gtb x y = true ↔ (y < x)%Q.
Proof. apply ltb_lt. Qed.

Lemma gtb_le x y : Py.gtb x y = false ↔ (x <= y)%Q.
Proof. apply ltb_ge. Qed.

(** Turn the outcome of every float test in the context into an order fact. *)
Ltac py_tests :=
  repeat match goal with
    | H : Py.ltb _ _ = true |- _ => apply ltb_lt in H
    | H : Py.ltb _ _ = false |- _ => apply ltb_ge in H
    | H : Py.leb _ _ = true |- _ => apply leb_le in H
    | H : Py.leb _ _ = false |- _ => apply leb_gt in H
    | H : Py.gtb _ _ = true |- _ => apply gtb_gt in H
    | H : Py.gtb _ _ = false |- _ => apply gtb_le in H
    end.

(** ** The recommendation cascade *)

Section RecommenderProperties.
Import Recommender.

Local Open Scope Q_scope.

Implicit Types (uid d : string) (p b : Q) (a : bool) (f : gmap string Q).

(** Run the cascade: split on each test it makes, in order. *)
Ltac run_cascade :=
  unfold generate_recommendation, cascade; cbn [recommendation_type message_title message_body];
  repeat match goal with
    | |- context [if ?c then _ else _] =>
        let E := fresh "E" in destruct c eqn:E
    end;
  py_tests; cbn.

(** C1: [generate_recommendation] is a decision table read in priority
    order, the first matching row deciding the type: (1) sleep below 180
    minutes gives recovery, (2) otherwise an anomaly gives recovery,
    (3) otherwise a burnout risk above 1.2 gives scale_down, (4) otherwise an
    adherence probability below 0.4 gives anchoring, the message depending
    on whether [consecutive_misses] is at most 7, (5) otherwise below 0.5
    gives maintain, (6) otherwise at most 0.7 gives maintain, (7) otherwise
    maintain.  In particular burnout risk 1.5 with adherence 0.9 (sleep at
    least 180, no anomaly) gives scale_down, and sleep of 120 minutes gives
    recovery whatever the other inputs are. *)
Theorem generate_recommendation_priority_order uid d p b a f :
  let s := Py.get f "sleep_duration_minutes" 480 in
  let m := Py.get f "consecutive_misses" 0 in
  let r := generate_recommendation uid d p b a f in
  (s < 180 → recommendation_type r = RECOVERY) ∧
  (¬ s < 180 → a = true → recommendation_type r = RECOVERY) ∧
  (¬ s < 180 → a = false → 1.2 < b → recommendation_type r = SCALE_DOWN) ∧
  (¬ s < 180 → a = false → ¬ 1.2 < b → p < 0.4 →
     recommendation_type r = ANCHORING ∧
     (m <= 7 → message_title r = "Don't break the chain") ∧
     (7 < m → message_title r = "Everything okay?")) ∧
  (¬ s < 180 → a = false → ¬ 1.2 < b → ¬ p < 0.4 → p < 0.5 →
     recommendation_type r = MAINTAIN ∧ message_title r = "Time to Shift Gears") ∧
  (¬ s < 180 → a = false → ¬ 1.2 < b → ¬ p < 0.4 → ¬ p < 0.5 → p <= 0.7 →
     recommendation_type r = MAINTAIN ∧ message_title r = "Good Work") ∧
  (¬ s < 180 → a = false → ¬ 1.2 < b → ¬ p < 0.4 → ¬ p < 0.5 → ¬ p <= 0.7 →
     recommendation_type r = MAINTAIN ∧ message_title r = "Keep It Up!") ∧
  (180 <= s → a = false → b == 1.5 → p == 0.9 →
     recommendation_type r = SCALE_DOWN) ∧
  (s == 120 → recommendation_type r = RECOVERY).
Proof.
  intros s m r. subst s m r.
  repeat split; intros; run_cascade;
    try reflexivity; try congruence; exfalso; lra.
Qed.

(** C9: a feature row without a [sleep_duration_minutes] entry is read as
    480 minutes: the recommendation is the one of the same row with 480
    minutes of sleep, it is never the sleep-deprivation message of priority
    1, and it has type recovery only through the anomaly flag. *)
Theorem missing_sleep_defaults_to_480 uid d p b a f :
  f !! "sleep_duration_minutes" = None →
  generate_recommendation uid d p b a f
    = generate_recommendation uid d p b a (<["sleep_duration_minutes" := 480]> f) ∧
  message_title (generate_recommendation uid d p b a f) ≠ "Sleep First, Train Later" ∧
  (recommendation_type (generate_recommendation uid d p b a f) = RECOVERY ↔ a = true).
Proof.
  intros Hnone.
  assert (Hs : Py.get f "sleep_duration_minutes" 480 = 480)
    by (unfold Py.get; rewrite Hnone; reflexivity).
  assert (Hs' : Py.get (<["sleep_duration_minutes" := 480]> f)
                  "sleep_duration_minutes" 480 = 480)
    by (unfold Py.get; rewrite lookup_insert_eq; reflexivity).
  assert (Hm : Py.get (<["sleep_duration_minutes" := 480]> f) "consecutive_misses" 0
               = Py.get f "consecutive_misses" 0)
    by (unfold Py.get; rewrite lookup_insert_ne; [reflexivity | discriminate]).
  unfold generate_recommendation, cascade.
  rewrite Hs, Hs', Hm.
  replace (Py.ltb 480 180) with false by reflexivity.
  split; [reflexivity |].
  destruct a; cbn; [split; [discriminate | tauto] |].
  repeat match goal with
    | |- context [if ?c then _ else _] => destruct c
    end; cbn; (split; [discriminate | split; discriminate]).
Qed.

(** The row without any entry, with a low adherence probability. *)
Lemma missing_sleep_defaults_to_480_witness :
  (∅ : gmap string Q) !! "sleep_duration_minutes" = None ∧
  recommendation_type (generate_recommendation "u" "2024-03-01" 0.3 1.0 false ∅)
    ≠ RECOVERY.
Proof.
  split; [reflexivity |].
  intros Hrec.
  destruct (missing_sleep_defaults_to_480 "u" "2024-03-01" 0.3 1.0 false ∅
              (lookup_empty _)) as (_ & _ & Hiff).
  apply Hiff in Hrec. discriminate Hrec.
Defined.

End RecommenderProperties.

(** ** Columns computed without lookahead *)

Lemma causal_id {A} : causal (λ s : list A, s).
Proof. intros s n. reflexivity. Qed.

Lemma causal_fmap {A B C} (f : B → C) (F : list A → list B) :
  causal F → causal (λ s, f <$> F s).
Proof. intros HF s n. rewrite <- fmap_take, HF. reflexivity. Qed.

Lemma causal_zip_with {A B C D} (f : B → C → D) (F : list A → list B)
    (G : list A → list C) :
  causal F → causal G → causal (λ s, zip_with f (F s) (G s)).
Proof. intros HF HG s n. rewrite zip_with_take, HF, HG. reflexivity. Qed.

Lemma shift_lookup {A} (s : list A) i :
  Pd.shift s !! i =
    if decide (i < length s) then
      match i with O => Some None | S j => Some <$> s !! j end
    else None.
Proof.
  unfold Pd.shift. rewrite lookup_take.
  destruct (decide (i < length s)) as [Hi|Hi]; [|reflexivity].
  destruct i as [|j]; [reflexivity|]. cbn. apply list_lookup_fmap.
Qed.

Lemma length_shift {A} (s : list A) : length (Pd.shift s) = length s.
Proof. unfold Pd.shift. rewrite length_take. cbn. rewrite length_fmap. lia. Qed.

Lemma causal_shift {A B} (F : list A → list B) :
  causal F → causal (λ s, Pd.shift (F s)).
Proof.
  intros HF s n. rewrite <- HF. generalize (F s) as t. clear. intros t.
  apply list_eq. intros i.
  rewrite lookup_take, !shift_lookup, length_take.
  destruct (decide (i < n)) as [Hn|Hn].
  - destruct (decide (i < length t)) as [Ht|Ht].
    + rewrite decide_True by lia. destruct i as [|j]; [reflexivity|].
      rewrite lookup_take_lt by lia. reflexivity.
    + rewrite decide_False by lia. reflexivity.
  - rewrite decide_False by lia. reflexivity.
Qed.

Lemma window_take {A} (w i n : nat) (s : list A) :
  i < n → Pd.window w i (take n s) = Pd.window w i s.
Proof.
  intros Hi. unfold Pd.window. rewrite take_take.
  replace (S i `min` n) with (S i) by lia. reflexivity.
Qed.

Lemma rolling_lookup {A B} w mp (agg : list A → B) (s : list A) i :
  Pd.rolling w mp agg s !! i =
    if decide (i < length s) then
      Some (if (mp <=? length (Pd.window w i s))%nat
            then Some (agg (Pd.window w i s)) else None)
    else None.
Proof.
  unfold Pd.rolling. rewrite list_lookup_imap.
  destruct (decide (i < length s)) as [Hi|Hi].
  - destruct (lookup_lt_is_Some_2 s i Hi) as [x ->]. reflexivity.
  - rewrite lookup_ge_None_2 by lia. reflexivity.
Qed.

Lemma causal_rolling {A B C} w mp (agg : list B → C) (F : list A → list B) :
  causal F → causal (λ s, Pd.rolling w mp agg (F s)).
Proof.
  intros HF s n. rewrite <- HF. generalize (F s) as t. clear. intros t.
  apply list_eq. intros i.
  rewrite lookup_take, !rolling_lookup, length_take.
  destruct (decide (i < n)) as [Hn|Hn].
  - destruct (decide (i < length t)) as [Ht|Ht].
    + rewrite decide_True by lia. rewrite window_take by lia. reflexivity.
    + rewrite decide_False by lia. reflexivity.
  - rewrite decide_False by lia. reflexivity.
Qed.

Lemma cumsum_from_take acc (s : list nat) n :
  take n (Pd.cumsum_from acc s) = Pd.cumsum_from acc (take n s).
Proof.
  revert acc n. induction s as [|x s IH]; intros acc [|n]; cbn; try reflexivity.
  rewrite IH. reflexivity.
Qed.

Lemma causal_cumsum {A} (F : list A → list nat) :
  causal F → causal (λ s, Pd.cumsum (F s)).
Proof. intros HF s n. unfold Pd.cumsum. rewrite cumsum_from_take, HF. reflexivity. Qed.

Lemma causal_ne_shift {A B} `{EqDecision B} (F : list A → list B) :
  causal F → causal (λ s, Pd.ne_shift (F s)).
Proof.
  intros HF. unfold Pd.ne_shift.
  apply causal_zip_with; [exact HF | apply causal_shift, HF].
Qed.

Lemma groupby_cumsum_lookup (keys vals : list nat) i :
  Pd.groupby_cumsum keys vals !! i =
    (λ k, sum_list (snd <$> filter (λ kv, kv.1 = k) (take (S i) (zip keys vals))))
      <$> keys !! i.
Proof. unfold Pd.groupby_cumsum. apply list_lookup_imap. Qed.

Lemma causal_groupby_cumsum {A} (F G : list A → list nat) :
  causal F → causal G → causal (λ s, Pd.groupby_cumsum (F s) (G s)).
Proof.
  intros HF HG s n. rewrite <- HF, <- HG.
  generalize (F s) as ks. generalize (G s) as vs. clear. intros vs ks.
  apply list_eq. intros i.
  rewrite lookup_take, !groupby_cumsum_lookup.
  destruct (decide (i < n)) as [Hn|Hn].
  - rewrite lookup_take_lt by lia.
    destruct (ks !! i) as [k|]; [cbn|reflexivity].
    rewrite <- (zip_with_take pair n ks vs), take_take.
    replace (S i `min` n) with (S i) by lia. reflexivity.
  - rewrite lookup_take_ge by lia. reflexivity.
Qed.

(** ** FeatureEngineer.enhance *)

Section FeaturesProperties.
Import Schemas Features.

(** Every column of [enhance] is causal. *)
Ltac causal_col :=
  repeat first
    [ apply causal_id
    | apply causal_fmap
    | apply causal_zip_with
    | apply causal_shift
    | apply causal_rolling
    | apply causal_cumsum
    | apply causal_ne_shift
    | apply causal_groupby_cumsum
    | progress unfold Col.total_steps, Col.sleep_duration_minutes, Col.prev_steps,
        Col.prev_sleep_dur, Col.prev_exercise_done, Col.steps_7d_avg,
        Col.sleep_7d_avg, Col.sleep_variance_7d, Col.steps_variance_7d,
        Col.sleep_consistency_score, Col.rolling_misses_3d, Col.is_miss,
        Col.group_id, Col.consecutive_misses, Col.is_recovery_period,
        Col.is_streak_break, Col.days_since_workout, Col.day_of_week,
        Col.is_weekend, Col.steps_30d_avg, Col.effort_ratio ].

Lemma cell_take (c : list DailyBehavior → list (option R)) df n i :
  causal c → i < n → cell (c (take n df)) i = cell (c df) i.
Proof.
  intros Hc Hi. unfold cell. rewrite <- Hc, lookup_take_lt by lia. reflexivity.
Qed.

Lemma icell_take {A} (x : A) (c : list DailyBehavior → list A) df n i :
  causal c → i < n → icell x (c (take n df)) i = icell x (c df) i.
Proof.
  intros Hc Hi. unfold icell. rewrite <- Hc, lookup_take_lt by lia. reflexivity.
Qed.

(** A row is computed from the records up to its own. *)
Lemma row_take df n i d : i < n → row (take n df) i d = row df i d.
Proof.
  intros Hi. unfold row.
  f_equal; first [ apply cell_take | apply icell_take ]; try exact Hi; causal_col.
Qed.

Lemma frame_take df n :
  take n (imap (row df) df) = imap (row (take n df)) (take n df).
Proof.
  apply list_eq. intros i.
  rewrite lookup_take, !list_lookup_imap.
  destruct (decide (i < n)) as [Hi|Hi].
  - rewrite lookup_take_lt by lia.
    destruct (df !! i) as [d|]; [cbn|reflexivity].
    rewrite row_take by lia. reflexivity.
  - rewrite lookup_take_ge by lia. reflexivity.
Qed.

(** The first [n] rows of [enhance] are the frame of the first [n] records
    in date order. *)
Lemma enhance_prefix l n :
  take n (enhance l)
    = imap (row (take n (sort_values l))) (take n (sort_values l)).
Proof. unfold enhance. cbv zeta. apply frame_take. Qed.

(** C5: [enhance] has no lookahead.  Two inputs that agree on their first
    [n] records in date order give the same first [n] output rows (the
    record of the day and every derived column). *)
Theorem enhance_no_lookahead (l1 l2 : list DailyBehavior) (n : nat) :
  take n (sort_values l1) = take n (sort_values l2) →
  take n (enhance l1) = take n (enhance l2).
Proof. intros Heq. rewrite !enhance_prefix, Heq. reflexivity. Qed.

(** Two histories that differ on their second day only. *)
Lemma enhance_no_lookahead_witness :
  let a := {| date := 1; total_steps := 8000; exercise_minutes := 30;
              exercise_done := true; sleep_duration_minutes := 420;
              data_missing_flag := false |} in
  let b := {| date := 2; total_steps := 500; exercise_minutes := 0;
              exercise_done := false; sleep_duration_minutes := 120;
              data_missing_flag := false |} in
  let c := {| date := 2; total_steps := 12000; exercise_minutes := 60;
              exercise_done := true; sleep_duration_minutes := 480;
              data_missing_flag := false |} in
  take 1 (sort_values [b; a]) = take 1 (sort_values [c; a]) ∧
  take 1 (enhance [b; a]) = take 1 (enhance [c; a]).
Proof.
  intros a b c.
  assert (H : take 1 (sort_values [b; a]) = take 1 (sort_values [c; a]))
    by reflexivity.
  split; [exact H | exact (enhance_no_lookahead [b; a] [c; a] 1 H)].
Defined.

End FeaturesProperties.

(** ** Miss runs *)

Lemma ne_from_cons {A} `{EqDecision A} (prev : option A) x s :
  ne_from prev (x :: s) = bool_decide (Some x ≠ prev) :: ne_from (Some x) s.
Proof. reflexivity. Qed.

Lemma ne_shift_from {A} `{EqDecision A} (s : list A) :
  Pd.ne_shift s = ne_from None s.
Proof. reflexivity. Qed.

Lemma groupby_cumsum_from_nil keys vals :
  Pd.groupby_cumsum keys vals = groupby_cumsum_from [] keys vals.
Proof. reflexivity. Qed.

Lemma groupby_cumsum_from_cons pre k ks v vs :
  groupby_cumsum_from pre (k :: ks) (v :: vs)
    = sum_list (snd <$> filter (λ kv, kv.1 = k) (pre ++ [(k, v)]))
        :: groupby_cumsum_from (pre ++ [(k, v)]) ks vs.
Proof.
  unfold groupby_cumsum_from. rewrite imap_cons. f_equal.
  apply imap_ext. intros i k' _. cbn. rewrite <- app_assoc. reflexivity.
Qed.

Lemma sum_list_app (l1 l2 : list nat) :
  sum_list (l1 ++ l2) = (sum_list l1 + sum_list l2)%nat.
Proof. induction l1 as [|x l1 IH]; cbn; [reflexivity | rewrite IH; lia]. Qed.

Lemma filter_key_above (pre : list (nat * nat)) (acc k : nat) :
  Forall (λ kv, kv.1 ≤ acc)%nat pre → (acc < k)%nat →
  filter (λ kv, kv.1 = k) pre = [].
Proof.
  induction 1 as [|kv pre Hkv _ IH]; intros Hk; [reflexivity|].
  rewrite filter_cons_False by lia. apply IH, Hk.
Qed.

(** The value [groupby_cumsum] gives to a new row with key [k] and value
    [v] below the rows [pre]. *)
Lemma group_sum_snoc (pre : list (nat * nat)) (k v : nat) :
  sum_list (snd <$> filter (λ kv, kv.1 = k) (pre ++ [(k, v)]))
    = (sum_list (snd <$> filter (λ kv, kv.1 = k) pre) + v)%nat.
Proof.
  rewrite filter_app, fmap_app, sum_list_app.
  rewrite filter_cons_True by reflexivity. cbn. lia.
Qed.

(** The run-length encoding of pandas computes the fold: below rows [pre]
    whose keys are at most [acc], whose group [acc] sums to [run], and
    whose last miss cell is [prev]. *)
Lemma groupby_cumsum_runs_from (miss : list bool) :
  ∀ (pre : list (nat * nat)) (acc : nat) (prev : option nat) (run : nat),
    Forall (λ kv, kv.1 ≤ acc)%nat pre →
    sum_list (snd <$> filter (λ kv, kv.1 = acc) pre) = run →
    (prev ≠ Some 1 → run = 0) →
    groupby_cumsum_from pre
      (Pd.cumsum_from acc (Nat.b2n <$> ne_from prev (Nat.b2n <$> miss)))
      (Nat.b2n <$> miss)
    = run_lengths_from run miss.
Proof.
  induction miss as [|m miss IH]; intros pre acc prev run Hle Hsum Hprev;
    [reflexivity|].
  rewrite !fmap_cons, ne_from_cons, fmap_cons. cbn [Pd.cumsum_from].
  rewrite groupby_cumsum_from_cons, group_sum_snoc. cbn [run_lengths_from].
  set (key := acc + Nat.b2n (bool_decide (Some (Nat.b2n m) ≠ prev))).
  assert (Hval : sum_list (snd <$> filter (λ kv, kv.1 = key) pre) + Nat.b2n m
                 = if m then S run else 0).
  { subst key. case_bool_decide as Hc; cbn [Nat.b2n].
    - rewrite (filter_key_above pre acc) by (auto; lia). cbn.
      destruct m; cbn in *; [|reflexivity].
      rewrite Hprev; [reflexivity | congruence].
    - replace (acc + 0) with acc by lia. rewrite Hsum.
      destruct m; cbn in *; [lia|].
      rewrite Hprev; [reflexivity | rewrite <- Hc; discriminate]. }
  rewrite Hval. f_equal. apply IH.
  - apply Forall_app. split.
    + eapply Forall_impl; [exact Hle|]. intros kv Hkv. subst key. cbn in *. lia.
    + apply Forall_singleton. cbn. lia.
  - rewrite group_sum_snoc. exact Hval.
  - destruct m; cbn; [intros H; contradiction H; reflexivity | reflexivity].
Qed.

Lemma groupby_cumsum_runs (miss : list bool) :
  Pd.groupby_cumsum (Pd.cumsum (Nat.b2n <$> Pd.ne_shift (Nat.b2n <$> miss)))
    (Nat.b2n <$> miss)
  = run_lengths miss.
Proof.
  rewrite groupby_cumsum_from_nil, ne_shift_from.
  apply groupby_cumsum_runs_from; [constructor | reflexivity | reflexivity].
Qed.

Section MissRunProperties.
Import Schemas Features.

Lemma enhance_lookup l i r :
  enhance l !! i = Some r →
  ∃ d, sort_values l !! i = Some d ∧ r = row (sort_values l) i d.
Proof. unfold enhance. cbv zeta. apply list_lookup_imap_Some. Qed.

Lemma length_enhance l : length (enhance l) = length (sort_values l).
Proof. unfold enhance. cbv zeta. apply length_imap. Qed.

Lemma length_consecutive_misses df :
  length (Col.consecutive_misses df) = length df.
Proof.
  unfold Col.consecutive_misses, Pd.groupby_cumsum.
  rewrite length_imap. unfold Col.group_id, Pd.cumsum.
  generalize 0%nat as acc.
  unfold Pd.ne_shift. set (s := Col.is_miss df).
  assert (Hs : length s = length df) by (unfold s, Col.is_miss; apply length_fmap).
  rewrite <- Hs.
  assert (Hz : length (Nat.b2n <$> zip_with (λ x p, bool_decide (Some x ≠ p)) s (Pd.shift s))
               = length s).
  { rewrite length_fmap, length_zip_with, length_shift. lia. }
  revert Hz. generalize (Nat.b2n <$> zip_with (λ x p, bool_decide (Some x ≠ p)) s (Pd.shift s)).
  generalize (length s). clear.
  intros n t. revert n. induction t as [|x t IH]; intros n Hn acc; cbn in *; [lia|].
  destruct n as [|n]; [lia|]. rewrite (IH n); lia.
Qed.

Lemma consecutive_misses_column l :
  consecutive_misses <$> enhance l = Col.consecutive_misses (sort_values l).
Proof.
  apply list_eq. intros i. rewrite list_lookup_fmap.
  unfold enhance. cbv zeta. rewrite list_lookup_imap.
  destruct (sort_values l !! i) as [d|] eqn:Hd; cbn.
  - unfold icell.
    destruct (lookup_lt_is_Some_2 (Col.consecutive_misses (sort_values l)) i) as [c Hc].
    { rewrite length_consecutive_misses. eapply lookup_lt_Some, Hd. }
    rewrite Hc. reflexivity.
  - symmetry. apply lookup_ge_None_2. rewrite length_consecutive_misses.
    apply lookup_ge_None_1, Hd.
Qed.

Lemma run_lengths_from_lookup_0 run miss :
  run_lengths_from run miss !! 0
    = (λ m : bool, if m then S run else 0) <$> miss !! 0.
Proof. destruct miss; reflexivity. Qed.

Lemma run_lengths_from_lookup_S miss : ∀ run i (m : bool) r,
  run_lengths_from run miss !! i = Some r →
  miss !! S i = Some m →
  run_lengths_from run miss !! S i = Some (if m then S r else 0).
Proof.
  induction miss as [|m0 miss IH]; intros run i m r Hr Hm; [discriminate|].
  destruct i as [|i].
  - cbn in Hr. injection Hr as <-.
    destruct miss as [|m1 miss]; [discriminate|].
    cbn in Hm. injection Hm as ->. reflexivity.
  - cbn in *. eapply IH; eassumption.
Qed.

Lemma run_lengths_from_lookup_false miss : ∀ run i,
  miss !! i = Some false → run_lengths_from run miss !! i = Some 0.
Proof.
  induction miss as [|m0 miss IH]; intros run i Hm; [discriminate|].
  destruct i as [|i]; cbn in *; [injection Hm as ->; reflexivity | apply IH, Hm].
Qed.

(** C3 (as the code has it): [consecutive_misses] is the length of the run
    of days without exercise that ends at the row ([data_missing_flag] plays
    no part): the column is the fold [run_lengths] over [not exercise_done];
    it is 0 on every day with exercise, 1 on a first miss, and one more than
    the row above on every further day without exercise. *)
Theorem consecutive_misses_run_length (l : list DailyBehavior) :
  consecutive_misses <$> enhance l = run_lengths (no_exercise <$> sort_values l) ∧
  (∀ i r, enhance l !! i = Some r → exercise_done (day r) = true →
     consecutive_misses r = 0) ∧
  (∀ r, enhance l !! 0 = Some r → exercise_done (day r) = false →
     consecutive_misses r = 1) ∧
  (∀ i r r', enhance l !! i = Some r → enhance l !! S i = Some r' →
     exercise_done (day r') = false →
     consecutive_misses r' = S (consecutive_misses r)).
Proof.
  assert (Hcol : consecutive_misses <$> enhance l
                 = run_lengths (no_exercise <$> sort_values l)).
  { rewrite consecutive_misses_column.
    unfold Col.consecutive_misses, Col.group_id, Col.is_miss.
    rewrite <- (groupby_cumsum_runs (no_exercise <$> sort_values l)).
    rewrite <- list_fmap_compose. reflexivity. }
  assert (Hrow : ∀ i r, enhance l !! i = Some r →
            run_lengths (no_exercise <$> sort_values l) !! i
              = Some (consecutive_misses r)
            ∧ (no_exercise <$> sort_values l) !! i
              = Some (negb (exercise_done (day r)))).
  { intros i r Hr. split.
    - rewrite <- Hcol, list_lookup_fmap, Hr. reflexivity.
    - destruct (enhance_lookup l i r Hr) as (d & Hd & ->).
      rewrite list_lookup_fmap, Hd. reflexivity. }
  split; [exact Hcol|]. repeat split.
  - intros i r Hr Hdone. destruct (Hrow i r Hr) as [Hrun Hmiss].
    rewrite Hdone in Hmiss. cbn in Hmiss.
    unfold run_lengths in Hrun.
    rewrite (run_lengths_from_lookup_false _ _ _ Hmiss) in Hrun. congruence.
  - intros r Hr Hdone. destruct (Hrow 0 r Hr) as [Hrun Hmiss].
    rewrite Hdone in Hmiss. cbn [negb] in Hmiss.
    unfold run_lengths in Hrun.
    rewrite run_lengths_from_lookup_0, Hmiss in Hrun. cbn in Hrun. congruence.
  - intros i r r' Hr Hr' Hdone.
    destruct (Hrow i r Hr) as [Hrun _]. destruct (Hrow (S i) r' Hr') as [Hrun' Hmiss'].
    rewrite Hdone in Hmiss'. cbn [negb] in Hmiss'.
    unfold run_lengths in *.
    rewrite (run_lengths_from_lookup_S _ _ _ _ _ Hrun Hmiss') in Hrun'. congruence.
Qed.

(** C3 as stated fails: a day with exercise whose [data_missing_flag] is
    set counts as a miss in the claim's indicator, and [consecutive_misses]
    is 0 on it. *)
Lemma consecutive_misses_ignores_missing_flag :
  ¬ (∀ l : list DailyBehavior,
       consecutive_misses <$> enhance l
         = run_lengths (miss_or_missing <$> sort_values l)).
Proof.
  intros H.
  specialize (H [ {| date := 1; total_steps := 0; exercise_minutes := 30;
                     exercise_done := true; sleep_duration_minutes := 0;
                     data_missing_flag := true |} ]).
  vm_compute in H. discriminate H.
Qed.

End MissRunProperties.

(** ** The sleep consistency score *)

Section ConsistencyProperties.
Import Schemas Features.

Local Open Scope R_scope.

Lemma epsilon_pos : 0 < epsilon.
Proof. unfold epsilon. lra. Qed.

Lemma length_window {A} w i (s : list A) :
  (i < length s)%nat → length (Pd.window w i s) = (w `min` S i)%nat.
Proof. intros Hi. unfold Pd.window. rewrite length_drop, length_take. lia. Qed.

Lemma Forall_window {A} (P : A → Prop) w i (s : list A) :
  Forall P s → Forall P (Pd.window w i s).
Proof. intros Hs. unfold Pd.window. apply Forall_drop, Forall_take, Hs. Qed.

Lemma sum_nonneg (l : list R) : Forall (λ x, 0 <= x) l → 0 <= Pd.sum l.
Proof. unfold Pd.sum. induction 1 as [|x l Hx _ IH]; cbn; lra. Qed.

Lemma mean_nonneg (l : list R) :
  Forall (λ x, 0 <= x) l → (0 < length l)%nat → 0 <= Pd.mean l.
Proof.
  intros Hl Hlen. unfold Pd.mean.
  apply Rmult_le_pos; [apply sum_nonneg, Hl|].
  left. apply Rinv_0_lt_compat, lt_0_INR, Hlen.
Qed.

Lemma std_nonneg (l : list R) : 0 <= Pd.std l.
Proof. unfold Pd.std. apply sqrt_pos. Qed.

(** The score formula on a non-negative deviation and mean. *)
Lemma score_bounds sd mu :
  0 <= sd → 0 <= mu →
  0 < 1 / (1 + sd / (mu + epsilon)) <= 1 ∧
  1 - 1 / (1 + sd / (mu + epsilon)) <= sd / epsilon.
Proof.
  intros Hsd Hmu. pose proof epsilon_pos as He.
  assert (Hx : 0 <= sd / (mu + epsilon))
    by (apply Rmult_le_pos; [lra | left; apply Rinv_0_lt_compat; lra]).
  assert (Hxe : sd / (mu + epsilon) <= sd / epsilon).
  { unfold Rdiv. apply Rmult_le_compat_l; [lra|]. apply Rinv_le_contravar; lra. }
  set (x := sd / (mu + epsilon)) in *.
  assert (Hinv : 0 < / (1 + x)) by (apply Rinv_0_lt_compat; lra).
  assert (Hle : / (1 + x) <= 1).
  { rewrite <- Rinv_1 at 2. apply Rinv_le_contravar; lra. }
  assert (Hgap : 1 - / (1 + x) = x * / (1 + x)) by (field; lra).
  assert (Hmul : x * / (1 + x) <= x * 1) by (apply Rmult_le_compat_l; lra).
  unfold Rdiv at 1 3. rewrite !Rmult_1_l. repeat split; lra.
Qed.

Lemma rolling_cell w mp (agg : list R → R) (s : list R) i :
  (i < length s)%nat →
  cell (Pd.rolling w mp agg s) i
    = if (mp <=? length (Pd.window w i s))%nat then agg (Pd.window w i s) else 0.
Proof.
  intros Hi. unfold cell. rewrite rolling_lookup, decide_True by exact Hi.
  cbn. destruct (mp <=? _)%nat; reflexivity.
Qed.

Lemma sleep_consistency_cell df i :
  (i < length df)%nat →
  let win := Pd.window 7 i (Col.sleep_duration_minutes df) in
  cell (Col.sleep_consistency_score df) i
    = if (3 <=? length win)%nat
      then 1 / (1 + Pd.std win / (Pd.mean win + epsilon)) else 0.
Proof.
  intros Hi win.
  assert (Hs : (i < length (Col.sleep_duration_minutes df))%nat)
    by (unfold Col.sleep_duration_minutes; rewrite length_fmap; exact Hi).
  assert (Hw : length win = (7 `min` S i)%nat) by (apply length_window, Hs).
  unfold cell, Col.sleep_consistency_score, Col.sleep_variance_7d, Col.sleep_7d_avg.
  rewrite lookup_zip_with, !rolling_lookup, !decide_True by exact Hs.
  fold win.
  replace (1 <=? length win)%nat with true by (symmetry; apply Nat.leb_le; lia).
  destruct (3 <=? length win)%nat; reflexivity.
Qed.

Lemma sort_values_Forall (P : DailyBehavior → Prop) l :
  (∀ d, d ∈ l → P d) → Forall P (sort_values l).
Proof.
  intros Hl. unfold sort_values.
  rewrite (merge_sort_Permutation date_le l). apply Forall_forall, Hl.
Qed.

(** C4 (as the code has it): from the third row on, the score of a row is
    [1 / (1 + stddev / (mean + 1e-6))] of the rolling statistics of the row,
    which are those of the window of at most 7 sleep durations ending at it;
    for non-negative sleep durations it lies in (0, 1] and is within
    [stddev / 1e-6] of 1.  On the first two rows the deviation is undefined
    and the score is the filled-in 0. *)
Theorem sleep_consistency_score_range (l : list DailyBehavior) (i : nat)
    (r : FeatureRow) :
  (∀ d, d ∈ l → 0 <= sleep_duration_minutes d) →
  enhance l !! i = Some r →
  let win := Pd.window 7 i (Col.sleep_duration_minutes (sort_values l)) in
  ((i < 2)%nat → sleep_consistency_score r = 0) ∧
  ((2 ≤ i)%nat →
     sleep_variance_7d r = Pd.std win ∧
     sleep_7d_avg r = Pd.mean win ∧
     sleep_consistency_score r
       = 1 / (1 + sleep_variance_7d r / (sleep_7d_avg r + epsilon)) ∧
     0 < sleep_consistency_score r <= 1 ∧
     1 - sleep_consistency_score r <= sleep_variance_7d r / epsilon).
Proof.
  intros Hpos Hr win.
  destruct (enhance_lookup l i r Hr) as (d & Hd & ->).
  set (df := sort_values l) in *.
  assert (Hi : (i < length df)%nat) by (eapply lookup_lt_Some, Hd).
  assert (Hs : (i < length (Col.sleep_duration_minutes df))%nat)
    by (unfold Col.sleep_duration_minutes; rewrite length_fmap; exact Hi).
  assert (Hw : length win = (7 `min` S i)%nat) by (apply length_window, Hs).
  cbn [sleep_consistency_score sleep_variance_7d sleep_7d_avg row].
  rewrite (sleep_consistency_cell df i Hi). fold win.
  unfold Col.sleep_variance_7d, Col.sleep_7d_avg.
  rewrite !rolling_cell by exact Hs. fold win.
  split; intros Hrow.
  - replace (3 <=? length win)%nat with false
      by (symmetry; apply Nat.leb_gt; lia).
    reflexivity.
  - replace (3 <=? length win)%nat with true
      by (symmetry; apply Nat.leb_le; lia).
    replace (1 <=? length win)%nat with true
      by (symmetry; apply Nat.leb_le; lia).
    assert (Hmu : 0 <= Pd.mean win).
    { apply mean_nonneg; [|lia]. apply Forall_window.
      unfold Col.sleep_duration_minutes. apply Forall_fmap.
      apply (sort_values_Forall (λ d, 0 <= sleep_duration_minutes d) l Hpos). }
    destruct (score_bounds (Pd.std win) (Pd.mean win) (std_nonneg win) Hmu)
      as [Hrange Hgap].
    repeat split; try reflexivity; tauto.
Qed.

(** Three nights of 7, 8 and 6 hours: the third row. *)
Lemma sleep_consistency_score_range_witness :
  let night (n : Z) (minutes : R) :=
    {| date := n; total_steps := 6000%Z; exercise_minutes := 20;
       exercise_done := true; sleep_duration_minutes := minutes;
       data_missing_flag := false |} in
  let l := [night 1%Z 420; night 2%Z 480; night 3%Z 360] in
  ∃ r, enhance l !! 2%nat = Some r ∧ 0 < sleep_consistency_score r <= 1.
Proof.
  intros night l.
  eexists. split; [reflexivity|].
  eapply (sleep_consistency_score_range l 2).
  - intros d Hd. unfold l in Hd.
    repeat (apply elem_of_cons in Hd as [->|Hd]; [cbn; lra|]).
    apply elem_of_nil in Hd. contradiction.
  - reflexivity.
  - lia.
Defined.

(** C4 as stated fails on the first row of every table: its score is 0. *)
Lemma sleep_consistency_score_first_row :
  ¬ (∀ l : list DailyBehavior, l ≠ [] →
       ∀ r, r ∈ enhance l → 0 < sleep_consistency_score r <= 1).
Proof.
  intros H.
  set (d := {| date := 1%Z; total_steps := 6000%Z; exercise_minutes := 20;
               exercise_done := true; sleep_duration_minutes := 420;
               data_missing_flag := false |}).
  assert (Hin : row [d] 0 d ∈ enhance [d]) by (apply list_elem_of_here).
  specialize (H [d] ltac:(discriminate) _ Hin).
  assert (Hzero : sleep_consistency_score (row [d] 0 d) = 0) by reflexivity.
  rewrite Hzero in H. lra.
Qed.

End ConsistencyProperties.

(** ** The life cycle of the three models *)

(** A property of the state that every step without success keeps holds
    after a history without success. *)
Lemma train_history_invariant {S I O} (train : S → I → O * S)
    (ok : O → Prop) (P : S → Prop) :
  (∀ self df, P self → ¬ ok (train self df).1 → P (train self df).2) →
  ∀ dfs self, P self →
    Forall (λ o, ¬ ok o) (train_history train self dfs).1 →
    P (train_history train self dfs).2.
Proof.
  intros Hstep. induction dfs as [|df dfs IH]; intros self HP Hall; [exact HP|].
  cbn in *. specialize (Hstep self df HP).
  destruct (train self df) as [o self'].
  specialize (IH self').
  destruct (train_history train self' dfs) as [os final].
  cbn in *. apply Forall_cons in Hall as [Ho Hos]. auto.
Qed.

Section ModelProperties.
Import Py.

Variable CoxPHFitter : Type.
Variable cox_fit : CoxPHFitter → list Burnout.Episode → CoxPHFitter * option string.
Variable concordance_index_ : CoxPHFitter → value.
Variable params_ : CoxPHFitter → value.
Variable predict_partial_hazard : CoxPHFitter → gmap string Q → Q.

Variable Estimator : Type.
Variable sk_fit : Estimator → list (list R) → list nat → Estimator * option exn.
Variable sk_evaluate : Estimator → list (list R) → list nat → value * value * value.
Variable predict_proba : Estimator → list R → Q.

Variable Forest : Type.
Variable forest_fit : Forest → list (list R) → Forest.
Variable forest_predict : Forest → list R → Z.
Variable decision_function : Forest → list R → Q.

Local Abbreviation burnout_train := (Burnout.train cox_fit concordance_index_ params_).
Local Abbreviation burnout_risk := (Burnout.predict_current_risk predict_partial_hazard).
Local Abbreviation adherence_train := (Adherence.train sk_fit sk_evaluate).
Local Abbreviation adherence_proba := (Adherence.predict_next_day_proba predict_proba).
Local Abbreviation anomaly_train := (Anomaly.train forest_fit forest_predict).
Local Abbreviation anomaly_check := (Anomaly.check_anomaly forest_predict decision_function).

(** Inference on an instance whose flag is down. *)
Lemma adherence_untrained self row :
  Adherence.is_trained self = false →
  adherence_proba self row = Raise (ValueError "Model not trained yet").
Proof. intros H. unfold Adherence.predict_next_day_proba. rewrite H. reflexivity. Qed.

Lemma burnout_untrained self feats :
  Burnout.is_trained self = false → burnout_risk self feats = 0.5%Q.
Proof. intros H. unfold Burnout.predict_current_risk. rewrite H. reflexivity. Qed.

Lemma anomaly_untrained self day_row :
  Anomaly.is_trained self = false →
  anomaly_check self day_row
    = list_to_map [("is_anomaly", VBool false); ("score", VFloat 0.0)].
Proof. intros H. unfold Anomaly.check_anomaly. rewrite H. reflexivity. Qed.

(** A training call that does not succeed leaves the flag as it was. *)
Lemma adherence_train_flag self df :
  ¬ metrics_returned (adherence_train self df).1 →
  Adherence.is_trained (adherence_train self df).2 = Adherence.is_trained self.
Proof.
  unfold Adherence.train.
  destruct (Adherence.prepare_data df) as [X y].
  destruct (length X <? 10)%nat; [reflexivity|].
  destruct (sk_fit _ _ _) as [est [e|]]; [reflexivity|].
  destruct (sk_evaluate _ _ _) as [[acc auc] imp]. cbn.
  intros Hno. exfalso. apply Hno. eexists. split; reflexivity.
Qed.

Lemma burnout_train_flag self df :
  ¬ status_success (burnout_train self df).1 →
  Burnout.is_trained (burnout_train self df).2 = Burnout.is_trained self.
Proof.
  unfold Burnout.train.
  destruct (Burnout.prepare_data _ df) as [eps|e]; [|reflexivity].
  destruct (length eps <? 2)%nat; [reflexivity|].
  destruct (cox_fit _ _) as [cph' [msg|]]; [reflexivity|]. cbn.
  intros Hno. exfalso. apply Hno. eexists. split; reflexivity.
Qed.

Lemma anomaly_train_flag self df :
  ¬ status_success (Return (anomaly_train self df).1) →
  Anomaly.is_trained (anomaly_train self df).2 = Anomaly.is_trained self.
Proof.
  unfold Anomaly.train.
  destruct (length df <? 14)%nat; [reflexivity|]. cbn.
  intros Hno. exfalso. apply Hno. eexists. split; reflexivity.
Qed.

(** C7 (what the code does): before any training call the adherence model
    raises its not-trained error and the burnout model answers 0.5; the
    anomaly detector answers [is_anomaly = False] with the value 0 under the
    key [score], and its dictionary has no [severity_score] entry. *)
Theorem inference_before_training (fresh_e : Estimator) (fresh_c : CoxPHFitter)
    (thr : Z) (fresh_f : Forest) (row : Features.FeatureRow)
    (feats : gmap string Q) (day_row : gmap string R) :
  adherence_proba (Adherence.init fresh_e) row
    = Raise (ValueError "Model not trained yet") ∧
  burnout_risk (Burnout.init fresh_c thr) feats = 0.5%Q ∧
  anomaly_check (Anomaly.init fresh_f) day_row !! "is_anomaly" = Some (VBool false) ∧
  anomaly_check (Anomaly.init fresh_f) day_row !! "score" = Some (VFloat 0.0) ∧
  anomaly_check (Anomaly.init fresh_f) day_row !! "severity_score" = None.
Proof.
  split; [apply adherence_untrained; reflexivity|].
  split; [apply burnout_untrained; reflexivity|].
  rewrite anomaly_untrained by reflexivity.
  repeat split; reflexivity.
Qed.


(** Target preparation removes exactly the last row. *)
Lemma filter_targets_length {A} (t : list bool) : ∀ l : list A,
  length l = S (length t) →
  length (filter (λ rt : A * option bool, is_Some rt.2)
            (zip l ((Some <$> t) ++ [None]))) = length t.
Proof.
  induction t as [|b t IH]; intros [|a l] Hl; try discriminate.
  - destruct l; [|discriminate]. reflexivity.
  - cbn [fmap list_fmap app zip_with].
    rewrite filter_cons_True by (cbn; eauto).
    cbn. rewrite IH; [reflexivity | cbn in Hl; lia].
Qed.

Lemma length_adherence_prepare_data df :
  length (Adherence.prepare_data df).1 = pred (length df).
Proof.
  unfold Adherence.prepare_data. cbn [fst]. rewrite length_fmap.
  destruct df as [|r df]; [reflexivity|].
  unfold Pd.shift_back. cbn [fmap list_fmap app drop]. rewrite drop_0.
  rewrite (filter_targets_length ((λ r, Schemas.exercise_done (Features.day r)) <$> df));
    rewrite length_fmap; reflexivity.
Qed.

Lemma sort_index_ends df :
  df ≠ [] →
  ∃ first last_row, head (Burnout.sort_index df) = Some first
                    ∧ last (Burnout.sort_index df) = Some last_row.
Proof.
  intros Hne.
  assert (Hlen : length (Burnout.sort_index df) = length df)
    by (unfold Burnout.sort_index; rewrite merge_sort_Permutation; reflexivity).
  destruct (Burnout.sort_index df) as [|first t] eqn:Hs.
  - destruct df; [contradiction | discriminate].
  - exists first. destruct (last (first :: t)) as [x|] eqn:Hl; [eauto|].
    apply last_None in Hl. discriminate.
Qed.

(** With no qualifying miss block, a table with rows is at most one
    censored episode. *)
Lemma prepare_data_no_dropout thr df :
  df ≠ [] →
  Burnout.dropout_dates thr (Burnout.sort_index df) = [] →
  ∃ eps, Burnout.prepare_data thr df = Return eps ∧ (length eps ≤ 1)%nat
         ∧ Forall (λ e, Burnout.event e = 0%Z) eps.
Proof.
  intros Hne Hnone. unfold Burnout.prepare_data. cbv zeta.
  destruct (sort_index_ends df Hne) as (first & last_row & -> & ->).
  rewrite Hnone. cbn [merge_sort].
  change (merge_sort Z.le []) with (@nil Z). cbv iota beta.
  eexists. split; [reflexivity|].
  unfold Burnout.append_life, Burnout._aggregate_period.
  destruct (length _ <? 3)%nat; cbn; [split; [lia | constructor]|].
  split; [lia | repeat constructor].
Qed.


End ModelProperties.


(** ** Episode segmentation: the spans of the episodes *)

Section SegmentationProperties.
Import Py Schemas Features Burnout.

Local Open Scope Z_scope.

Lemma omap_singleton {A B} (f : A → option B) (x : A) :
  omap f [x] = option_list (f x).
Proof. cbn. destruct (f x); reflexivity. Qed.

Lemma walk_trace df dates : ∀ current_start lives,
  walk df dates current_start lives
    = ((walk_spans df dates current_start).1,
       lives ++ omap (aggregate_span df) (walk_spans df dates current_start).2).
Proof.
  induction dates as [|d dates IH]; intros cs lives; cbn [walk walk_spans].
  - cbn. rewrite app_nil_r. reflexivity.
  - case_bool_decide; [|apply IH].
    destruct (next_success df d) as [s|].
    + rewrite IH. cbn [fst snd]. f_equal.
      unfold append_life. rewrite <- app_assoc. f_equal.
      change ((cs, d, 1) :: ?l) with ([(cs, d, 1)] ++ l).
      rewrite omap_app, omap_singleton. reflexivity.
    + cbn [fst snd]. rewrite omap_singleton. reflexivity.
Qed.

Lemma prepare_data_segments thr df0 :
  df0 ≠ [] →
  prepare_data thr df0
    = Return (omap (aggregate_span (sort_index df0)) (segments thr df0)).
Proof.
  intros Hne. unfold prepare_data, segments. cbv zeta.
  destruct (sort_index_ends df0 Hne) as (first & last_row & -> & ->).
  destruct (merge_sort Z.le _) as [|d dates] eqn:Hdates.
  - rewrite omap_singleton. reflexivity.
  - rewrite walk_trace.
    destruct (walk_spans (sort_index df0) (d :: dates) (index first)) as [[s|] sps].
    + cbn [fst snd app]. case_bool_decide; [|reflexivity].
      unfold append_life. rewrite omap_app, omap_singleton. reflexivity.
    + reflexivity.
Qed.

#[local] Instance index_le_trans : Transitive index_le.
Proof. intros a b c. unfold index_le. lia. Qed.

#[local] Instance index_le_total : Total index_le.
Proof. intros a b. unfold index_le. lia. Qed.

Lemma sort_index_sorted df0 : StronglySorted index_le (sort_index df0).
Proof. unfold sort_index. apply StronglySorted_merge_sort; apply _. Qed.

Lemma sorted_head_min l first :
  StronglySorted index_le l → head l = Some first →
  ∀ r, r ∈ l → index first ≤ index r.
Proof.
  intros Hs Hh r Hr. destruct l as [|a l]; [discriminate|].
  injection Hh as ->. apply StronglySorted_inv in Hs as [_ Hall].
  apply elem_of_cons in Hr as [->|Hr]; [lia|].
  rewrite Forall_forall in Hall. apply Hall, Hr.
Qed.

Lemma sorted_last_max l last_row :
  StronglySorted index_le l → last l = Some last_row →
  ∀ r, r ∈ l → index r ≤ index last_row.
Proof.
  intros Hs Hl r Hr.
  apply last_Some in Hl as [l' ->].
  apply elem_of_app in Hr as [Hr|Hr].
  - apply (StronglySorted_app_1_elem_of index_le l' [last_row] r last_row Hs Hr).
    apply list_elem_of_here.
  - apply list_elem_of_singleton in Hr as ->. lia.
Qed.

Lemma next_success_later df d s : next_success df d = Some s → s > d.
Proof.
  unfold next_success. intros H.
  destruct (head _) as [r|] eqn:Hh; [|discriminate]. injection H as <-.
  apply head_Some_elem_of in Hh.
  apply list_elem_of_filter in Hh as [_ Hh].
  apply list_elem_of_filter in Hh as [Hh _]. exact Hh.
Qed.

(** Every death date is the date of a row of the frame. *)
Lemma dropout_dates_in thr df d :
  d ∈ dropout_dates thr df → ∃ r, r ∈ df ∧ index r = d.
Proof.
  unfold dropout_dates. intros H.
  apply list_elem_of_omap in H as ([k g] & Hg & Hd). cbn in Hd.
  case_bool_decide; [|discriminate].
  destruct (head g) as [r|] eqn:Hh; [|discriminate]. injection Hd as <-.
  exists r. split; [|reflexivity].
  apply head_Some_elem_of in Hh.
  unfold Pd.groupby in Hg. apply list_elem_of_fmap in Hg as (k' & Heq & _).
  injection Heq as -> ->.
  apply list_elem_of_fmap in Hh as ([k2 r2] & -> & Hin).
  apply list_elem_of_filter in Hin as [_ Hin].
  unfold miss_rows in Hin. apply list_elem_of_filter in Hin as [_ Hin].
  eapply elem_of_zip_r, Hin.
Qed.

Lemma chained_lower lo lo' sps hi :
  lo' ≤ lo → chained lo sps hi → chained lo' sps hi.
Proof. destruct sps as [|sp sps]; cbn; [tauto | intros; intuition lia]. Qed.

(** The spans of the loop are chained, and so is any chain appended after
    them from the final [current_start] on. *)
Lemma walk_spans_chained df hi dates : ∀ cs,
  Forall (λ d, d ≤ hi) dates →
  match walk_spans df dates cs with
  | (Some s, sps) => ∀ rest, chained s rest hi → chained cs (sps ++ rest) hi
  | (None, sps) => chained cs sps hi
  end.
Proof.
  induction dates as [|d dates IH]; intros cs Hbound; cbn [walk_spans].
  - intros rest Hrest. exact Hrest.
  - apply Forall_cons in Hbound as [Hd Hbound].
    case_bool_decide as Hgt; [|apply IH, Hbound].
    destruct (next_success df d) as [s|] eqn:Hnext.
    + pose proof (next_success_later df d s Hnext) as Hs.
      specialize (IH s Hbound).
      destruct (walk_spans df dates s) as [[s'|] sps]; cbn [fst snd].
      * intros rest Hrest. cbn. unfold span_start, span_end. cbn.
        repeat split; try lia.
        apply (chained_lower s); [lia|]. apply IH, Hrest.
      * cbn. unfold span_start, span_end. cbn. repeat split; try lia.
        apply (chained_lower s); [lia|]. exact IH.
    + cbn. unfold span_start, span_end. cbn. repeat split; lia.
Qed.

Lemma chained_starts lo sps hi :
  chained lo sps hi → Forall (λ sp, lo ≤ span_start sp ∧ span_start sp ≤ span_end sp) sps.
Proof.
  revert lo. induction sps as [|sp sps IH]; intros lo H; [constructor|].
  cbn in H. destruct H as (H1 & H2 & H3 & H4).
  constructor; [lia|].
  eapply Forall_impl; [apply (IH _ H4)|]. cbn. intros x. lia.
Qed.

Lemma chained_disjoint sps : ∀ lo hi (i j : nat) a b,
  chained lo sps hi → (i < j)%nat →
  sps !! i = Some a → sps !! j = Some b → span_end a < span_start b.
Proof.
  induction sps as [|sp sps IH]; intros lo hi i j a b H Hij Ha Hb; [discriminate|].
  cbn in H. destruct H as (H1 & H2 & H3 & H4).
  destruct j as [|j]; [lia|]. cbn in Hb.
  destruct i as [|i].
  - injection Ha as <-.
    apply chained_starts in H4. rewrite Forall_forall in H4.
    specialize (H4 b (list_elem_of_lookup_2 _ _ _ Hb)). lia.
  - cbn in Ha. eapply (IH _ _ i j); eauto. lia.
Qed.

Lemma chained_total_length sps : ∀ lo hi,
  chained lo sps hi →
  total_length sps ≤ match sps with [] => 0 | _ => hi - lo end.
Proof.
  induction sps as [|sp sps IH]; intros lo hi H; [reflexivity|].
  cbn in H. destruct H as (H1 & H2 & H3 & H4).
  specialize (IH _ _ H4). cbn [total_length foldr]. fold (total_length sps).
  destruct sps; cbn in IH |- *; lia.
Qed.

Lemma omap_cons_list {A B} (f : A → option B) (x : A) (l : list A) :
  omap f (x :: l) = option_list (f x) ++ omap f l.
Proof. cbn. destruct (f x); reflexivity. Qed.

Lemma total_duration_le df sps :
  Forall (λ sp, span_start sp ≤ span_end sp) sps →
  total_duration (omap (aggregate_span df) sps) ≤ total_length sps.
Proof.
  induction 1 as [|sp sps Hsp _ IH]; [reflexivity|].
  rewrite omap_cons_list. cbn [total_length foldr]. fold (total_length sps).
  unfold aggregate_span at 1, _aggregate_period.
  destruct (length _ <? 3)%nat.
  - change (option_list None ++ ?l) with l. lia.
  - change (option_list (Some ?x) ++ ?l) with (x :: l).
    cbn [total_duration foldr duration].
    fold (total_duration (omap (aggregate_span df) sps)). lia.
Qed.

Lemma segments_chained thr df0 first last_row :
  head (sort_index df0) = Some first → last (sort_index df0) = Some last_row →
  chained (index first) (segments thr df0) (index last_row).
Proof.
  intros Hh Hl. unfold segments. cbv zeta. rewrite Hh, Hl.
  pose proof (sort_index_sorted df0) as Hsorted.
  assert (Hfl : index first ≤ index last_row).
  { apply (sorted_last_max _ _ Hsorted Hl). eapply head_Some_elem_of, Hh. }
  destruct (merge_sort Z.le _) as [|d dates] eqn:Hdates.
  - cbn. unfold span_start, span_end. cbn. lia.
  - assert (Hbound : Forall (λ d, d ≤ index last_row) (d :: dates)).
    { rewrite <- Hdates, merge_sort_Permutation. apply Forall_forall.
      intros x Hx. apply dropout_dates_in in Hx as (r & Hr & <-).
      apply (sorted_last_max _ _ Hsorted Hl), Hr. }
    pose proof (walk_spans_chained (sort_index df0) (index last_row)
                  (d :: dates) (index first) Hbound) as Hw.
    destruct (walk_spans _ (d :: dates) _) as [[s|] sps]; [|exact Hw].
    case_bool_decide as Hs.
    + apply Hw. cbn. unfold span_start, span_end. cbn. lia.
    + rewrite <- (app_nil_r sps). apply Hw. exact I.
Qed.

(** C8: for a table with rows, [prepare_data] returns the episodes of the
    spans [segments]: every duration is non-negative, two different spans
    never overlap (the earlier one ends before the later one starts), and
    the lengths of all spans, kept as episodes or discarded as too short,
    sum to at most the calendar span of the table; so do the durations of
    the episodes. *)
Theorem prepare_data_spans (thr : Z) (df0 : list FeatureRow) :
  df0 ≠ [] →
  ∃ first last_row,
    head (sort_index df0) = Some first ∧ last (sort_index df0) = Some last_row ∧
    prepare_data thr df0
      = Return (omap (aggregate_span (sort_index df0)) (segments thr df0)) ∧
    Forall (λ e, 0 ≤ duration e)
      (omap (aggregate_span (sort_index df0)) (segments thr df0)) ∧
    (∀ (i j : nat) a b, (i < j)%nat →
       segments thr df0 !! i = Some a → segments thr df0 !! j = Some b →
       span_end a < span_start b) ∧
    total_length (segments thr df0) ≤ index last_row - index first ∧
    total_duration (omap (aggregate_span (sort_index df0)) (segments thr df0))
      ≤ index last_row - index first.
Proof.
  intros Hne.
  destruct (sort_index_ends df0 Hne) as (first & last_row & Hh & Hl).
  exists first, last_row.
  pose proof (segments_chained thr df0 first last_row Hh Hl) as Hch.
  pose proof (chained_starts _ _ _ Hch) as Hst.
  assert (Hfl : index first ≤ index last_row).
  { apply (sorted_last_max _ _ (sort_index_sorted df0) Hl).
    eapply head_Some_elem_of, Hh. }
  assert (Hlen : total_length (segments thr df0) ≤ index last_row - index first).
  { pose proof (chained_total_length _ _ _ Hch) as Ht.
    destruct (segments thr df0); cbn in Ht |- *; lia. }
  repeat split; try assumption.
  - apply prepare_data_segments, Hne.
  - apply Forall_forall. intros e He.
    apply list_elem_of_omap in He as (sp & Hsp & He).
    rewrite Forall_forall in Hst. specialize (Hst sp Hsp).
    unfold aggregate_span, _aggregate_period in He.
    destruct (length _ <? 3)%nat; [discriminate|]. injection He as <-. cbn. lia.
  - intros i j a b. apply (chained_disjoint _ _ _ _ _ _ _ Hch).
  - etransitivity; [apply total_duration_le|exact Hlen].
    eapply Forall_impl; [exact Hst|]. cbn. intros sp. lia.
Qed.

End SegmentationProperties.

(** ** Episode segmentation: miss blocks and death dates *)

Section BlockProperties.
Import Py Schemas Features Burnout.

Lemma keyed_cons acc prev r df :
  keyed acc prev (r :: df)
    = let k := (acc + Nat.b2n (bool_decide (Some (done r) ≠ prev)))%nat in
      (k, r) :: keyed k (Some (done r)) df.
Proof. reflexivity. Qed.

Lemma flatten_cons {A} k (b : list A) kbs :
  flatten ((k, b) :: kbs) = (pair k <$> b) ++ flatten kbs.
Proof. reflexivity. Qed.

(** The group number of a row is the number of its block. *)
Lemma keyed_blocks df : ∀ acc prev,
  keyed acc prev df
    = flatten (number (first_key acc prev (blocks df)) (blocks df)).
Proof.
  induction df as [|r df IH]; intros acc prev; [reflexivity|].
  rewrite keyed_cons. cbv zeta. rewrite IH. cbn [blocks].
  destruct (blocks df) as [|b bs]; [reflexivity|].
  cbn [first_key].
  destruct (decide (done <$> head b = Some (done r))) as [Hsame|Hdiff].
  - rewrite (bool_decide_eq_true_2 (done <$> head b = Some (done r))) by exact Hsame.
    rewrite (bool_decide_eq_false_2 (done <$> head b ≠ Some (done r)))
      by (intros Hne; apply Hne, Hsame).
    cbn [first_key head fmap option_fmap option_map Nat.b2n number].
    rewrite Nat.add_0_r, !flatten_cons. reflexivity.
  - rewrite (bool_decide_eq_false_2 (done <$> head b = Some (done r))) by exact Hdiff.
    rewrite (bool_decide_eq_true_2 (done <$> head b ≠ Some (done r))) by exact Hdiff.
    cbn [first_key head fmap option_fmap option_map Nat.b2n number].
    rewrite Nat.add_1_r, !flatten_cons. reflexivity.
Qed.

Lemma miss_groups_blocks df :
  zip (miss_groups df) df
    = flatten (number (first_key 0 None (blocks df)) (blocks df)).
Proof.
  unfold miss_groups, Pd.cumsum. rewrite ne_shift_from. apply (keyed_blocks df 0 None).
Qed.

(** All rows of a block have the [exercise_done] of its first row. *)
Lemma blocks_uniform df :
  Forall (λ b, Forall (λ r, done <$> head b = Some (done r)) b) (blocks df).
Proof.
  induction df as [|r df IH]; [constructor|]. cbn [blocks].
  destruct (blocks df) as [|b bs]; [repeat constructor|].
  apply Forall_cons in IH as [Hb Hbs].
  case_bool_decide as Hsame.
  - constructor; [|exact Hbs]. constructor; [reflexivity|].
    eapply Forall_impl; [exact Hb|]. cbn. intros r' Hr'. congruence.
  - constructor; [repeat constructor|]. constructor; assumption.
Qed.

Lemma filter_miss_uniform (k : nat) (v : bool) (b : list FeatureRow) :
  Forall (λ r, v = done r) b →
  filter (λ gr : nat * FeatureRow, done gr.2 = false) (pair k <$> b)
    = if bool_decide (v = false) then pair k <$> b else [].
Proof.
  induction 1 as [|r b Hr _ IH].
  - destruct (bool_decide _); reflexivity.
  - rewrite fmap_cons, filter_cons, IH. cbn [snd].
    destruct (decide (done r = false)) as [Hf|Hf]; case_bool_decide; congruence.
Qed.

Lemma filter_miss_flatten (kbs : list (nat * list FeatureRow)) :
  Forall (λ b, Forall (λ r, done <$> head b = Some (done r)) b) (snd <$> kbs) →
  filter (λ gr : nat * FeatureRow, done gr.2 = false) (flatten kbs)
    = flatten (misses <$> kbs).
Proof.
  induction kbs as [|[k b] kbs IH]; intros Hu; [reflexivity|].
  rewrite fmap_cons in Hu. apply Forall_cons in Hu as [Hb Hu]. cbn [snd] in Hb.
  rewrite fmap_cons. unfold misses at 1. cbn [fst snd].
  rewrite !flatten_cons, filter_app, IH by exact Hu. f_equal.
  unfold miss_block. destruct b as [|r b].
  - cbn. destruct (bool_decide _); reflexivity.
  - cbn [head fmap option_fmap option_map] in *.
    rewrite (filter_miss_uniform k (done r)).
    + destruct (done r); reflexivity.
    + eapply Forall_impl; [exact Hb|]. cbn. intros r' Hr'. congruence.
Qed.

Lemma flatten_keys {A} (kbs : list (nat * list A)) (x : nat) :
  x ∈ (fst <$> flatten kbs) → x ∈ (fst <$> kbs).
Proof.
  induction kbs as [|[k b] kbs IH]; [intros H; exact H|].
  rewrite flatten_cons, fmap_app, elem_of_app, fmap_cons, elem_of_cons.
  intros [H|H]; [left | right; apply IH, H].
  apply list_elem_of_fmap in H as ([k' r] & -> & H).
  apply list_elem_of_fmap in H as (r' & Heq & _). injection Heq as -> _. reflexivity.
Qed.

Lemma filter_key_own {A} (k : nat) (b : list A) :
  filter (λ kr : nat * A, kr.1 = k) (pair k <$> b) = pair k <$> b.
Proof.
  induction b as [|r b IH]; [reflexivity|].
  rewrite fmap_cons, filter_cons_True by reflexivity. rewrite IH. reflexivity.
Qed.

Lemma filter_key_other {A} (k k' : nat) (b : list A) :
  k ≠ k' → filter (λ kr : nat * A, kr.1 = k') (pair k <$> b) = [].
Proof.
  intros Hne. induction b as [|r b IH]; [reflexivity|].
  rewrite fmap_cons, filter_cons_False by (cbn; congruence). exact IH.
Qed.

Lemma filter_key_absent {A} (k : nat) (rows : list (nat * A)) :
  k ∉ (fst <$> rows) → filter (λ kr : nat * A, kr.1 = k) rows = [].
Proof.
  induction rows as [|[k' r] rows IH]; [reflexivity|].
  rewrite fmap_cons, not_elem_of_cons. cbn [fst]. intros [Hne Hnot].
  rewrite filter_cons_False by (cbn; congruence). apply IH, Hnot.
Qed.

Lemma remove_dups_cons_in {A} `{EqDecision A} (x : A) (l : list A) :
  x ∈ l → remove_dups (x :: l) = remove_dups l.
Proof. intros Hin. cbn. destruct (decide_rel elem_of x l); [reflexivity | contradiction]. Qed.

Lemma remove_dups_cons_out {A} `{EqDecision A} (x : A) (l : list A) :
  x ∉ l → remove_dups (x :: l) = x :: remove_dups l.
Proof. intros Hout. cbn. destruct (decide_rel elem_of x l); [contradiction | reflexivity]. Qed.

Lemma remove_dups_block {A} (k : nat) (r : A) (b : list A) (keys : list nat) :
  k ∉ keys →
  remove_dups ((fst <$> (pair k <$> (r :: b))) ++ keys) = k :: remove_dups keys.
Proof.
  intros Hnot. revert r. induction b as [|r' b IH]; intros r.
  - cbn [fmap list_fmap app fst]. apply remove_dups_cons_out, Hnot.
  - specialize (IH r').
    rewrite (fmap_cons (pair k) r), fmap_cons. cbn [fst].
    rewrite <- app_comm_cons, remove_dups_cons_in; [exact IH|].
    rewrite !fmap_cons. cbn [fst]. rewrite <- app_comm_cons. apply list_elem_of_here.
Qed.

Lemma merge_sort_least (k : nat) (l : list nat) :
  Forall (λ x, (k < x)%nat) l →
  merge_sort le (k :: l) = k :: merge_sort le l.
Proof.
  intros Hlt.
  apply (StronglySorted_unique le).
  - apply StronglySorted_merge_sort; apply _.
  - constructor; [apply StronglySorted_merge_sort; apply _|].
    rewrite merge_sort_Permutation.
    eapply Forall_impl; [exact Hlt|]. cbn. lia.
  - rewrite !merge_sort_Permutation. reflexivity.
Qed.

(** Grouping the rows of numbered blocks gives the blocks back, the empty
    ones left out. *)
Lemma groupby_flatten {A} (kbs : list (nat * list A)) :
  StronglySorted lt (fst <$> kbs) →
  Pd.groupby (flatten kbs) = filter (λ kb, kb.2 ≠ []) kbs.
Proof.
  induction kbs as [|[k b] kbs IH]; intros Hs; [reflexivity|].
  rewrite fmap_cons in Hs. apply StronglySorted_inv in Hs as [Hs Hk]. cbn [fst] in Hk.
  specialize (IH Hs).
  destruct b as [|r b].
  - rewrite flatten_cons, filter_cons_False by (cbn; intros H; apply H; reflexivity).
    exact IH.
  - rewrite filter_cons_True by (cbn; discriminate). rewrite <- IH.
    assert (Hnot : ∀ x, x ∈ (fst <$> flatten kbs) → (k < x)%nat).
    { intros x Hx. apply flatten_keys in Hx. rewrite Forall_forall in Hk. apply Hk, Hx. }
    unfold Pd.groupby. rewrite flatten_cons, fmap_app.
    rewrite remove_dups_block
      by (intros Hin; specialize (Hnot k Hin); lia).
    rewrite merge_sort_least.
    2:{ apply Forall_forall. intros x Hx. apply Hnot.
        apply elem_of_remove_dups, Hx. }
    rewrite fmap_cons. f_equal.
    + rewrite filter_app, filter_key_own, filter_key_absent, app_nil_r.
      * rewrite <- list_fmap_compose. f_equal. apply list_fmap_id.
      * intros Hin. specialize (Hnot k Hin). lia.
    + apply Forall_fmap_ext_1, Forall_forall. intros k' Hk'.
      rewrite merge_sort_Permutation in Hk'.
      apply (proj1 (elem_of_remove_dups _ _)) in Hk'.
      specialize (Hnot k' Hk').
      rewrite filter_app, filter_key_other by lia. reflexivity.
Qed.

Lemma number_keys {A} (bs : list A) : ∀ k,
  Forall (λ x, (k ≤ x)%nat) (fst <$> number k bs)
  ∧ StronglySorted lt (fst <$> number k bs).
Proof.
  induction bs as [|b bs IH]; intros k; cbn; [split; constructor|].
  destruct (IH (S k)) as [Hge Hs].
  split.
  - constructor; [lia|]. eapply Forall_impl; [exact Hge|]. cbn. lia.
  - constructor; [exact Hs|]. eapply Forall_impl; [exact Hge|]. cbn. lia.
Qed.

Lemma number_blocks {A} (bs : list A) : ∀ k, snd <$> number k bs = bs.
Proof. induction bs as [|b bs IH]; intros k; cbn; [reflexivity | rewrite IH; reflexivity]. Qed.

Lemma misses_keys (kbs : list (nat * list FeatureRow)) :
  fst <$> (misses <$> kbs) = fst <$> kbs.
Proof. rewrite <- list_fmap_compose. reflexivity. Qed.

Lemma dropout_of_blocks thr (bs : list (list FeatureRow)) : ∀ k,
  omap (λ g : nat * list FeatureRow,
          if bool_decide (thr ≤ Z.of_nat (length g.2))%Z
          then index <$> head g.2 else None)
       (filter (λ kb, kb.2 ≠ []) (misses <$> number k bs))
  = omap (death_date thr) bs.
Proof.
  induction bs as [|b bs IH]; intros k; [reflexivity|].
  cbn [number]. rewrite fmap_cons, omap_cons_list, <- (IH (S k)).
  unfold misses at 1, miss_block. cbn [fst snd].
  destruct b as [|r b].
  - cbn [head fmap option_fmap option_map].
    rewrite bool_decide_eq_false_2 by discriminate.
    rewrite filter_cons_False by (cbn; intros H; apply H; reflexivity).
    reflexivity.
  - cbn [head fmap option_fmap option_map death_date].
    destruct (done r) eqn:Hd.
    + rewrite bool_decide_eq_false_2 by discriminate.
      rewrite filter_cons_False by (cbn; intros H; apply H; reflexivity).
      rewrite bool_decide_eq_false_2 by (intros [? _]; discriminate).
      reflexivity.
    + rewrite bool_decide_eq_true_2 by reflexivity.
      rewrite filter_cons_True by (cbn; discriminate).
      rewrite omap_cons_list. cbn [snd head fmap option_fmap option_map].
      destruct (decide (thr ≤ Z.of_nat (length (r :: b)))%Z) as [Hthr|Hthr].
      * rewrite !bool_decide_eq_true_2 by auto. reflexivity.
      * rewrite !bool_decide_eq_false_2 by tauto. reflexivity.
Qed.

(** The dates the first loop of [prepare_data] collects are the death
    dates of the qualifying miss blocks, in table order. *)
Lemma dropout_dates_blocks thr df : dropout_dates thr df = death_dates thr df.
Proof.
  unfold dropout_dates, death_dates, miss_rows.
  rewrite miss_groups_blocks.
  set (k0 := first_key 0 None (blocks df)).
  rewrite filter_miss_flatten
    by (rewrite number_blocks; apply blocks_uniform).
  rewrite groupby_flatten
    by (rewrite misses_keys; apply number_keys).
  apply dropout_of_blocks.
Qed.

End BlockProperties.

(** ** Episode segmentation: the algorithm in the words of the specification *)

Section SegmentationSpec.
Import Py Schemas Features Burnout.

Local Open Scope Z_scope.

Lemma aggregate_span_episode df sp :
  aggregate_span df sp
    = if long_enough df sp then Some (span_episode df sp) else None.
Proof.
  unfold aggregate_span, _aggregate_period, long_enough, span_episode, rows_of_span.
  rewrite Nat.ltb_antisym. destruct (3 <=? _)%nat; reflexivity.
Qed.

Lemma omap_aggregate_span df sps :
  omap (aggregate_span df) sps = episodes_of df sps.
Proof.
  unfold episodes_of. induction sps as [|sp sps IH]; [reflexivity|].
  rewrite omap_cons_list, IH, aggregate_span_episode, filter_cons.
  destruct (long_enough df sp); reflexivity.
Qed.

Lemma next_success_first df d : next_success df d = first_exercise_after df d.
Proof.
  unfold next_success, first_exercise_after.
  induction df as [|r df IH]; [reflexivity|].
  cbn [list_find]. rewrite filter_cons.
  destruct (decide (index r > d)) as [Hd|Hd].
  - rewrite filter_cons. destruct (decide (done r = true)) as [Ht|Ht].
    + rewrite decide_True by auto. reflexivity.
    + rewrite decide_False by tauto. rewrite IH.
      destruct (list_find _ df) as [[i r']|]; reflexivity.
  - rewrite decide_False by tauto. rewrite IH.
    destruct (list_find _ df) as [[i r']|]; reflexivity.
Qed.

Lemma walk_spans_segmentation df dates : ∀ start,
  walk_spans df dates start = segmentation_walk AfterLaterDeathDate df dates start.
Proof.
  induction dates as [|d dates IH]; intros start; [reflexivity|].
  cbn [walk_spans segmentation_walk]. rewrite next_success_first.
  destruct (decide (d > start)) as [Hd|Hd].
  - rewrite !bool_decide_eq_true_2 by lia.
    destruct (first_exercise_after df d) as [s|]; [rewrite IH|]; reflexivity.
  - rewrite !bool_decide_eq_false_2 by lia. apply IH.
Qed.

(** A span that starts after the last row has no rows. *)
Lemma late_span_empty df s hi ev :
  ¬ s ≤ hi → long_enough df (s, hi, ev) = false.
Proof.
  intros Hs. unfold long_enough, rows_of_span, span_start, span_end. cbn.
  replace (filter _ df) with (@nil FeatureRow); [reflexivity|].
  symmetry. induction df as [|r df IH]; [reflexivity|].
  rewrite filter_cons_False by lia. exact IH.
Qed.

(** C2 (as the code has it): on a table with rows, [prepare_data] is the
    segmentation in which a death date closes the span from the current
    episode start and restarts at the first subsequent day with exercise
    only when it is later than the current episode start; whether the span
    was long enough to be kept plays no part in the restart. *)
Theorem prepare_data_segmentation (thr : Z) (df0 : list FeatureRow) :
  df0 ≠ [] →
  prepare_data thr df0 = Return (segmentation AfterLaterDeathDate thr df0).
Proof.
  intros Hne. rewrite (prepare_data_segments thr df0 Hne). f_equal.
  rewrite omap_aggregate_span. unfold segments, segmentation. cbv zeta.
  destruct (sort_index_ends df0 Hne) as (first & last_row & -> & ->).
  rewrite dropout_dates_blocks.
  destruct (merge_sort Z.le _) as [|d dates]; [reflexivity|].
  rewrite walk_spans_segmentation.
  destruct (segmentation_walk _ _ _ _) as [[s|] sps]; cbn [fst snd].
  - case_bool_decide as Hs; [reflexivity|].
    unfold episodes_of. rewrite filter_app, filter_cons_False, app_nil_r.
    + reflexivity.
    + rewrite late_span_empty by exact Hs. discriminate.
  - rewrite app_nil_r. reflexivity.
Qed.

End SegmentationSpec.

(** ** Episode segmentation on concrete histories *)

Section SegmentationExamples.
Import Py Schemas Features Burnout.

Example three_dropouts_code :
  returned_outline (prepare_data 5 three_dropouts) = Some [(6, 1); (2, 0)]%Z.
Proof. vm_compute. reflexivity. Qed.

Example three_dropouts_every :
  outline (segmentation AfterEveryDeathDate 5 three_dropouts) = [(2, 0)]%Z.
Proof. vm_compute. reflexivity. Qed.

Example three_dropouts_recorded :
  outline (segmentation AfterRecordedEpisode 5 three_dropouts) = [(6, 1); (8, 0)]%Z.
Proof. vm_compute. reflexivity. Qed.

(** C2 as stated fails under both readings of its restart sentence.  If
    the next episode starts after every death date, the miss block that
    opens the table restarts at day 5 and no died episode is left; if it
    starts only after a recorded episode, the two-day span from day 11 to
    the death date 12 does not restart and the censored episode runs from
    day 11.  The code gives a died episode of 6 days and a censored one of
    2 days. *)
Lemma prepare_data_restart_counterexample :
  prepare_data 5 three_dropouts
    ≠ Return (segmentation AfterEveryDeathDate 5 three_dropouts) ∧
  prepare_data 5 three_dropouts
    ≠ Return (segmentation AfterRecordedEpisode 5 three_dropouts).
Proof.
  split; intros H; apply (f_equal returned_outline) in H;
    rewrite three_dropouts_code in H; cbn [returned_outline] in H.
  - rewrite three_dropouts_every in H. discriminate H.
  - rewrite three_dropouts_recorded in H. discriminate H.
Qed.

Lemma three_dropouts_rows : three_dropouts ≠ [].
Proof. intros H. apply (f_equal length) in H. vm_compute in H. discriminate H. Qed.

(** The code on the table of the counterexample. *)
Lemma prepare_data_segmentation_witness :
  three_dropouts ≠ [] ∧
  outline (segmentation AfterLaterDeathDate 5 three_dropouts) = [(6, 1); (2, 0)]%Z.
Proof.
  split; [exact three_dropouts_rows|].
  pose proof (prepare_data_segmentation 5 three_dropouts three_dropouts_rows) as H.
  apply (f_equal returned_outline) in H.
  rewrite three_dropouts_code in H. cbn [returned_outline] in H.
  congruence.
Defined.

(** The spans of the same table: days 0 to 6 and days 17 to 19, the
    discarded fragment from day 11 to day 12 between them. *)
Lemma prepare_data_spans_witness :
  three_dropouts ≠ [] ∧
  segments 5 three_dropouts = [(0, 6, 1); (11, 12, 1); (17, 19, 0)]%Z ∧
  (total_length (segments 5 three_dropouts) ≤ 19)%Z.
Proof.
  split; [exact three_dropouts_rows|].
  split; [vm_compute; reflexivity|].
  destruct (prepare_data_spans 5 three_dropouts three_dropouts_rows)
    as (first & last_row & Hh & Hl & _ & _ & _ & Hlen & _).
  assert (Hfirst : index first = 0%Z).
  { assert (H : index <$> head (sort_index three_dropouts) = Some 0%Z)
      by (vm_compute; reflexivity).
    rewrite Hh in H. injection H as ->. reflexivity. }
  assert (Hlast : index last_row = 19%Z).
  { assert (H : index <$> last (sort_index three_dropouts) = Some 19%Z)
      by (vm_compute; reflexivity).
    rewrite Hl in H. injection H as ->. reflexivity. }
  rewrite Hfirst, Hlast in Hlen. exact Hlen.
Defined.

End SegmentationExamples.

(** ** The recommendation cascade: what it reads and what it returns *)

Section RecommenderReach.
Import Recommender.

Local Open Scope Q_scope.

Implicit Types (uid d : string) (p b : Q) (a : bool) (f g : gmap string Q).

(** Split on each test of the cascade, in order. *)
Ltac split_cascade :=
  unfold generate_recommendation, cascade;
  repeat match goal with
    | |- context [if ?c then _ else _] =>
        let E := fresh "E" in destruct c eqn:E
    end.

(** X1: of the feature row, [generate_recommendation] reads the entries
    [sleep_duration_minutes] and [consecutive_misses] and nothing else: two
    rows that agree on these two entries (present with the same value, or
    absent in both) get the same response. *)
Theorem generate_recommendation_reads_two_features uid d p b a f g :
  f !! "sleep_duration_minutes" = g !! "sleep_duration_minutes" →
  f !! "consecutive_misses" = g !! "consecutive_misses" →
  generate_recommendation uid d p b a f = generate_recommendation uid d p b a g.
Proof.
  intros Hs Hm. unfold generate_recommendation, cascade, Py.get.
  rewrite Hs, Hm. reflexivity.
Qed.

(** Two rows with the same sleep, no miss counter and different other
    entries. *)
Lemma generate_recommendation_reads_two_features_witness :
  generate_recommendation "u" "2024-03-01" 0.3 1.0 false
    {[ "sleep_duration_minutes" := 400; "total_steps" := 12000 ]}
  = generate_recommendation "u" "2024-03-01" 0.3 1.0 false
    {[ "sleep_duration_minutes" := 400; "effort_ratio" := 2 ]}.
Proof.
  apply generate_recommendation_reads_two_features; reflexivity.
Defined.

(** X2: every branch of the cascade overwrites the defaults set at the top
    of [generate_recommendation]: the title "Keep it up!" and the body
    "You're on track." are never returned, the type is never celebration,
    the list of reasons has one or two entries, and the identification and
    the three scores are echoed unchanged. *)
Theorem generate_recommendation_overrides_defaults uid d p b a f :
  let r := generate_recommendation uid d p b a f in
  recommendation_type r ≠ CELEBRATION ∧
  message_title r ≠ title initial ∧
  message_body r ≠ body initial ∧
  (1 <= length (why_this_recommendation r) <= 2)%nat ∧
  user_id r = uid ∧ date r = d ∧ adherence_probability r = p ∧
  burnout_risk_score r = b ∧ is_anomaly r = a.
Proof.
  intros r. subst r. split_cascade; cbn; repeat split; try discriminate; lia.
Qed.

(** X3: the type of the response characterises the inputs: recovery exactly
    when sleep is below 180 minutes or the anomaly flag is set; scale_down
    exactly when neither holds and the burnout risk is above 1.2; anchoring
    exactly when none of these holds and the adherence probability is below
    0.4; maintain exactly in the remaining case. *)
Theorem recommendation_type_cases uid d p b a f :
  let s := Py.get f "sleep_duration_minutes" 480 in
  let r := generate_recommendation uid d p b a f in
  (recommendation_type r = RECOVERY ↔ s < 180 ∨ a = true) ∧
  (recommendation_type r = SCALE_DOWN ↔ 180 <= s ∧ a = false ∧ 1.2 < b) ∧
  (recommendation_type r = ANCHORING ↔ 180 <= s ∧ a = false ∧ b <= 1.2 ∧ p < 0.4) ∧
  (recommendation_type r = MAINTAIN ↔ 180 <= s ∧ a = false ∧ b <= 1.2 ∧ 0.4 <= p).
Proof.
  intros s r. subst s r. split_cascade; py_tests; cbn;
    repeat split; intros; try discriminate; try tauto; try lra;
    try (exfalso; intuition (try discriminate; try congruence; lra)).
Qed.

End RecommenderReach.

(** ** The frame of [enhance]: order of the rows *)

Section FrameOrder.
Import Schemas Features.

#[local] Instance date_le_trans : Transitive date_le.
Proof. intros a b c. unfold date_le. lia. Qed.

#[local] Instance date_le_total : Total date_le.
Proof. intros a b. unfold date_le. lia. Qed.

Lemma day_enhance l : day <$> enhance l = sort_values l.
Proof.
  unfold enhance. cbv zeta. apply list_eq. intros i.
  rewrite list_lookup_fmap, list_lookup_imap.
  destruct (sort_values l !! i); reflexivity.
Qed.

Lemma NoDup_fmap_eq {A B} (f : A → B) (l : list A) x y :
  NoDup (f <$> l) → x ∈ l → y ∈ l → f x = f y → x = y.
Proof.
  induction l as [|a l IH]; intros Hnd Hx Hy Hf; [inversion Hx|].
  cbn in Hnd. apply NoDup_cons in Hnd as [Hna Hnd].
  apply elem_of_cons in Hx as [->|Hx]; apply elem_of_cons in Hy as [->|Hy].
  - reflexivity.
  - exfalso. apply Hna. rewrite Hf. apply list_elem_of_fmap_2, Hy.
  - exfalso. apply Hna. rewrite <- Hf. apply list_elem_of_fmap_2, Hx.
  - apply IH; assumption.
Qed.

Lemma sort_values_sorted l : StronglySorted date_le (sort_values l).
Proof. apply StronglySorted_merge_sort; apply _. Qed.

Lemma sort_values_unique l l' :
  NoDup (date <$> l) → l' ≡ₚ l → Sorted date_le l' → sort_values l = l'.
Proof.
  intros Hnd Hp Hs.
  apply (StronglySorted_unique_strong date_le).
  - intros x1 x2 H1 H2 H12 H21.
    apply (NoDup_fmap_eq date l); [exact Hnd| | |unfold date_le in *; lia].
    + unfold sort_values in H1. rewrite merge_sort_Permutation in H1. exact H1.
    + rewrite <- Hp. exact H2.
  - apply sort_values_sorted.
  - apply Sorted_StronglySorted; [apply _ | exact Hs].
  - unfold sort_values. rewrite merge_sort_Permutation, Hp. reflexivity.
Qed.

Lemma sorted_dates_lt l :
  NoDup (date <$> l) → StronglySorted date_le l →
  StronglySorted (λ a b, (date a < date b)%Z) l.
Proof.
  intros Hnd Hs. induction Hs as [|x l Hs IH Hx]; [constructor|].
  cbn in Hnd. apply NoDup_cons in Hnd as [Hna Hnd].
  constructor; [apply IH, Hnd|].
  rewrite Forall_forall in Hx |- *. intros y Hy.
  specialize (Hx y Hy). unfold date_le in Hx.
  assert (date x ≠ date y).
  { intros Heq. apply Hna. rewrite Heq. apply list_elem_of_fmap_2, Hy. }
  lia.
Qed.

Lemma StronglySorted_lookup {A} (R : relation A) (l : list A) :
  StronglySorted R l →
  ∀ (i j : nat) x y, l !! i = Some x → l !! j = Some y → (i < j)%nat → R x y.
Proof.
  induction 1 as [|a l Hs IH Ha]; intros i j x y Hi Hj Hij; [discriminate|].
  destruct j as [|j]; [lia|]. cbn in Hj.
  destruct i as [|i].
  - cbn in Hi. injection Hi as <-.
    rewrite Forall_forall in Ha. eapply Ha, list_elem_of_lookup_2, Hj.
  - cbn in Hi. eapply (IH i j); [eassumption..|lia].
Qed.

(** X4: on a history with distinct dates, the frame of [enhance] holds
    the records of the input, each once, in strictly increasing date order;
    the order in which the records are passed plays no part, and records
    passed in date order keep their places. *)
Theorem enhance_orders_by_date (l : list DailyBehavior) :
  NoDup (date <$> l) →
  day <$> enhance l ≡ₚ l ∧
  (∀ (i j : nat) r r', enhance l !! i = Some r → enhance l !! j = Some r' →
     (i < j)%nat → (date (day r) < date (day r'))%Z) ∧
  (∀ l', l' ≡ₚ l → enhance l' = enhance l) ∧
  (Sorted date_le l → day <$> enhance l = l).
Proof.
  intros Hnd. repeat split.
  - rewrite day_enhance. apply merge_sort_Permutation.
  - intros i j r r' Hr Hr' Hij.
    assert (Hs : StronglySorted (λ a b, (date a < date b)%Z) (sort_values l)).
    { apply sorted_dates_lt; [|apply sort_values_sorted].
      unfold sort_values. rewrite merge_sort_Permutation. exact Hnd. }
    assert (Hd : sort_values l !! i = Some (day r))
      by (rewrite <- day_enhance, list_lookup_fmap, Hr; reflexivity).
    assert (Hd' : sort_values l !! j = Some (day r'))
      by (rewrite <- day_enhance, list_lookup_fmap, Hr'; reflexivity).
    exact (StronglySorted_lookup _ _ Hs i j _ _ Hd Hd' Hij).
  - intros l' Hp. unfold enhance.
    assert (Heq : sort_values l' = sort_values l).
    { symmetry. apply sort_values_unique; [exact Hnd| |].
      - unfold sort_values. rewrite merge_sort_Permutation. exact Hp.
      - apply Sorted_merge_sort, _. }
    rewrite Heq. reflexivity.
  - intros Hs. rewrite day_enhance. apply sort_values_unique; [exact Hnd|reflexivity|exact Hs].
Qed.

(** Two days passed in the wrong order. *)
Lemma enhance_orders_by_date_witness :
  let a := {| date := 1; total_steps := 8000; exercise_minutes := 30;
              exercise_done := true; sleep_duration_minutes := 420;
              data_missing_flag := false |} in
  let b := {| date := 2; total_steps := 500; exercise_minutes := 0;
              exercise_done := false; sleep_duration_minutes := 120;
              data_missing_flag := false |} in
  NoDup (date <$> [a; b]) ∧ enhance [b; a] = enhance [a; b].
Proof.
  intros a b.
  assert (Hnd : NoDup (date <$> [a; b])).
  { cbn. repeat constructor; intros Hin;
      repeat (apply elem_of_cons in Hin as [Hin|Hin]; [discriminate Hin|]);
      apply elem_of_nil in Hin; exact Hin. }
  split; [exact Hnd|].
  destruct (enhance_orders_by_date [a; b] Hnd) as (_ & _ & Hperm & _).
  apply Hperm. apply perm_swap.
Defined.

End FrameOrder.

(** ** The frame of [enhance]: lags and miss counters *)

Section FrameColumns.
Import Schemas Features.

Local Open Scope R_scope.

(** The rows at two positions of the frame come from the records at the
    same positions of the sorted history. *)
Lemma enhance_row l (i : nat) r :
  enhance l !! i = Some r →
  sort_values l !! i = Some (day r) ∧ r = row (sort_values l) i (day r).
Proof.
  intros Hr. destruct (enhance_lookup l i r Hr) as (d & Hd & ->).
  split; [exact Hd | reflexivity].
Qed.

Lemma shift_cell_0 (s : list R) : cell (Pd.shift s) 0 = 0.
Proof.
  unfold cell. rewrite shift_lookup.
  destruct (decide (0 < length s)%nat); reflexivity.
Qed.

Lemma shift_cell_S (s : list R) (i : nat) x :
  s !! i = Some x → (S i < length s)%nat → cell (Pd.shift s) (S i) = x.
Proof.
  intros Hx Hlen. unfold cell. rewrite shift_lookup, decide_True by exact Hlen.
  rewrite Hx. reflexivity.
Qed.


Lemma window_3 {A} (s : list A) (i : nat) a b c :
  s !! i = Some a → s !! S i = Some b → s !! S (S i) = Some c →
  Pd.window 3 (S (S i)) s = [a; b; c].
Proof.
  intros Ha Hb Hc. unfold Pd.window.
  replace (S (S (S i)) - 3)%nat with i by lia.
  apply list_eq. intros j. rewrite lookup_drop, lookup_take.
  destruct j as [|[|[|j]]]; cbn.
  - rewrite decide_True by lia. rewrite Nat.add_0_r. exact Ha.
  - rewrite decide_True by lia. replace (i + 1)%nat with (S i) by lia. exact Hb.
  - rewrite decide_True by lia. replace (i + 2)%nat with (S (S i)) by lia. exact Hc.
  - rewrite decide_False by lia. reflexivity.
Qed.

Lemma rolling_3_early {A} (agg : list A → R) (s : list A) (i : nat) :
  (i < 2)%nat → cell (Pd.rolling 3 3 agg s) i = 0.
Proof.
  intros Hi. unfold cell. rewrite rolling_lookup.
  destruct (decide (i < length s)%nat) as [Hlen|]; [|reflexivity].
  rewrite length_window by exact Hlen.
  replace (3 <=? 3 `min` S i)%nat with false
    by (symmetry; apply Nat.leb_gt; lia).
  reflexivity.
Qed.

Lemma rolling_misses_3d_window l (i : nat) r0 r1 r2 :
  enhance l !! i = Some r0 → enhance l !! S i = Some r1 →
  enhance l !! S (S i) = Some r2 →
  rolling_misses_3d r2
    = INR (Nat.b2n (miss_or_missing (day r0)) + Nat.b2n (miss_or_missing (day r1))
           + Nat.b2n (miss_or_missing (day r2))).
Proof.
  intros H0 H1 H2.
  apply enhance_row in H0 as [H0 _]. apply enhance_row in H1 as [H1 _].
  apply enhance_row in H2 as [H2 ->]. cbn [rolling_misses_3d row day].
  set (df := sort_values l) in *.
  unfold cell, Col.rolling_misses_3d. rewrite rolling_lookup.
  rewrite decide_True
    by (rewrite length_fmap; eapply lookup_lt_Some, H2).
  rewrite (window_3 _ i (miss_or_missing (day r0)) (miss_or_missing (day r1))
             (miss_or_missing (day r2)))
    by (rewrite list_lookup_fmap; first [rewrite H0 | rewrite H1 | rewrite H2];
        reflexivity).
  cbn [length Nat.leb mjoin option_join Pd.fillna default].
  unfold Pd.count_true.
  destruct (miss_or_missing (day r0)), (miss_or_missing (day r1)),
    (miss_or_missing (day r2)); reflexivity.
Qed.

(** X6: [rolling_misses_3d] is the filled-in 0 on the first two rows; on
    every later row it is the number of rows, among the row and the two
    above it, with [data_missing_flag] set or [exercise_done] false. *)
Theorem rolling_misses_3d_counts (l : list DailyBehavior) :
  (∀ (i : nat) r, enhance l !! i = Some r → (i < 2)%nat → rolling_misses_3d r = 0) ∧
  (∀ (i : nat) r0 r1 r2,
     enhance l !! i = Some r0 → enhance l !! S i = Some r1 →
     enhance l !! S (S i) = Some r2 →
     rolling_misses_3d r2
       = INR (Nat.b2n (miss_or_missing (day r0)) + Nat.b2n (miss_or_missing (day r1))
              + Nat.b2n (miss_or_missing (day r2)))).
Proof.
  split.
  - intros i r Hr Hi. apply enhance_row in Hr as [_ ->]. cbn [rolling_misses_3d row].
    apply rolling_3_early, Hi.
  - apply rolling_misses_3d_window.
Qed.

Lemma consecutive_misses_fold l :
  consecutive_misses <$> enhance l = run_lengths (no_exercise <$> sort_values l).
Proof.
  rewrite consecutive_misses_column.
  unfold Col.consecutive_misses, Col.group_id, Col.is_miss.
  rewrite <- (groupby_cumsum_runs (no_exercise <$> sort_values l)).
  rewrite <- list_fmap_compose. reflexivity.
Qed.

Lemma run_lengths_from_bound miss : ∀ run (i c : nat),
  run_lengths_from run miss !! i = Some c → (c ≤ run + S i)%nat.
Proof.
  induction miss as [|m miss IH]; intros run i c Hc; [discriminate|].
  destruct i as [|i]; cbn in Hc.
  - injection Hc as <-. destruct m; lia.
  - apply IH in Hc. destruct m; lia.
Qed.

Lemma run_lengths_from_pos miss : ∀ run (i c : nat),
  run_lengths_from run miss !! i = Some (S c) → miss !! i = Some true.
Proof.
  induction miss as [|m miss IH]; intros run i c Hc; [discriminate|].
  destruct i as [|i]; cbn in Hc.
  - destruct m; [reflexivity | discriminate].
  - cbn. eapply IH, Hc.
Qed.

Lemma run_lengths_from_zero miss : ∀ run (i : nat),
  run_lengths_from run miss !! i = Some 0%nat → miss !! i = Some false.
Proof.
  induction miss as [|m miss IH]; intros run i Hc; [discriminate|].
  destruct i as [|i]; cbn in Hc.
  - destruct m; [discriminate | reflexivity].
  - cbn. eapply IH, Hc.
Qed.

Lemma run_lengths_from_pred miss : ∀ run (i c : nat),
  run_lengths_from run miss !! S i = Some (S c) →
  run_lengths_from run miss !! i = Some c.
Proof.
  induction miss as [|m miss IH]; intros run i c Hc; [discriminate|].
  destruct i as [|i].
  - cbn in Hc. destruct miss as [|m1 miss]; [discriminate|].
    cbn in Hc. destruct m1; [|discriminate]. injection Hc as <-. reflexivity.
  - cbn in Hc |- *. apply IH, Hc.
Qed.

(** Walking back from a row with run length [c]: the [k]-th row above it,
    for [k < c], exists, is a miss and has run length [c - k]. *)
Lemma run_lengths_back miss (i c : nat) :
  run_lengths miss !! i = Some c →
  ∀ k : nat, (k < c)%nat →
    (k ≤ i)%nat ∧ miss !! (i - k)%nat = Some true
    ∧ run_lengths miss !! (i - k)%nat = Some (c - k)%nat.
Proof.
  intros Hc k. induction k as [|k IH]; intros Hk.
  - rewrite !Nat.sub_0_r. split; [lia|]. split; [|exact Hc].
    destruct c as [|c]; [lia|]. eapply run_lengths_from_pos, Hc.
  - destruct IH as (Hki & _ & Hrun); [lia|].
    destruct (i - k)%nat as [|j] eqn:Hj.
    + apply run_lengths_from_bound in Hrun. lia.
    + replace (c - k)%nat with (S (c - S k)) in Hrun by lia.
      apply run_lengths_from_pred in Hrun.
      replace (i - S k)%nat with j by lia.
      split; [lia|]. split; [|exact Hrun].
      destruct (c - S k)%nat as [|c'] eqn:Hc'; [lia|].
      eapply run_lengths_from_pos, Hrun.
Qed.

(** The row just above a run of length [c] is not a miss. *)
Lemma run_lengths_before miss (i c : nat) :
  run_lengths miss !! i = Some c → (c ≤ i)%nat →
  miss !! (i - c)%nat = Some false.
Proof.
  intros Hc Hci. destruct c as [|c].
  - rewrite Nat.sub_0_r. eapply run_lengths_from_zero, Hc.
  - destruct (run_lengths_back miss i (S c) Hc c) as (_ & _ & Hrun); [lia|].
    replace (S c - c)%nat with 1%nat in Hrun by lia.
    replace (i - c)%nat with (S (i - S c)) in Hrun by lia.
    apply run_lengths_from_pred in Hrun.
    eapply run_lengths_from_zero, Hrun.
Qed.

Lemma enhance_miss l (i : nat) r :
  enhance l !! i = Some r →
  run_lengths (no_exercise <$> sort_values l) !! i = Some (consecutive_misses r)
  ∧ (no_exercise <$> sort_values l) !! i = Some (negb (exercise_done (day r))).
Proof.
  intros Hr. split.
  - rewrite <- consecutive_misses_fold, list_lookup_fmap, Hr. reflexivity.
  - apply enhance_row in Hr as [Hd _]. rewrite list_lookup_fmap, Hd. reflexivity.
Qed.

(** The days since the last workout, in three facts. *)
Lemma consecutive_misses_back l (i : nat) r :
  enhance l !! i = Some r →
  (consecutive_misses r ≤ S i)%nat ∧
  (∀ (k : nat) r', (k < consecutive_misses r)%nat →
     enhance l !! (i - k)%nat = Some r' → exercise_done (day r') = false) ∧
  (∀ r', (consecutive_misses r ≤ i)%nat →
     enhance l !! (i - consecutive_misses r)%nat = Some r' →
     exercise_done (day r') = true).
Proof.
  intros Hr. destruct (enhance_miss l i r Hr) as [Hrun _].
  repeat split.
  - apply run_lengths_from_bound in Hrun. lia.
  - intros k r' Hk Hr'.
    destruct (run_lengths_back _ _ _ Hrun k Hk) as (_ & Hm & _).
    destruct (enhance_miss l _ r' Hr') as [_ Hm'].
    rewrite Hm in Hm'. destruct (exercise_done (day r')); [discriminate|reflexivity].
  - intros r' Hc Hr'.
    pose proof (run_lengths_before _ _ _ Hrun Hc) as Hm.
    destruct (enhance_miss l _ r' Hr') as [_ Hm'].
    rewrite Hm in Hm'. destruct (exercise_done (day r')); [reflexivity|discriminate].
Qed.

(** X7: [consecutive_misses] counts the days since the last workout: a row
    with value [c] has at least [c - 1] rows above it, the [c] rows ending
    at it have [exercise_done] false, and the row just above them, when
    there is one, has [exercise_done] true. *)
Theorem consecutive_misses_since_last_workout (l : list DailyBehavior) (i : nat)
    (r : FeatureRow) :
  enhance l !! i = Some r →
  (consecutive_misses r ≤ S i)%nat ∧
  (∀ (k : nat) r', (k < consecutive_misses r)%nat →
     enhance l !! (i - k)%nat = Some r' → exercise_done (day r') = false) ∧
  (∀ r', (consecutive_misses r ≤ i)%nat →
     enhance l !! (i - consecutive_misses r)%nat = Some r' →
     exercise_done (day r') = true).
Proof. apply consecutive_misses_back. Qed.

Lemma no_exercise_miss d : exercise_done d = false → miss_or_missing d = true.
Proof. intros H. unfold miss_or_missing. rewrite H. apply orb_true_r. Qed.

(** X8: from the third row on, [rolling_misses_3d] is at least the smaller
    of 3 and [consecutive_misses], and at most 3: a streak of three or more
    days without exercise fills the three-day window. *)
Theorem rolling_misses_3d_covers_streak (l : list DailyBehavior) (i : nat)
    (r : FeatureRow) :
  enhance l !! i = Some r → (2 ≤ i)%nat →
  INR (Nat.min 3 (consecutive_misses r)) <= rolling_misses_3d r <= 3.
Proof.
  intros Hr Hi.
  destruct i as [|[|i]]; [lia..|].
  assert (Hlen : (S (S i) < length (enhance l))%nat) by (eapply lookup_lt_Some, Hr).
  destruct (lookup_lt_is_Some_2 (enhance l) i) as [r0 H0]; [lia|].
  destruct (lookup_lt_is_Some_2 (enhance l) (S i)) as [r1 H1]; [lia|].
  rewrite (rolling_misses_3d_window l i r0 r1 r H0 H1 Hr).
  destruct (consecutive_misses_back l _ r Hr) as (_ & Hback & _).
  assert (Hb2 : (1 ≤ consecutive_misses r)%nat → miss_or_missing (day r) = true).
  { intros Hc. apply no_exercise_miss, (Hback 0%nat); [lia|].
    rewrite Nat.sub_0_r. exact Hr. }
  assert (Hb1 : (2 ≤ consecutive_misses r)%nat → miss_or_missing (day r1) = true).
  { intros Hc. apply no_exercise_miss, (Hback 1%nat); [lia|].
    replace (S (S i) - 1)%nat with (S i) by lia. exact H1. }
  assert (Hb0 : (3 ≤ consecutive_misses r)%nat → miss_or_missing (day r0) = true).
  { intros Hc. apply no_exercise_miss, (Hback 2%nat); [lia|].
    replace (S (S i) - 2)%nat with i by lia. exact H0. }
  split.
  - apply le_INR.
    destruct (consecutive_misses r) as [|[|[|c]]].
    + cbn. lia.
    + rewrite Hb2 by lia. cbn. lia.
    + rewrite Hb2, Hb1 by lia. cbn. destruct (miss_or_missing (day r0)); cbn; lia.
    + rewrite Hb2, Hb1, Hb0 by lia. cbn. lia.
  - replace 3 with (INR 3) by (cbn; lra). apply le_INR.
    destruct (miss_or_missing (day r0)), (miss_or_missing (day r1)),
      (miss_or_missing (day r)); cbn; lia.
Qed.

Lemma icell_fmap {A B} (f : A → B) (x : A) (y : B) (col : list A) (i : nat) :
  (i < length col)%nat → icell y (f <$> col) i = f (icell x col i).
Proof.
  intros Hi. unfold icell. rewrite list_lookup_fmap.
  destruct (lookup_lt_is_Some_2 col i Hi) as [c ->]. reflexivity.
Qed.

Lemma streak_flag_cells l (i : nat) r :
  enhance l !! i = Some r →
  is_recovery_period r
    = Nat.b2n ((0 <? consecutive_misses r)%nat && (consecutive_misses r <? 3)%nat) ∧
  is_streak_break r = Nat.b2n (4 <? consecutive_misses r)%nat ∧
  days_since_workout r = (consecutive_misses r * is_streak_break r)%nat.
Proof.
  intros Hr. apply enhance_row in Hr as [Hd ->].
  set (df := sort_values l) in *.
  assert (Hlen : (i < length (Col.consecutive_misses df))%nat)
    by (rewrite length_consecutive_misses; eapply lookup_lt_Some, Hd).
  cbn [is_recovery_period is_streak_break days_since_workout consecutive_misses row].
  unfold Col.days_since_workout, Col.is_recovery_period, Col.is_streak_break.
  rewrite !(icell_fmap _ 0%nat) by exact Hlen.
  repeat split.
  unfold icell at 1. rewrite lookup_zip_with, list_lookup_fmap.
  destruct (lookup_lt_is_Some_2 _ i Hlen) as [c Hc].
  unfold icell. rewrite Hc. reflexivity.
Qed.

(** X9: the streak flags.  [is_recovery_period] is 1 exactly on the first
    and second day of a run of days without exercise; [is_streak_break] is 1
    exactly from the fifth day of such a run on, that is when the row and
    the four rows above it all have [exercise_done] false; on the third and
    fourth day both flags are 0; [days_since_workout] is the run length from
    the fifth day on and 0 before. *)
Theorem streak_flags (l : list DailyBehavior) (i : nat) (r : FeatureRow) :
  enhance l !! i = Some r →
  (is_recovery_period r = 1%nat ↔ (1 ≤ consecutive_misses r ≤ 2)%nat) ∧
  (is_streak_break r = 1%nat ↔ (5 ≤ consecutive_misses r)%nat) ∧
  (is_streak_break r = 1%nat ↔
     (4 ≤ i)%nat ∧
     ∀ (k : nat) r', (k ≤ 4)%nat → enhance l !! (i - k)%nat = Some r' →
       exercise_done (day r') = false) ∧
  ((3 ≤ consecutive_misses r ≤ 4)%nat →
     is_recovery_period r = 0%nat ∧ is_streak_break r = 0%nat) ∧
  days_since_workout r
    = (if (4 <? consecutive_misses r)%nat then consecutive_misses r else 0%nat).
Proof.
  intros Hr.
  destruct (streak_flag_cells l i r Hr) as (Hrec & Hbrk & Hdays).
  destruct (consecutive_misses_back l i r Hr) as (Hbound & Hback & Hbefore).
  assert (Hbrk5 : is_streak_break r = 1%nat ↔ (5 ≤ consecutive_misses r)%nat).
  { rewrite Hbrk. destruct (4 <? consecutive_misses r)%nat eqn:E; cbn.
    - apply Nat.ltb_lt in E. split; [lia | reflexivity].
    - apply Nat.ltb_ge in E. split; [discriminate | lia]. }
  split; [|split; [exact Hbrk5|split; [|split]]].
  - rewrite Hrec.
    destruct (Nat.ltb_spec 0 (consecutive_misses r));
      destruct (Nat.ltb_spec (consecutive_misses r) 3); cbn;
      split; intros; try discriminate; try reflexivity; lia.
  - rewrite Hbrk5. split.
    + intros Hc. split; [lia|]. intros k r' Hk. apply Hback. lia.
    + intros [Hi Hall].
      destruct (decide (5 ≤ consecutive_misses r)%nat) as [|Hlt]; [assumption|].
      exfalso.
      assert (Hci : (consecutive_misses r ≤ i)%nat) by lia.
      destruct (lookup_lt_is_Some_2 (enhance l) (i - consecutive_misses r)) as [r' Hr'].
      { apply lookup_lt_Some in Hr. lia. }
      pose proof (Hbefore r' Hci Hr') as Ht.
      rewrite (Hall (consecutive_misses r) r') in Ht; [discriminate|lia|exact Hr'].
  - intros Hc. rewrite Hrec, Hbrk.
    replace (consecutive_misses r <? 3)%nat with false
      by (symmetry; apply Nat.ltb_ge; lia).
    replace (4 <? consecutive_misses r)%nat with false
      by (symmetry; apply Nat.ltb_ge; lia).
    rewrite andb_false_r. split; reflexivity.
  - rewrite Hdays, Hbrk. destruct (4 <? consecutive_misses r)%nat; cbn; lia.
Qed.

(** A workout followed by five days of rest. *)
Lemma consecutive_misses_since_last_workout_witness :
  ∃ r, enhance (diary [true; false; false; false; false; false]) !! 5%nat = Some r ∧
       (consecutive_misses r ≤ 6)%nat.
Proof.
  eexists. split; [reflexivity|].
  eapply (consecutive_misses_since_last_workout
            (diary [true; false; false; false; false; false]) 5).
  reflexivity.
Defined.

Lemma rolling_misses_3d_covers_streak_witness :
  ∃ r, enhance (diary [true; false; false; false; false; false]) !! 5%nat = Some r ∧
       rolling_misses_3d r <= 3.
Proof.
  eexists. split; [reflexivity|].
  eapply (rolling_misses_3d_covers_streak
            (diary [true; false; false; false; false; false]) 5);
    [reflexivity | lia].
Defined.

Lemma streak_flags_witness :
  ∃ r, enhance (diary [true; false; false; false; false; false]) !! 5%nat = Some r ∧
       days_since_workout r = 5%nat.
Proof.
  eexists. split; [reflexivity|].
  eapply eq_trans;
    [eapply (streak_flags (diary [true; false; false; false; false; false]) 5);
     reflexivity | reflexivity].
Defined.

End FrameColumns.

(** ** The frame of [enhance]: rolling statistics *)

Section FrameStatistics.
Import Schemas Features.

Local Open Scope R_scope.

Lemma sum_bounds lo hi (l : list R) :
  Forall (λ x, lo <= x <= hi) l →
  INR (length l) * lo <= Pd.sum l <= INR (length l) * hi.
Proof.
  unfold Pd.sum. induction 1 as [|x l Hx _ IH].
  - cbn. lra.
  - cbn [length foldr]. rewrite S_INR. lra.
Qed.

Lemma mean_bounds lo hi (l : list R) :
  Forall (λ x, lo <= x <= hi) l → (0 < length l)%nat →
  lo <= Pd.mean l <= hi.
Proof.
  intros Hl Hlen. pose proof (sum_bounds lo hi l Hl) as [Hlo Hhi].
  assert (Hn : 0 < INR (length l)) by (apply lt_0_INR, Hlen).
  unfold Pd.mean. split.
  - apply Rmult_le_reg_r with (INR (length l)); [exact Hn|].
    unfold Rdiv. rewrite Rmult_assoc, Rinv_l by lra. lra.
  - apply Rmult_le_reg_r with (INR (length l)); [exact Hn|].
    unfold Rdiv. rewrite Rmult_assoc, Rinv_l by lra. lra.
Qed.

Lemma window_0 {A} w (s : list A) x :
  s !! 0%nat = Some x → (0 < w)%nat → Pd.window w 0 s = [x].
Proof.
  intros Hx Hw. unfold Pd.window. replace (1 - w)%nat with 0%nat by lia.
  rewrite drop_0. destruct s as [|y s]; [discriminate|].
  cbn in Hx. injection Hx as ->. cbn. rewrite take_0. reflexivity.
Qed.

Lemma mean_singleton x : Pd.mean [x] = x.
Proof. unfold Pd.mean, Pd.sum. cbn. field. Qed.

Lemma rolling_mean_cell w (s : list R) (i : nat) :
  (i < length s)%nat → (0 < w)%nat →
  cell (Pd.rolling w 1 Pd.mean s) i = Pd.mean (Pd.window w i s).
Proof.
  intros Hi Hw. rewrite rolling_cell by exact Hi.
  rewrite length_window by exact Hi.
  replace (1 <=? w `min` S i)%nat with true by (symmetry; apply Nat.leb_le; lia).
  reflexivity.
Qed.

Lemma steps_Forall (P : R → Prop) l :
  (∀ d, d ∈ l → P (IZR (total_steps d))) →
  Forall P (Col.total_steps (sort_values l)).
Proof.
  intros Hl. unfold Col.total_steps. apply Forall_fmap.
  apply (sort_values_Forall (λ d, P (IZR (total_steps d))) l Hl).
Qed.

Lemma sleep_Forall (P : R → Prop) l :
  (∀ d, d ∈ l → P (sleep_duration_minutes d)) →
  Forall P (Col.sleep_duration_minutes (sort_values l)).
Proof.
  intros Hl. unfold Col.sleep_duration_minutes. apply Forall_fmap.
  apply (sort_values_Forall (λ d, P (sleep_duration_minutes d)) l Hl).
Qed.

(** X10: the 7-day averages stay within the range of the input: if every
    record has its steps in [[lo, hi]] and its sleep in [[slo, shi]], so has
    every row its [steps_7d_avg] and [sleep_7d_avg]; on the first row the
    averages are the day's own values (one row is enough for a mean). *)
Theorem rolling_averages_in_range (l : list DailyBehavior) (lo hi slo shi : R) :
  (∀ d, d ∈ l → lo <= IZR (total_steps d) <= hi) →
  (∀ d, d ∈ l → slo <= sleep_duration_minutes d <= shi) →
  ∀ (i : nat) r, enhance l !! i = Some r →
    lo <= steps_7d_avg r <= hi ∧ slo <= sleep_7d_avg r <= shi ∧
    (i = 0%nat → steps_7d_avg r = IZR (total_steps (day r)) ∧
                 sleep_7d_avg r = sleep_duration_minutes (day r)).
Proof.
  intros Hsteps Hsleep i r Hr.
  apply enhance_row in Hr as [Hd ->]. cbn [steps_7d_avg sleep_7d_avg row day].
  set (df := sort_values l) in *.
  assert (Hi : (i < length df)%nat) by (eapply lookup_lt_Some, Hd).
  assert (Hi1 : (i < length (Col.total_steps df))%nat)
    by (unfold Col.total_steps; rewrite length_fmap; exact Hi).
  assert (Hi2 : (i < length (Col.sleep_duration_minutes df))%nat)
    by (unfold Col.sleep_duration_minutes; rewrite length_fmap; exact Hi).
  unfold Col.steps_7d_avg, Col.sleep_7d_avg.
  rewrite !rolling_mean_cell by (assumption || lia).
  split; [|split].
  - apply mean_bounds.
    + apply Forall_window, (steps_Forall (λ x, lo <= x <= hi)), Hsteps.
    + rewrite length_window by exact Hi1. lia.
  - apply mean_bounds.
    + apply Forall_window, (sleep_Forall (λ x, slo <= x <= shi)), Hsleep.
    + rewrite length_window by exact Hi2. lia.
  - intros ->.
    rewrite (window_0 7 (Col.total_steps df) (IZR (total_steps (day r))))
      by (first [lia | unfold Col.total_steps; rewrite list_lookup_fmap, Hd; reflexivity]).
    rewrite (window_0 7 (Col.sleep_duration_minutes df) (sleep_duration_minutes (day r)))
      by (first [lia | unfold Col.sleep_duration_minutes; rewrite list_lookup_fmap, Hd; reflexivity]).
    rewrite !mean_singleton. split; reflexivity.
Qed.

Lemma effort_ratio_cell df (i : nat) :
  (i < length df)%nat →
  cell (Col.effort_ratio df) i
    = if (6 <=? i)%nat
      then Pd.mean (Pd.window 7 i (Col.total_steps df))
           / (Pd.mean (Pd.window 30 i (Col.total_steps df)) + epsilon)
      else 0.
Proof.
  intros Hi.
  assert (Hs : (i < length (Col.total_steps df))%nat)
    by (unfold Col.total_steps; rewrite length_fmap; exact Hi).
  unfold cell, Col.effort_ratio, Col.steps_7d_avg, Col.steps_30d_avg.
  rewrite lookup_zip_with, !rolling_lookup, !decide_True by exact Hs.
  rewrite !length_window by exact Hs.
  replace (1 <=? 7 `min` S i)%nat with true by (symmetry; apply Nat.leb_le; lia).
  destruct (Nat.leb_spec 6 i).
  - replace (7 <=? 30 `min` S i)%nat with true by (symmetry; apply Nat.leb_le; lia).
    reflexivity.
  - replace (7 <=? 30 `min` S i)%nat with false by (symmetry; apply Nat.leb_gt; lia).
    reflexivity.
Qed.

Lemma steps_30d_cell df (i : nat) :
  (i < length df)%nat →
  cell (Col.steps_30d_avg df) i
    = if (6 <=? i)%nat then Pd.mean (Pd.window 30 i (Col.total_steps df)) else 0.
Proof.
  intros Hi.
  assert (Hs : (i < length (Col.total_steps df))%nat)
    by (unfold Col.total_steps; rewrite length_fmap; exact Hi).
  unfold Col.steps_30d_avg. rewrite rolling_cell by exact Hs.
  rewrite length_window by exact Hs.
  destruct (Nat.leb_spec 6 i).
  - replace (7 <=? 30 `min` S i)%nat with true by (symmetry; apply Nat.leb_le; lia).
    reflexivity.
  - replace (7 <=? 30 `min` S i)%nat with false by (symmetry; apply Nat.leb_gt; lia).
    reflexivity.
Qed.

(** X11: the monthly baseline needs seven rows.  On the first six rows
    [steps_30d_avg] and [effort_ratio] are the filled-in 0; from the seventh
    row on, for non-negative step counts, [steps_30d_avg] is the mean of the
    last (at most 30) rows, [effort_ratio] is
    [steps_7d_avg / (steps_30d_avg + 1e-6)] and neither is negative; on the
    seventh row the two windows coincide and the ratio is below 1. *)
Theorem effort_ratio_warm_up (l : list DailyBehavior) (i : nat) (r : FeatureRow) :
  (∀ d, d ∈ l → (0 ≤ total_steps d)%Z) →
  enhance l !! i = Some r →
  ((i < 6)%nat → steps_30d_avg r = 0 ∧ effort_ratio r = 0) ∧
  ((6 ≤ i)%nat →
     steps_30d_avg r = Pd.mean (Pd.window 30 i (Col.total_steps (sort_values l))) ∧
     effort_ratio r = steps_7d_avg r / (steps_30d_avg r + epsilon) ∧
     0 <= steps_30d_avg r ∧ 0 <= effort_ratio r) ∧
  (i = 6%nat → effort_ratio r < 1).
Proof.
  intros Hpos Hr.
  apply enhance_row in Hr as [Hd ->]. cbn [steps_30d_avg effort_ratio steps_7d_avg row].
  set (df := sort_values l) in *.
  assert (Hi : (i < length df)%nat) by (eapply lookup_lt_Some, Hd).
  assert (Hs : (i < length (Col.total_steps df))%nat)
    by (unfold Col.total_steps; rewrite length_fmap; exact Hi).
  assert (Hall : Forall (λ x, 0 <= x) (Col.total_steps df)).
  { apply (steps_Forall (λ x, 0 <= x)). intros d Hin. apply IZR_le, Hpos, Hin. }
  assert (H7 : 0 <= Pd.mean (Pd.window 7 i (Col.total_steps df))).
  { apply mean_nonneg; [apply Forall_window, Hall|].
    rewrite length_window by exact Hs. lia. }
  assert (H30 : 0 <= Pd.mean (Pd.window 30 i (Col.total_steps df))).
  { apply mean_nonneg; [apply Forall_window, Hall|].
    rewrite length_window by exact Hs. lia. }
  pose proof epsilon_pos as He.
  rewrite effort_ratio_cell, steps_30d_cell by exact Hi.
  unfold Col.steps_7d_avg. rewrite rolling_mean_cell by (assumption || lia).
  split; [|split].
  - intros Hlt. replace (6 <=? i)%nat with false by (symmetry; apply Nat.leb_gt; lia).
    split; reflexivity.
  - intros Hge. replace (6 <=? i)%nat with true by (symmetry; apply Nat.leb_le; lia).
    repeat split; [exact H30|].
    apply Rmult_le_pos; [exact H7|]. left. apply Rinv_0_lt_compat. lra.
  - intros ->. cbn [Nat.leb].
    replace (Pd.window 30 6 (Col.total_steps df))
      with (Pd.window 7 6 (Col.total_steps df)) in * by reflexivity.
    set (m := Pd.mean (Pd.window 7 6 (Col.total_steps df))) in *.
    apply Rmult_lt_reg_r with (m + epsilon); [lra|].
    unfold Rdiv. rewrite Rmult_assoc, Rinv_l by lra. lra.
Qed.

Lemma sum_zero_all (l : list R) :
  Forall (λ x, 0 <= x) l → Pd.sum l = 0 → Forall (λ x, x = 0) l.
Proof.
  unfold Pd.sum. induction 1 as [|x l Hx Hl IH]; intros Hsum; [constructor|].
  cbn in Hsum. pose proof (sum_nonneg l Hl) as Hrest. unfold Pd.sum in Hrest.
  constructor; [lra | apply IH; lra].
Qed.

Lemma sum_all_zero (l : list R) : Forall (λ x, x = 0) l → Pd.sum l = 0.
Proof. unfold Pd.sum. induction 1 as [|x l -> _ IH]; cbn; lra. Qed.

Lemma mean_const c (l : list R) :
  Forall (λ x, x = c) l → (0 < length l)%nat → Pd.mean l = c.
Proof.
  intros Hl Hlen.
  assert (Hb : Forall (λ x, c <= x <= c) l)
    by (eapply Forall_impl; [exact Hl | cbn; intros x ->; lra]).
  pose proof (mean_bounds c c l Hb Hlen). lra.
Qed.

Lemma squares_nonneg m (l : list R) :
  Forall (λ x, 0 <= x) ((λ x, (x - m) ^ 2) <$> l).
Proof. apply Forall_fmap, Forall_forall. intros x _. apply pow2_ge_0. Qed.

(** The sample deviation of at least two values is 0 exactly when they all
    are their mean. *)
Lemma std_zero_iff (l : list R) :
  (2 ≤ length l)%nat → Pd.std l = 0 ↔ Forall (λ x, x = Pd.mean l) l.
Proof.
  intros Hlen.
  assert (Hn : 0 < INR (length l) - 1).
  { apply le_INR in Hlen. cbn in Hlen. lra. }
  set (m := Pd.mean l). unfold Pd.std. fold m.
  set (sq := (λ x, (x - m) ^ 2) <$> l).
  pose proof (sum_nonneg sq (squares_nonneg m l)) as Hsq.
  split.
  - intros Hstd. apply sqrt_eq_0 in Hstd.
    + assert (Hsum : Pd.sum sq = 0).
      { apply Rmult_integral in Hstd as [H|H]; [exact H|].
        exfalso. apply (Rinv_neq_0_compat (INR (length l) - 1)); [lra | exact H]. }
      apply sum_zero_all in Hsum; [|apply squares_nonneg].
      unfold sq in Hsum. rewrite Forall_fmap in Hsum.
      eapply Forall_impl; [exact Hsum|]. cbn. intros x Hx. nra.
    + apply Rmult_le_pos; [exact Hsq|]. left. apply Rinv_0_lt_compat, Hn.
  - intros Hall.
    assert (Hsum : Pd.sum sq = 0).
    { apply sum_all_zero. unfold sq. rewrite Forall_fmap.
      eapply Forall_impl; [exact Hall|]. cbn. intros x ->. lra. }
    rewrite Hsum. unfold Rdiv. rewrite Rmult_0_l. apply sqrt_0.
Qed.

Lemma elem_of_window {A} (w i : nat) (s : list A) x :
  (i < length s)%nat →
  x ∈ Pd.window w i s ↔
  ∃ k : nat, (k < w)%nat ∧ (k ≤ i)%nat ∧ s !! (i - k)%nat = Some x.
Proof.
  intros Hi. unfold Pd.window. rewrite list_elem_of_lookup. split.
  - intros [j Hj]. rewrite lookup_drop, lookup_take in Hj.
    destruct (decide (S i - w + j < S i)%nat) as [Hlt|]; [|discriminate].
    exists (i - (S i - w + j))%nat. repeat split; [lia..|].
    replace (i - (i - (S i - w + j)))%nat with (S i - w + j)%nat by lia. exact Hj.
  - intros (k & Hk & Hki & Hx).
    exists (i - k - (S i - w))%nat. rewrite lookup_drop, lookup_take.
    rewrite decide_True by lia.
    replace (S i - w + (i - k - (S i - w)))%nat with (i - k)%nat by lia. exact Hx.
Qed.

(** The score formula is 1 exactly at deviation 0. *)
Lemma score_one_iff sd mu :
  0 <= sd → 0 <= mu → 1 / (1 + sd / (mu + epsilon)) = 1 ↔ sd = 0.
Proof.
  intros Hsd Hmu. pose proof epsilon_pos as He.
  assert (Hinv : 0 < / (mu + epsilon)) by (apply Rinv_0_lt_compat; lra).
  assert (Hx : 0 <= sd / (mu + epsilon)) by (apply Rmult_le_pos; lra).
  split.
  - intros H1.
    assert (H2 : 1 + sd / (mu + epsilon) = 1).
    { apply Rinv_eq_reg. rewrite Rinv_1. unfold Rdiv in H1 at 1.
      rewrite Rmult_1_l in H1. exact H1. }
    assert (H3 : sd * / (mu + epsilon) = 0) by (unfold Rdiv in H2; lra).
    apply Rmult_integral in H3 as [H3|H3]; [exact H3 | lra].
  - intros ->. unfold Rdiv. rewrite Rmult_0_l, Rplus_0_r, Rinv_1. lra.
Qed.

(** X12: from the third row on and for non-negative sleep durations, the
    sleep consistency score is 1 exactly when the rolling deviation
    [sleep_variance_7d] is 0, which is exactly when the (at most 7) rows of
    the window all have the sleep duration of the row itself. *)
Theorem steady_sleep_scores_one (l : list DailyBehavior) (i : nat) (r : FeatureRow) :
  (∀ d, d ∈ l → 0 <= sleep_duration_minutes d) →
  enhance l !! i = Some r → (2 ≤ i)%nat →
  (sleep_consistency_score r = 1 ↔ sleep_variance_7d r = 0) ∧
  (sleep_variance_7d r = 0 ↔
     ∀ (k : nat) r', (k < 7)%nat → (k ≤ i)%nat → enhance l !! (i - k)%nat = Some r' →
       sleep_duration_minutes (day r') = sleep_duration_minutes (day r)).
Proof.
  intros Hpos Hr Hi2.
  pose proof Hr as Hrow. apply enhance_row in Hrow as [Hd Hrow].
  set (df := sort_values l) in *.
  set (s := Col.sleep_duration_minutes df).
  set (win := Pd.window 7 i s).
  assert (Hi : (i < length df)%nat) by (eapply lookup_lt_Some, Hd).
  assert (Hs : (i < length s)%nat)
    by (unfold s, Col.sleep_duration_minutes; rewrite length_fmap; exact Hi).
  assert (Hw : length win = (7 `min` S i)%nat) by (apply length_window, Hs).
  assert (Hvar : sleep_variance_7d r = Pd.std win).
  { rewrite Hrow. cbn [sleep_variance_7d row]. unfold Col.sleep_variance_7d.
    rewrite rolling_cell by exact Hs. fold s win.
    replace (3 <=? length win)%nat with true by (symmetry; apply Nat.leb_le; lia).
    reflexivity. }
  assert (Hscore : sleep_consistency_score r
                   = 1 / (1 + Pd.std win / (Pd.mean win + epsilon))).
  { rewrite Hrow. cbn [sleep_consistency_score row].
    rewrite (sleep_consistency_cell df i Hi). fold s win.
    replace (3 <=? length win)%nat with true by (symmetry; apply Nat.leb_le; lia).
    reflexivity. }
  assert (Hmu : 0 <= Pd.mean win).
  { apply mean_nonneg; [|lia].
    apply Forall_window, (sleep_Forall (λ x, 0 <= x)), Hpos. }
  assert (Hrows : ∀ (j : nat) r', enhance l !! j = Some r' →
            s !! j = Some (sleep_duration_minutes (day r'))).
  { intros j r' Hr'. apply enhance_row in Hr' as [Hd' _].
    unfold s, df, Col.sleep_duration_minutes.
    rewrite list_lookup_fmap, Hd'. reflexivity. }
  assert (Hlast : sleep_duration_minutes (day r) ∈ win).
  { apply elem_of_window; [exact Hs|]. exists 0%nat.
    rewrite Nat.sub_0_r. repeat split; [lia..|]. apply Hrows, Hr. }
  split.
  - rewrite Hscore, Hvar. apply score_one_iff; [apply std_nonneg | exact Hmu].
  - rewrite Hvar, std_zero_iff by lia. rewrite Forall_forall. split.
    + intros Hall k r' Hk Hki Hr'.
      rewrite (Hall _ Hlast). apply Hall.
      apply elem_of_window; [exact Hs|]. exists k. repeat split; [lia..|].
      apply Hrows, Hr'.
    + intros Hall.
      assert (Hconst : Forall (λ x, x = sleep_duration_minutes (day r)) win).
      { apply Forall_forall. intros x Hx.
        apply elem_of_window in Hx as (k & Hk & Hki & Hx); [|exact Hs].
        destruct (lookup_lt_is_Some_2 (enhance l) (i - k)) as [r' Hr'].
        { rewrite length_enhance. fold df. lia. }
        rewrite (Hrows _ _ Hr') in Hx. injection Hx as <-.
        apply (Hall k r' Hk Hki Hr'). }
      rewrite (mean_const _ _ Hconst) by lia.
      intros x Hx. rewrite Forall_forall in Hconst. apply Hconst, Hx.
Qed.

(** Membership in a short diary, day by day. *)
Ltac diary_days H :=
  unfold diary in H; cbn in H;
  repeat (apply elem_of_cons in H as [->|H]; [cbn; try lra; try lia|]);
  apply elem_of_nil in H; contradiction.

Lemma rolling_averages_in_range_witness :
  ∃ r, enhance (diary [true; false]) !! 1%nat = Some r ∧
       6000 <= steps_7d_avg r <= 6000.
Proof.
  eexists. split; [reflexivity|].
  eapply (rolling_averages_in_range (diary [true; false]) 6000 6000 420 420)
    with (i := 1%nat).
  - intros d Hd. diary_days Hd.
  - intros d Hd. diary_days Hd.
  - reflexivity.
Defined.

Lemma effort_ratio_warm_up_witness :
  ∃ r, enhance (diary [true; true; false; true; true; false; true]) !! 6%nat = Some r ∧
       effort_ratio r < 1.
Proof.
  eexists. split; [reflexivity|].
  eapply (effort_ratio_warm_up
            (diary [true; true; false; true; true; false; true]) 6).
  - intros d Hd. diary_days Hd.
  - reflexivity.
  - reflexivity.
Defined.

Lemma steady_sleep_scores_one_witness :
  ∃ r, enhance (diary [true; false; true]) !! 2%nat = Some r ∧
       (sleep_consistency_score r = 1 ↔ sleep_variance_7d r = 0).
Proof.
  eexists. split; [reflexivity|].
  eapply (steady_sleep_scores_one (diary [true; false; true]) 2).
  - intros d Hd. diary_days Hd.
  - reflexivity.
  - lia.
Defined.

End FrameStatistics.

(** ** Training pairs of the adherence model *)

Section AdherenceTraining.
Import Py Schemas Features.

Variable Estimator : Type.
Variable sk_fit : Estimator → list (list R) → list nat → Estimator * option exn.
Variable sk_evaluate : Estimator → list (list R) → list nat → value * value * value.
Variable predict_proba : Estimator → list R → Q.

Local Abbreviation adherence_train := (Adherence.train sk_fit sk_evaluate).
Local Abbreviation adherence_proba := (Adherence.predict_next_day_proba predict_proba).

(** Dropping the rows without a target drops the last row. *)
Lemma filter_targets {A} (t : list bool) : ∀ l : list A,
  length l = S (length t) →
  filter (λ rt : A * option bool, is_Some rt.2) (zip l ((Some <$> t) ++ [None]))
    = zip (take (length t) l) (Some <$> t).
Proof.
  induction t as [|b t IH]; intros [|a l] Hl; try discriminate.
  - destruct l; [|discriminate]. reflexivity.
  - cbn [fmap list_fmap app zip_with length take].
    rewrite filter_cons_True by (cbn; eauto).
    rewrite IH by (cbn in Hl; lia). reflexivity.
Qed.

Lemma prepare_data_pairs (df : list FeatureRow) :
  Adherence.prepare_data df
    = (Adherence.select <$> take (pred (length df)) df,
       (λ r, Nat.b2n (exercise_done (day r))) <$> drop 1 df).
Proof.
  unfold Adherence.prepare_data. cbv zeta.
  destruct df as [|r df]; [reflexivity|].
  unfold Pd.shift_back. cbn [fmap list_fmap app drop length pred]. rewrite !drop_0.
  rewrite (filter_targets ((λ r, exercise_done (day r)) <$> df))
    by (rewrite length_fmap; reflexivity).
  rewrite length_fmap.
  assert (Hlen : length (take (length df) (r :: df)) = length df)
    by (rewrite length_take; cbn; lia).
  revert Hlen. generalize (take (length df) (r :: df)) as pre. intros pre.
  generalize df as tl. clear.
  intros tl Hlen. f_equal.
  - revert tl Hlen. induction pre as [|a pre IH]; intros [|b tl] Hlen;
      try discriminate; [reflexivity|].
    cbn. f_equal. apply IH. cbn in Hlen. lia.
  - revert tl Hlen. induction pre as [|a pre IH]; intros [|b tl] Hlen;
      try discriminate; [reflexivity|].
    cbn. f_equal. apply IH. cbn in Hlen. lia.
Qed.

(** X13: [prepare_data] pairs every day but the last with the exercise
    flag of the day after: [X] holds the sixteen feature cells of every row
    except the last, in row order, [y] holds [exercise_done] (as 0 or 1) of
    every row except the first, and both have the same length. *)
Theorem adherence_prepare_data_pairs (df : list FeatureRow) :
  Adherence.prepare_data df
    = (Adherence.select <$> take (pred (length df)) df,
       (λ r, Nat.b2n (exercise_done (day r))) <$> drop 1 df) ∧
  (∀ (i : nat) r r', df !! i = Some r → df !! S i = Some r' →
     (Adherence.prepare_data df).1 !! i = Some (Adherence.select r) ∧
     (Adherence.prepare_data df).2 !! i = Some (Nat.b2n (exercise_done (day r')))) ∧
  length (Adherence.prepare_data df).1 = length (Adherence.prepare_data df).2.
Proof.
  rewrite prepare_data_pairs. cbn [fst snd]. split; [reflexivity|]. split.
  - intros i r r' Hr Hr'. split.
    + rewrite list_lookup_fmap, lookup_take_lt, Hr; [reflexivity|].
      apply lookup_lt_Some in Hr'. lia.
    + rewrite list_lookup_fmap, lookup_drop. cbn. rewrite Hr'. reflexivity.
  - rewrite !length_fmap, length_take, length_drop. lia.
Qed.

(** X14: a successful training call.  On a table of at least 11 rows and
    with a fit that does not raise, [train] fits on the first
    [int(0.8 * len(X))] pairs (at least 8) and evaluates on the remaining
    ones (at least 2), the two parts making up [X] in row order; it returns
    the three metrics in a dictionary without a [status] entry, raises the
    flag, and [predict_next_day_proba] then answers with the fitted
    estimator on the sixteen cells of the row. *)
Theorem adherence_train_success (self : Adherence.AdherenceModel Estimator)
    (df : list FeatureRow) (est : Estimator) :
  let X := (Adherence.prepare_data df).1 in
  let y := (Adherence.prepare_data df).2 in
  let split_idx := (length X * 4 / 5)%nat in
  (11 ≤ length df)%nat →
  sk_fit (Adherence.estimator self) (take split_idx X) (take split_idx y) = (est, None) →
  (∃ d, (adherence_train self df).1 = Return d ∧
        d !! "status" = None ∧
        d !! "accuracy" = Some (sk_evaluate est (drop split_idx X) (drop split_idx y)).1.1 ∧
        d !! "auc" = Some (sk_evaluate est (drop split_idx X) (drop split_idx y)).1.2 ∧
        d !! "feature_importance"
          = Some (sk_evaluate est (drop split_idx X) (drop split_idx y)).2) ∧
  (adherence_train self df).2 = {| Adherence.estimator := est; Adherence.is_trained := true |} ∧
  (∀ row, adherence_proba (adherence_train self df).2 row
            = Return (predict_proba est (Adherence.select row))) ∧
  (8 ≤ length (take split_idx X))%nat ∧ (2 ≤ length (drop split_idx X))%nat ∧
  take split_idx X ++ drop split_idx X = X.
Proof.
  intros X y split_idx Hlen Hfit.
  assert (HX : length X = pred (length df)) by apply length_adherence_prepare_data.
  unfold Adherence.train. fold adherence_train.
  destruct (Adherence.prepare_data df) as [X' y'] eqn:Hprep.
  cbn [fst snd] in X, y. subst X y.
  replace (length X' <? 10)%nat with false by (symmetry; apply Nat.ltb_ge; lia).
  fold split_idx. rewrite Hfit.
  destruct (sk_evaluate est (drop split_idx X') (drop split_idx y')) as [[acc auc] imp].
  cbn [fst snd].
  assert (Hk : (8 ≤ split_idx ∧ split_idx + 2 ≤ length X')%nat).
  { unfold split_idx. split.
    - apply Nat.div_le_lower_bound; lia.
    - pose proof (Nat.Div0.mul_div_le (length X' * 4) 5). lia. }
  repeat split.
  - eexists. split; [reflexivity|]. repeat split; reflexivity.
  - rewrite length_take. lia.
  - rewrite length_drop. lia.
  - apply take_drop.
Qed.

End AdherenceTraining.

(** Eleven days give ten pairs: eight to fit, two to evaluate. *)
Lemma adherence_train_success_witness :
  let fit (e : unit) (X : list (list R)) (y : list nat) := (e, @None Py.exn) in
  let evaluate (e : unit) (X : list (list R)) (y : list nat) :=
    (Py.VFloat 1, Py.VFloat 0.5, Py.VOpaque 0) in
  let df := Features.enhance
    (diary [true; false; true; true; false; true; true; false; true; true; true]) in
  (Adherence.train fit evaluate (Adherence.init ()) df).2
    = {| Adherence.estimator := (); Adherence.is_trained := true |}.
Proof.
  intros fit evaluate df.
  apply (adherence_train_success unit fit evaluate (λ _ _, 0.7%Q)
           (Adherence.init ()) df ()).
  - unfold df. rewrite length_enhance. unfold Features.sort_values.
    rewrite (Permutation_length (merge_sort_Permutation _ _)). cbn. lia.
  - reflexivity.
Defined.

(** ** Training and inference of the anomaly detector *)

Section AnomalyTraining.
Import Py Schemas Features.

Variable Forest : Type.
Variable forest_fit : Forest → list (list R) → Forest.
Variable forest_predict : Forest → list R → Z.
Variable decision_function : Forest → list R → Q.

Local Abbreviation anomaly_train := (Anomaly.train forest_fit forest_predict).
Local Abbreviation anomaly_check := (Anomaly.check_anomaly forest_predict decision_function).

(** X15: on a table of at least 14 rows the detector is fitted on the three
    feature cells of every row and the flag is raised; the status is success
    and [anomalies_detected_history] is the number of rows of the table the
    fitted forest marks -1, at most the number of rows. *)
Theorem anomaly_train_success (self : Anomaly.AnomalyDetector Forest)
    (df : list FeatureRow) :
  (14 ≤ length df)%nat →
  let model := forest_fit (Anomaly.forest self) (Anomaly.select <$> df) in
  let outliers := filter (λ r, forest_predict model (Anomaly.select r) = (-1)%Z) df in
  (anomaly_train self df).1
    = list_to_map
        [("status", VStr "success");
         ("anomalies_detected_history", VInt (Z.of_nat (length outliers)))] ∧
  (length outliers ≤ length df)%nat ∧
  (anomaly_train self df).2
    = {| Anomaly.forest := model; Anomaly.is_trained := true |}.
Proof.
  intros Hlen model outliers. unfold Anomaly.train.
  replace (length df <? 14)%nat with false by (symmetry; apply Nat.ltb_ge; lia).
  cbv zeta. fold model. cbn [fst snd].
  assert (Hcount : length (filter (λ p, p = (-1)%Z)
                            (forest_predict model <$> (Anomaly.select <$> df)))
                   = length outliers).
  { unfold outliers. generalize model as m. clear. intros m.
    induction df as [|r df IH]; [reflexivity|].
    cbn [fmap list_fmap]. rewrite !filter_cons.
    destruct (decide (forest_predict m (Anomaly.select r) = (-1)%Z)) as [Hp|Hp].
    - cbn. f_equal. exact IH.
    - exact IH. }
  rewrite Hcount. repeat split. unfold outliers. apply length_filter.
Qed.

(** X16: a trained detector.  When the row has the three columns
    [total_steps], [sleep_duration_minutes] and [sleep_variance_7d], the
    forest is asked about these three cells in this order and the answer
    has [is_anomaly] (prediction -1) and [severity_score], no [error] and no
    [score] entry; when one of the three is missing, the answer has an
    [error] entry and neither [is_anomaly] nor [severity_score]. *)
Theorem check_anomaly_trained (self : Anomaly.AnomalyDetector Forest)
    (day_row : gmap string R) :
  Anomaly.is_trained self = true →
  (∀ steps sleep var,
     day_row !! "total_steps" = Some steps →
     day_row !! "sleep_duration_minutes" = Some sleep →
     day_row !! "sleep_variance_7d" = Some var →
     anomaly_check self day_row !! "is_anomaly"
       = Some (VBool (bool_decide
                 (forest_predict (Anomaly.forest self) [steps; sleep; var] = (-1)%Z))) ∧
     anomaly_check self day_row !! "severity_score"
       = Some (VFloat (decision_function (Anomaly.forest self) [steps; sleep; var])) ∧
     anomaly_check self day_row !! "error" = None ∧
     anomaly_check self day_row !! "score" = None) ∧
  (day_row !! "total_steps" = None ∨ day_row !! "sleep_duration_minutes" = None
   ∨ day_row !! "sleep_variance_7d" = None →
     anomaly_check self day_row !! "is_anomaly" = None ∧
     anomaly_check self day_row !! "severity_score" = None ∧
     is_Some (anomaly_check self day_row !! "error")).
Proof.
  intros Htrained. unfold Anomaly.check_anomaly. rewrite Htrained. cbn [negb].
  unfold Anomaly.feature_cols. cbn [mapM].
  split.
  - intros steps sleep var -> -> ->. cbn. repeat split; reflexivity.
  - intros Hmiss.
    assert (Hnone : (day_row !! "total_steps" ≫= λ x,
                       (day_row !! "sleep_duration_minutes" ≫= λ y,
                          (day_row !! "sleep_variance_7d" ≫= λ z,
                             Some [x; y; z]))) = None).
    { destruct Hmiss as [->| [->| ->]]; [reflexivity| |].
      - destruct (day_row !! "total_steps"); reflexivity.
      - destruct (day_row !! "total_steps"); [|reflexivity].
        destruct (day_row !! "sleep_duration_minutes"); reflexivity. }
    cbn in Hnone |- *.
    destruct (day_row !! "total_steps") as [x|]; cbn in *;
      [destruct (day_row !! "sleep_duration_minutes") as [y|]; cbn in *;
         [destruct (day_row !! "sleep_variance_7d") as [z|]; cbn in *;
            [discriminate Hnone|] |] |];
      (repeat split; [reflexivity..| eexists; reflexivity]).
Qed.

End AnomalyTraining.

(** Fourteen days and a forest that finds no outlier. *)
Lemma anomaly_train_success_witness :
  let df := Features.enhance
    (diary [true; false; true; true; false; true; true;
            false; true; true; true; false; false; true]) in
  (Anomaly.train (λ (f : unit) _, f) (λ _ _, 1%Z) (Anomaly.init ()) df).2
    = {| Anomaly.forest := (); Anomaly.is_trained := true |}.
Proof.
  intros df.
  apply (anomaly_train_success unit (λ (f : unit) _, f) (λ _ _, 1%Z)
           (Anomaly.init ()) df).
  unfold df. rewrite length_enhance. unfold Features.sort_values.
  rewrite (Permutation_length (merge_sort_Permutation _ _)). cbn. lia.
Defined.

(** A trained detector asked about a row without any column. *)
Lemma check_anomaly_trained_witness :
  Anomaly.check_anomaly (λ (f : unit) _, 1%Z) (λ _ _, 0%Q)
    {| Anomaly.forest := (); Anomaly.is_trained := true |} ∅ !! "is_anomaly" = None.
Proof.
  apply (check_anomaly_trained unit (λ (f : unit) _, 1%Z) (λ _ _, 0%Q)
           {| Anomaly.forest := (); Anomaly.is_trained := true |} ∅ eq_refl).
  left. reflexivity.
Defined.

(** ** Training and inference of the burnout model *)

Section BurnoutTraining.
Import Py Schemas Features.

Variable CoxPHFitter : Type.
Variable cox_fit : CoxPHFitter → list Burnout.Episode → CoxPHFitter * option string.
Variable concordance_index_ : CoxPHFitter → value.
Variable params_ : CoxPHFitter → value.
Variable predict_partial_hazard : CoxPHFitter → gmap string Q → Q.

Local Abbreviation burnout_train := (Burnout.train cox_fit concordance_index_ params_).
Local Abbreviation burnout_risk := (Burnout.predict_current_risk predict_partial_hazard).


End BurnoutTraining.


(** ** The survival table: shape of the episodes *)

Section EpisodeShape.
Import Py Schemas Features Burnout.

Local Open Scope Z_scope.

Lemma length_omap_le {A B} (f : A → option B) (l : list A) :
  (length (omap f l) ≤ length l)%nat.
Proof.
  induction l as [|x l IH]; [reflexivity|].
  rewrite omap_cons_list. destruct (f x); cbn; lia.
Qed.

Lemma Forall_omap {A B} (f : A → option B) (P : A → Prop) (Q : B → Prop) (l : list A) :
  (∀ x y, P x → f x = Some y → Q y) → Forall P l → Forall Q (omap f l).
Proof.
  intros Hf. induction 1 as [|x l Hx _ IH]; [constructor|].
  rewrite omap_cons_list. destruct (f x) as [y|] eqn:Hy; cbn; [|exact IH].
  constructor; [eapply Hf; eassumption | exact IH].
Qed.

Lemma aggregate_span_fields df sp e :
  aggregate_span df sp = Some e →
  event e = span_event sp ∧ duration e = span_end sp - span_start sp ∧
  (3 ≤ length (filter (λ r, (span_start sp ≤ index r ∧ index r ≤ span_end sp)%Z) df))%nat.
Proof.
  unfold aggregate_span, _aggregate_period. cbv zeta.
  destruct (Nat.ltb_spec
              (length (filter (λ r, span_start sp ≤ index r ∧ index r ≤ span_end sp) df)) 3);
    [discriminate|].
  intros [= <-]. cbn. repeat split. assumption.
Qed.

Lemma walk_spans_events df dates : ∀ cs,
  Forall (λ sp, span_event sp = 1) (walk_spans df dates cs).2 ∧
  (length (walk_spans df dates cs).2 ≤ length dates)%nat.
Proof.
  induction dates as [|d dates IH]; intros cs; cbn [walk_spans].
  - split; [constructor | reflexivity].
  - case_bool_decide.
    + destruct (next_success df d) as [s|]; cbn [snd length].
      * destruct (IH s) as [Hev Hlen]. split; [constructor; [reflexivity|exact Hev] | lia].
      * split; [repeat constructor | lia].
    + destruct (IH cs) as [Hev Hlen]. split; [exact Hev | cbn; lia].
Qed.

(** The spans of a table: those closed by a death date, then at most one
    open span. *)
Lemma segments_shape thr df0 :
  ∃ closed open,
    segments thr df0 = closed ++ open ∧
    Forall (λ sp, span_event sp = 1) closed ∧
    Forall (λ sp, span_event sp = 0) open ∧
    (length closed ≤ length (dropout_dates thr (sort_index df0)))%nat ∧
    (length open ≤ 1)%nat.
Proof.
  unfold segments. cbv zeta.
  destruct (head (sort_index df0)) as [first|];
    [|exists [], []; repeat split; try constructor; cbn; lia].
  destruct (last (sort_index df0)) as [last_row|];
    [|exists [], []; repeat split; try constructor; cbn; lia].
  assert (Hlen : length (merge_sort Z.le (dropout_dates thr (sort_index df0)))
                 = length (dropout_dates thr (sort_index df0)))
    by (apply Permutation_length, merge_sort_Permutation).
  destruct (merge_sort Z.le _) as [|d dates] eqn:Hdates.
  - exists [], [(index first, index last_row, 0)].
    repeat split; try constructor; try reflexivity; try constructor; cbn; lia.
  - destruct (walk_spans_events (sort_index df0) (d :: dates) (index first))
      as [Hev Hl].
    destruct (walk_spans _ (d :: dates) _) as [[s|] sps]; cbn [snd] in Hev, Hl.
    + case_bool_decide.
      * exists sps, [(s, index last_row, 0)].
        repeat split; try assumption; try (repeat constructor); cbn; lia.
      * exists sps, []. rewrite app_nil_r.
        repeat split; try assumption; try constructor; cbn; lia.
    + exists sps, []. rewrite app_nil_r.
      repeat split; try assumption; try constructor; cbn; lia.
Qed.

(** X19: on a table with rows, [prepare_data] returns the died episodes
    (event 1) first, at most one for each dropout date, and then at most
    one censored episode (event 0): a censored episode is always the last
    row of the survival table. *)
Theorem prepare_data_event_shape (thr : Z) (df0 : list FeatureRow) :
  df0 ≠ [] →
  ∃ died censored,
    prepare_data thr df0 = Return (died ++ censored) ∧
    Forall (λ e, event e = 1) died ∧
    Forall (λ e, event e = 0) censored ∧
    (length died ≤ length (dropout_dates thr (sort_index df0)))%nat ∧
    (length censored ≤ 1)%nat.
Proof.
  intros Hne.
  destruct (segments_shape thr df0) as (closed & open & Heq & Hc & Ho & Hlc & Hlo).
  exists (omap (aggregate_span (sort_index df0)) closed),
         (omap (aggregate_span (sort_index df0)) open).
  split; [rewrite prepare_data_segments, Heq, omap_app by exact Hne; reflexivity|].
  split; [|split; [|split]].
  - eapply Forall_omap; [|exact Hc]. cbn. intros sp e Hsp He.
    apply aggregate_span_fields in He as (-> & _). exact Hsp.
  - eapply Forall_omap; [|exact Ho]. cbn. intros sp e Hsp He.
    apply aggregate_span_fields in He as (-> & _). exact Hsp.
  - etransitivity; [apply length_omap_le | exact Hlc].
  - etransitivity; [apply length_omap_le | exact Hlo].
Qed.

(** Rows with distinct dates inside [[a, b]] are at most [b - a + 1]. *)
Lemma distinct_dates_count (l : list FeatureRow) (a b : Z) :
  NoDup (index <$> l) → Forall (λ r, a ≤ index r ∧ index r ≤ b) l →
  Z.of_nat (length l) ≤ Z.max 0 (b - a + 1).
Proof.
  intros Hnd Hall.
  assert (Hsub : (index <$> l) ⊆+ seqZ a (b - a + 1)).
  { apply NoDup_submseteq; [exact Hnd|]. intros d Hd.
    apply list_elem_of_fmap in Hd as (r & -> & Hr).
    rewrite Forall_forall in Hall. specialize (Hall r Hr).
    apply elem_of_seqZ. lia. }
  apply submseteq_length in Hsub. rewrite length_fmap, length_seqZ in Hsub. lia.
Qed.

Lemma NoDup_sort_index df0 : NoDup (index <$> df0) → NoDup (index <$> sort_index df0).
Proof.
  intros Hnd. unfold sort_index.
  rewrite (merge_sort_Permutation index_le df0). exact Hnd.
Qed.

(** X20: on a table with distinct dates, every episode [prepare_data]
    returns has a duration of at least 2 days: an episode needs three rows,
    so it spans at least three calendar days. *)
Theorem episode_spans_three_days (thr : Z) (df0 : list FeatureRow)
    (eps : list Episode) :
  NoDup (index <$> df0) →
  prepare_data thr df0 = Return eps →
  Forall (λ e, 2 ≤ duration e) eps.
Proof.
  intros Hnd Heps.
  assert (Hne : df0 ≠ []) by (intros ->; discriminate Heps).
  rewrite prepare_data_segments in Heps by exact Hne. injection Heps as <-.
  apply Forall_forall. intros e He.
  apply list_elem_of_omap in He as (sp & _ & He).
  apply aggregate_span_fields in He as (_ & -> & Hrows).
  set (subset := filter (λ r, span_start sp ≤ index r ∧ index r ≤ span_end sp)
                   (sort_index df0)) in Hrows.
  assert (Hcount : Z.of_nat (length subset) ≤ Z.max 0 (span_end sp - span_start sp + 1)).
  { apply distinct_dates_count.
    - eapply sublist_NoDup; [apply NoDup_sort_index, Hnd|].
      apply fmap_sublist, sublist_filter.
    - apply Forall_forall. intros r Hr.
      apply list_elem_of_filter in Hr as [Hr _]. exact Hr. }
  lia.
Qed.

Lemma sublist_omap_weaker {A B} (f g : A → option B) (l : list A) :
  (∀ x y, g x = Some y → f x = Some y) → omap g l `sublist_of` omap f l.
Proof.
  intros Hfg. induction l as [|x l IH]; [constructor|].
  rewrite !omap_cons_list.
  destruct (g x) as [y|] eqn:Hg.
  - rewrite (Hfg x y Hg). cbn. apply sublist_skip, IH.
  - destruct (f x); cbn; [apply sublist_cons, IH | exact IH].
Qed.

Lemma length_groupby_group {A} (rows : list (nat * A)) (g : nat * list A) :
  g ∈ Pd.groupby rows → (length g.2 ≤ length rows)%nat.
Proof.
  unfold Pd.groupby. intros Hg.
  apply list_elem_of_fmap in Hg as (k & -> & _). cbn.
  rewrite length_fmap. apply sublist_length, sublist_filter.
Qed.

(** No miss block is longer than the table. *)
Lemma dropout_dates_none (df : list FeatureRow) (thr : Z) :
  Z.of_nat (length df) < thr → dropout_dates thr df = [].
Proof.
  intros Hbig. unfold dropout_dates.
  assert (Hall : Forall (λ g : nat * list FeatureRow,
                   (if bool_decide (thr ≤ Z.of_nat (length g.2))
                    then index <$> head g.2 else None) = None)
                 (Pd.groupby (miss_rows df))).
  { apply Forall_forall. intros g Hg.
    apply length_groupby_group in Hg.
    assert (length (miss_rows df) ≤ length df)%nat.
    { unfold miss_rows.
      etransitivity; [apply sublist_length, sublist_filter|].
      rewrite length_zip_with. lia. }
    rewrite bool_decide_eq_false_2 by lia. reflexivity. }
  induction Hall as [|g gs Hg _ IH]; [reflexivity|].
  rewrite omap_cons_list, Hg. exact IH.
Qed.

(** X18: raising the dropout threshold never adds a dropout event: the
    dropout dates for a larger threshold are a sub-sequence of those for a
    smaller one, and a threshold above the number of rows gives none. *)
Theorem dropout_dates_threshold (df : list FeatureRow) (thr thr' : Z) :
  (thr ≤ thr' → dropout_dates thr' df `sublist_of` dropout_dates thr df) ∧
  (Z.of_nat (length df) < thr → dropout_dates thr df = []).
Proof.
  split.
  - intros Hle. unfold dropout_dates. apply sublist_omap_weaker.
    intros g d. repeat case_bool_decide; try discriminate; try lia. tauto.
  - apply dropout_dates_none.
Qed.

(** The table with three miss blocks. *)
Lemma prepare_data_event_shape_witness :
  ∃ died censored,
    prepare_data 5 three_dropouts = Return (died ++ censored) ∧
    (length censored ≤ 1)%nat.
Proof.
  destruct (prepare_data_event_shape 5 three_dropouts three_dropouts_rows)
    as (died & censored & Heq & _ & _ & _ & Hlen).
  exists died, censored. split; assumption.
Defined.

Lemma episode_spans_three_days_witness :
  ∃ eps, prepare_data 5 three_dropouts = Return eps ∧
         Forall (λ e, (2 ≤ duration e)%Z) eps.
Proof.
  destruct (prepare_data 5 three_dropouts) as [eps|e] eqn:Heps.
  - exists eps. split; [reflexivity|].
    apply (episode_spans_three_days 5 three_dropouts eps); [|exact Heps].
    apply (bool_decide_unpack (NoDup (index <$> three_dropouts))).
    vm_compute. exact I.
  - pose proof three_dropouts_code as Hcode. rewrite Heps in Hcode. discriminate Hcode.
Defined.

End EpisodeShape.

(** ** The daily aggregator *)

Section AggregatorProperties.
Import Aggregator.

Lemma bucket_eta (b : bucket) :
  {| steps := steps b; exercise := exercise b; sleep := sleep b |} = b.
Proof. destruct b; reflexivity. Qed.

Lemma events_on_cons ty d e events :
  events_on ty d (e :: events)
    = if decide (event_type e = ty ∧ reporting_date e = Some d)
      then e :: events_on ty d events else events_on ty d events.
Proof. unfold events_on. rewrite filter_cons. reflexivity. Qed.

(** Decide the membership tests of a one-event stream. *)
Ltac decide_kind :=
  repeat match goal with
    | |- context [decide ?P] =>
        first
          [ rewrite (decide_True (P := P)) by (split; reflexivity)
          | rewrite (decide_False (P := P))
              by (intros [H1 H2];
                  first [discriminate H1 | discriminate H2
                        | injection H2; intros; contradiction]) ]
    end.

(** One step of the first loop, seen from day [d]. *)
Lemma bucket_at_add m e d :
  bucket_at (add m e) d
    = {| steps := steps (bucket_at m d) ++ events_on STEPS d [e];
         exercise := exercise (bucket_at m d) ++ events_on EXERCISE d [e];
         sleep := sleep (bucket_at m d) ++ events_on SLEEP d [e] |}.
Proof.
  unfold add, bucket_at, events_on, reporting_date.
  rewrite !filter_cons, !filter_nil.
  destruct (event_type e) eqn:Hty; cbv zeta.
  - destruct (decide (date_of (start_time e) = d)) as [<-|Hd].
    + rewrite lookup_insert_eq. cbn [default steps exercise sleep].
      decide_kind. rewrite !app_nil_r. reflexivity.
    + rewrite lookup_insert_ne by exact Hd.
      decide_kind. rewrite !app_nil_r. symmetry. apply bucket_eta.
  - destruct (decide (date_of (end_time e) = d)) as [<-|Hd].
    + rewrite lookup_insert_eq. cbn [default steps exercise sleep].
      decide_kind. rewrite !app_nil_r. reflexivity.
    + rewrite lookup_insert_ne by exact Hd.
      decide_kind. rewrite !app_nil_r. symmetry. apply bucket_eta.
  - destruct (decide (date_of (start_time e) = d)) as [<-|Hd].
    + rewrite lookup_insert_eq. cbn [default steps exercise sleep].
      decide_kind. rewrite !app_nil_r. reflexivity.
    + rewrite lookup_insert_ne by exact Hd.
      decide_kind. rewrite !app_nil_r. symmetry. apply bucket_eta.
  - decide_kind. rewrite !app_nil_r. symmetry. apply bucket_eta.
Qed.

Lemma is_Some_add m e d :
  is_Some (add m e !! d) ↔ is_Some (m !! d) ∨ reporting_date e = Some d.
Proof.
  unfold add, reporting_date. destruct (event_type e); cbv zeta.
  - rewrite lookup_insert_is_Some. split.
    + intros [->|[_ H]]; [right; reflexivity | left; exact H].
    + intros [H|[= H]]; [|left; exact H].
      destruct (decide (date_of (start_time e) = d)); [left|right]; tauto.
  - rewrite lookup_insert_is_Some. split.
    + intros [->|[_ H]]; [right; reflexivity | left; exact H].
    + intros [H|[= H]]; [|left; exact H].
      destruct (decide (date_of (end_time e) = d)); [left|right]; tauto.
  - rewrite lookup_insert_is_Some. split.
    + intros [->|[_ H]]; [right; reflexivity | left; exact H].
    + intros [H|[= H]]; [|left; exact H].
      destruct (decide (date_of (start_time e) = d)); [left|right]; tauto.
  - split; [tauto | intros [H|H]; [exact H | discriminate H]].
Qed.

Lemma events_on_app ty d l1 l2 :
  events_on ty d (l1 ++ l2) = events_on ty d l1 ++ events_on ty d l2.
Proof. unfold events_on. apply filter_app. Qed.

(** The first loop, seen from day [d]. *)
Lemma bucket_at_fill events : ∀ m d,
  bucket_at (foldl add m events) d
    = {| steps := steps (bucket_at m d) ++ events_on STEPS d events;
         exercise := exercise (bucket_at m d) ++ events_on EXERCISE d events;
         sleep := sleep (bucket_at m d) ++ events_on SLEEP d events |}.
Proof.
  induction events as [|e events IH]; intros m d.
  - cbn. rewrite !app_nil_r. symmetry. apply bucket_eta.
  - cbn [foldl]. rewrite IH, bucket_at_add. cbn [steps exercise sleep].
    rewrite <- !app_assoc.
    change (e :: events) with ([e] ++ events). rewrite !events_on_app. reflexivity.
Qed.

Lemma is_Some_fill events : ∀ m d,
  is_Some (foldl add m events !! d)
  ↔ is_Some (m !! d) ∨ ∃ e, e ∈ events ∧ reporting_date e = Some d.
Proof.
  induction events as [|e events IH]; intros m d.
  - cbn. split; [tauto|]. intros [H|(e & He & _)]; [exact H|].
    apply elem_of_nil in He. contradiction.
  - cbn [foldl]. rewrite IH, is_Some_add. split.
    + intros [[H|H]|(e' & He' & H)].
      * left. exact H.
      * right. exists e. split; [apply list_elem_of_here | exact H].
      * right. exists e'. split; [apply list_elem_of_further, He' | exact H].
    + intros [H|(e' & He' & H)]; [tauto|].
      apply elem_of_cons in He' as [->|He']; [tauto|].
      right. exists e'. tauto.
Qed.

Lemma aggregate_dates events :
  date <$> aggregate events
    = merge_sort Z.le (map_to_list (foldl add ∅ events)).*1.
Proof.
  unfold aggregate. cbv zeta. apply list_eq. intros i.
  rewrite !list_lookup_fmap.
  destruct (merge_sort Z.le _ !! i); reflexivity.
Qed.

Lemma sorted_le_lt (l : list Z) :
  NoDup l → StronglySorted Z.le l → StronglySorted Z.lt l.
Proof.
  intros Hnd Hs. induction Hs as [|x l Hs IH Hx]; [constructor|].
  apply NoDup_cons in Hnd as [Hnx Hnd].
  constructor; [apply IH, Hnd|].
  rewrite Forall_forall in Hx |- *. intros y Hy. specialize (Hx y Hy).
  assert (x ≠ y) by (intros ->; contradiction). lia.
Qed.

Lemma elem_of_keys (m : gmap Z bucket) (d : Z) :
  d ∈ (map_to_list m).*1 ↔ is_Some (m !! d).
Proof.
  rewrite list_elem_of_fmap. split.
  - intros ([d' b] & -> & Hin). apply elem_of_map_to_list in Hin. eexists. exact Hin.
  - intros [b Hb]. exists (d, b). split; [reflexivity|].
    apply elem_of_map_to_list, Hb.
Qed.

Lemma aggregate_dates_in events d :
  d ∈ date <$> aggregate events ↔ ∃ e, e ∈ events ∧ reporting_date e = Some d.
Proof.
  rewrite aggregate_dates, merge_sort_Permutation, elem_of_keys, is_Some_fill.
  rewrite lookup_empty. split; [|tauto].
  intros [[b Hb]|H]; [discriminate Hb | exact H].
Qed.

Lemma aggregate_dates_sorted events :
  StronglySorted Z.lt (date <$> aggregate events).
Proof.
  rewrite aggregate_dates. apply sorted_le_lt.
  - rewrite merge_sort_Permutation. apply NoDup_fst_map_to_list.
  - apply StronglySorted_merge_sort; apply _.
Qed.

Lemma aggregate_row events r :
  r ∈ aggregate events → r = daily (date r) (bucket_on (date r) events).
Proof.
  unfold aggregate. cbv zeta. intros Hr.
  apply list_elem_of_fmap in Hr as (d & -> & _). cbn [date daily].
  f_equal. rewrite bucket_at_fill. reflexivity.
Qed.

(** X21: [aggregate] returns its rows in strictly increasing date order,
    one row for each day on which a steps or exercise event starts or a
    sleep event ends, and no row for any other day; the row of a day is
    computed from the events counted for that day, taken in stream order. *)
Theorem aggregate_days (events : list RawHealthEvent) :
  StronglySorted Z.lt (date <$> aggregate events) ∧
  (∀ d, d ∈ date <$> aggregate events
        ↔ ∃ e, e ∈ events ∧ reporting_date e = Some d) ∧
  (∀ r, r ∈ aggregate events → r = daily (date r) (bucket_on (date r) events)).
Proof.
  split; [apply aggregate_dates_sorted|].
  split; [apply aggregate_dates_in | apply aggregate_row].
Qed.

Lemma main_sleep_max_from (l : list RawHealthEvent) : ∀ best,
  let m := foldl (λ best y, if Py.gtb (value y) (value best) then y else best) best l in
  (value best <= value m)%Q ∧ ∀ e, e ∈ l → (value e <= value m)%Q.
Proof.
  induction l as [|y l IH]; intros best; cbn [foldl].
  - split; [apply Qle_refl|]. intros e He. apply elem_of_nil in He. contradiction.
  - destruct (IH (if Py.gtb (value y) (value best) then y else best)) as [Hb Hl].
    destruct (Py.gtb (value y) (value best)) eqn:Hg; py_tests.
    + split; [eapply Qle_trans; [apply Qlt_le_weak, Hg | exact Hb]|].
      intros e He. apply elem_of_cons in He as [->|He]; [exact Hb | apply Hl, He].
    + split; [exact Hb|].
      intros e He. apply elem_of_cons in He as [->|He]; [|apply Hl, He].
      eapply Qle_trans; [exact Hg | exact Hb].
Qed.

Lemma main_sleep_max (l : list RawHealthEvent) e :
  e ∈ l → (value e <= default 0%Q (value <$> main_sleep l))%Q.
Proof.
  destruct l as [|x l]; intros He; [apply elem_of_nil in He; contradiction|].
  cbn [main_sleep fmap option_fmap option_map default].
  destruct (main_sleep_max_from l x) as [Hx Hl].
  apply elem_of_cons in He as [->|He]; [exact Hx | apply Hl, He].
Qed.

(** X22: the totals of a row.  [total_steps] is the sum of the truncated
    values of the steps events that start on the day, [exercise_minutes] the
    sum of the values of the exercise events that start on it;
    [sleep_duration_minutes] is at least the value of every sleep event that
    ends on the day and is 0 when there is none; [exercise_done] holds
    exactly when [exercise_minutes] is positive, [data_missing_flag] exactly
    when there are no steps and no sleep; [sedentary_minutes] is never
    negative. *)
Theorem aggregate_totals (events : list RawHealthEvent) (r : Daily) :
  r ∈ aggregate events →
  total_steps r = sum_int (events_on STEPS (date r) events) ∧
  exercise_minutes r = sum_float (events_on EXERCISE (date r) events) ∧
  (∀ e, e ∈ events_on SLEEP (date r) events →
     (value e <= sleep_duration_minutes r)%Q) ∧
  (events_on SLEEP (date r) events = [] → sleep_duration_minutes r = 0%Q) ∧
  (exercise_done r = true ↔ (0 < exercise_minutes r)%Q) ∧
  (data_missing_flag r = true
   ↔ total_steps r = 0%Z ∧ (sleep_duration_minutes r == 0)%Q) ∧
  (0 <= sedentary_minutes r)%Q.
Proof.
  intros Hr. rewrite (aggregate_row events r Hr).
  cbn [daily total_steps exercise_minutes sleep_duration_minutes exercise_done
       data_missing_flag sedentary_minutes date bucket_on steps exercise sleep].
  split; [reflexivity|]. split; [reflexivity|].
  split; [intros e He; apply main_sleep_max, He|].
  split; [intros ->; reflexivity|].
  split; [apply gtb_gt|].
  split.
  - rewrite andb_true_iff, Z.eqb_eq, Qeq_bool_iff. reflexivity.
  - match goal with |- context [Py.gtb ?x 0] => destruct (Py.gtb x 0) eqn:Hg end;
      py_tests; [apply Qlt_le_weak, Hg | apply Qle_refl].
Qed.

Lemma fill_heart_rate events : ∀ m,
  foldl add m (filter (λ e, event_type e ≠ HEART_RATE) events) = foldl add m events.
Proof.
  induction events as [|e events IH]; intros m; [reflexivity|].
  rewrite filter_cons. destruct (decide (event_type e ≠ HEART_RATE)) as [Hty|Hty].
  - cbn [foldl]. apply IH.
  - cbn [foldl]. rewrite IH. f_equal. unfold add.
    destruct (event_type e); try (exfalso; apply Hty; discriminate). reflexivity.
Qed.

(** X23: heart-rate events are ignored: removing them from the stream does
    not change the result, and a stream of heart-rate events alone gives no
    row. *)
Theorem aggregate_ignores_heart_rate (events : list RawHealthEvent) :
  aggregate (filter (λ e, event_type e ≠ HEART_RATE) events) = aggregate events ∧
  (Forall (λ e, event_type e = HEART_RATE) events → aggregate events = []).
Proof.
  split.
  - unfold aggregate. rewrite fill_heart_rate. reflexivity.
  - intros Hall.
    assert (Hfill : foldl add ∅ events = ∅).
    { generalize (∅ : gmap Z bucket) as m.
      induction Hall as [|e events He _ IH]; intros m; [reflexivity|].
      cbn [foldl]. rewrite IH. unfold add. rewrite He. reflexivity. }
    unfold aggregate. rewrite Hfill. reflexivity.
Qed.

(** X24: the feature engineer keeps the rows of the aggregator: the frame
    [enhance] builds from the output of [aggregate] has exactly these
    records, in the same order. *)
Theorem aggregate_then_enhance (events : list RawHealthEvent) :
  Features.day <$> Features.enhance (behavior <$> aggregate events)
    = behavior <$> aggregate events.
Proof.
  rewrite day_enhance.
  assert (Hdates : Schemas.date <$> (behavior <$> aggregate events)
                   = date <$> aggregate events).
  { rewrite <- list_fmap_compose. reflexivity. }
  pose proof (aggregate_dates_sorted events) as Hs. rewrite <- Hdates in Hs.
  apply sort_values_unique; [|reflexivity|].
  - revert Hs. generalize (behavior <$> aggregate events) as l. intros l.
    induction l as [|x l IH]; intros Hs; [constructor|]. cbn in Hs |- *.
    apply StronglySorted_inv in Hs as [Hs Hx].
    apply NoDup_cons. split; [|apply IH, Hs].
    intros Hin. rewrite Forall_forall in Hx. specialize (Hx _ Hin). lia.
  - apply StronglySorted_Sorted.
    revert Hs. generalize (behavior <$> aggregate events) as l. intros l.
    induction l as [|x l IH]; intros Hs; [constructor|]. cbn in Hs.
    apply StronglySorted_inv in Hs as [Hs Hx].
    constructor; [apply IH, Hs|].
    rewrite Forall_fmap in Hx. eapply Forall_impl; [exact Hx|].
    cbn. intros y Hy. unfold Features.date_le. lia.
Qed.

End AggregatorProperties.

Section AggregatorExamples.
Import Aggregator.

(** A night of sleep that ends on day 1, a walk and a heart-rate sample on
    day 1, a workout on day 2. *)
Lemma aggregate_totals_witness :
  let night := {| event_type := SLEEP; start_time := 82800000000%Z;
                  end_time := 111600000000%Z; value := 480%Q |} in
  let walk := {| event_type := STEPS; start_time := 118800000000%Z;
                 end_time := 120600000000%Z; value := 1200.7%Q |} in
  let pulse := {| event_type := HEART_RATE; start_time := 118800000000%Z;
                  end_time := 118800000000%Z; value := 64%Q |} in
  let workout := {| event_type := EXERCISE; start_time := 190800000000%Z;
                    end_time := 192600000000%Z; value := 30%Q |} in
  ∃ r, r ∈ aggregate [workout; night; pulse; walk] ∧
       date r = 1%Z ∧ total_steps r = 1200%Z.
Proof.
  intros night walk pulse workout.
  assert (Hagg : ∃ r r', aggregate [workout; night; pulse; walk] = [r; r'] ∧ date r = 1%Z)
    by (eexists; eexists; split; [vm_compute; reflexivity | reflexivity]).
  destruct Hagg as (r & r' & Hagg & Hdate).
  assert (Hr : r ∈ aggregate [workout; night; pulse; walk])
    by (rewrite Hagg; apply list_elem_of_here).
  exists r. split; [exact Hr|]. split; [exact Hdate|].
  destruct (aggregate_totals [workout; night; pulse; walk] r Hr) as (Hsteps & _).
  rewrite Hsteps, Hdate. reflexivity.
Defined.

End AggregatorExamples.

(** ** The training endpoint *)

Section ApiProperties.
Import Py Schemas Features.

Variable Estimator : Type.
Variable sk_fit : Estimator → list (list R) → list nat → Estimator * option exn.
Variable sk_evaluate : Estimator → list (list R) → list nat → value * value * value.
Variable predict_proba : Estimator → list R → Q.

Variable CoxPHFitter : Type.
Variable cox_fit : CoxPHFitter → list Burnout.Episode → CoxPHFitter * option string.
Variable concordance_index_ : CoxPHFitter → value.
Variable params_ : CoxPHFitter → value.
Variable predict_partial_hazard : CoxPHFitter → gmap string Q → Q.

Local Abbreviation train_custom :=
  (Api.train_custom sk_fit sk_evaluate cox_fit concordance_index_ params_).

Lemma length_enhance_history (l : list DailyBehavior) : length (enhance l) = length l.
Proof.
  rewrite length_enhance. unfold sort_values.
  apply Permutation_length, merge_sort_Permutation.
Qed.

(** Fewer than 11 records: the adherence model answers its error and stays
    as it was. *)
Lemma adherence_train_short self (l : list DailyBehavior) :
  (length l < 11)%nat →
  Api.metric (Adherence.train sk_fit sk_evaluate self (enhance l)).1 "accuracy"
    = VFloat 0.0 ∧
  (Adherence.train sk_fit sk_evaluate self (enhance l)).2 = self.
Proof.
  intros Hlen. unfold Adherence.train.
  pose proof (length_adherence_prepare_data (enhance l)) as HX.
  rewrite length_enhance_history in HX.
  destruct (Adherence.prepare_data (enhance l)) as [X y]. cbn [fst] in HX.
  replace (length X <? 10)%nat with true by (symmetry; apply Nat.ltb_lt; lia).
  split; reflexivity.
Qed.

(** Fewer records than the threshold: the burnout model raises or warns and
    stays as it was. *)
Lemma burnout_train_short self (l : list DailyBehavior) :
  (Z.of_nat (length l) < Burnout.dropout_threshold self)%Z →
  Api.metric (Burnout.train cox_fit concordance_index_ params_ self (enhance l)).1
    "concordance" = VFloat 0.0 ∧
  (Burnout.train cox_fit concordance_index_ params_ self (enhance l)).2 = self.
Proof.
  intros Hlen. unfold Burnout.train.
  destruct (decide (enhance l = [])) as [->|Hne]; [split; reflexivity|].
  destruct (prepare_data_no_dropout (Burnout.dropout_threshold self) (enhance l) Hne)
    as (eps & -> & Heps & _).
  { apply dropout_dates_none. unfold Burnout.sort_index.
    rewrite (Permutation_length (merge_sort_Permutation _ _)), length_enhance_history.
    exact Hlen. }
  replace (length eps <? 2)%nat with true by (symmetry; apply Nat.ltb_lt; lia).
  split; reflexivity.
Qed.



End ApiProperties.

